(** * vscode-pull-request-github: credential store, webview providers, schema merge

    A shallow embedding of
      - [mergeQuerySchemaWithShared]            (src/github/common.ts)
      - [CredentialStore]                        (src/github/credentials.ts)
      - [PullRequestViewProvider]                (src/github/common.ts)
      - [(Base)CreatePullRequestViewProvider]    (src/github/createPRViewProvider.ts)
    and the properties of them that are stated in the specification.

    The extension code is sequential orchestration around the editor API and
    an HTTP client.  Every call that leaves the class under study (the editor
    window, the authentication API, the pull request model, the webview base
    class) is an _external call_: the program asks, the environment answers.
    A program is a tree of such calls; running it against an environment gives
    the list of calls made with their answers (the trace), the result, and the
    fields of [this] at the end. *)

From Stdlib Require Import ZArith Lia.
From stdpp Require Import base option list gmap strings fin_maps.

Set Default Proof Using "Type".

(* ===================================================================== *)
(** ** External calls, programs and their runs                           *)
(* ===================================================================== *)

(** What a JavaScript [throw] carries; the code only ever reads [e.message]. *)
Record Error := mkError { message : string }.

(** How a JavaScript function body ends: [return a] or [throw e]. *)
Inductive Outcome (A : Type) : Type :=
| Returned (a : A)
| Thrown (e : Error).
Arguments Returned {A} a.
Arguments Thrown {A} e.

Section Programs.
(** [E X]: the external calls whose answer has type [X]. *)
Context {E : Type -> Type}.

Inductive Prog (A : Type) : Type :=
| Ret (a : A)
| Vis {X : Type} (c : E X) (k : X -> Prog A).
Arguments Ret {A} a.
Arguments Vis {A X} c k.

Fixpoint pbind {A B} (p : Prog A) (f : A -> Prog B) : Prog B :=
  match p with
  | Ret a => f a
  | Vis c k => Vis c (fun x => pbind (k x) f)
  end.

(** One entry of a trace: the call and the answer it got. *)
Record Event : Type := Ev { ev_type : Type; ev_call : E ev_type; ev_answer : ev_type }.

(** An environment: a state [W] of its own and an answer to every call. *)
Definition Handler (W : Type) : Type := forall X, E X -> W -> X * W.

Fixpoint run {W A} (h : Handler W) (p : Prog A) (w : W) : list Event * A * W :=
  match p with
  | Ret a => ([], a, w)
  | Vis c k =>
      let '(x, w1) := h _ c w in
      let '(tr, a, w2) := run h (k x) w1 in
      (Ev _ c x :: tr, a, w2)
  end.

(** *** Method bodies: programs over the fields [S] of [this]

    A method gets the fields, makes its calls, and ends with an outcome and
    the fields as they are then: an assignment made before a [throw] stays. *)
Definition M (S A : Type) : Type := S -> Prog (Outcome A * S).

Definition ret {S A} (a : A) : M S A := fun s => Ret (Returned a, s).
Definition throw {S A} (e : Error) : M S A := fun s => Ret (Thrown e, s).

Definition bind {S A B} (m : M S A) (f : A -> M S B) : M S B :=
  fun s => pbind (m s) (fun r =>
    match r with
    | (Returned a, s1) => f a s1
    | (Thrown e, s1) => Ret (Thrown e, s1)
    end).

(** [try { m } catch (e) { f e }] *)
Definition try_catch {S A} (m : M S A) (f : Error -> M S A) : M S A :=
  fun s => pbind (m s) (fun r =>
    match r with
    | (Returned a, s1) => Ret (Returned a, s1)
    | (Thrown e, s1) => f e s1
    end).

Definition get {S} : M S S := fun s => Ret (Returned s, s).
Definition modify {S} (f : S -> S) : M S unit := fun s => Ret (Returned tt, f s).

(** A call that cannot fail (a synchronous editor API, an event emitter). *)
Definition call {S X} (c : E X) : M S X := fun s => Vis c (fun x => Ret (Returned x, s)).

(** [await c]: the promise resolves with a value or rejects with an error. *)
Definition await {S X} (c : E (Error + X)) : M S X :=
  fun s => Vis c (fun r =>
    match r with
    | inr x => Ret (Returned x, s)
    | inl e => Ret (Thrown e, s)
    end).

(** [if (b) { m }] *)
Definition when {S} (b : bool) (m : M S unit) : M S unit := if b then m else ret tt.

Definition exec {W S A} (h : Handler W) (m : M S A) (s : S) (w : W)
  : list Event * (Outcome A * S) * W := run h (m s) w.

(** Whatever the environment, a value that [m] returns satisfies [P]. *)
Definition returns {S A} (P : A -> Prop) (m : M S A) : Prop :=
  forall W (h : Handler W) (w w' : W) (s s' : S) tr out,
    exec h m s w = (tr, (out, s'), w') -> forall a, out = Returned a -> P a.

(** Every event of [tr] that satisfies [Q] has an event that satisfies [P]
    before it. *)
Definition preceded_by (P Q : Event -> Prop) (tr : list Event) : Prop :=
  forall tr1 e tr2, tr = tr1 ++ e :: tr2 -> Q e -> exists e', e' ∈ tr1 /\ P e'.

End Programs.

Arguments Prog E A : clear implicits.
Arguments Event E : clear implicits.
Arguments Handler E W : clear implicits.
Arguments M E S A : clear implicits.
Arguments Ev {E ev_type} ev_call ev_answer.

Declare Scope prog_scope.
Delimit Scope prog_scope with prog.
Notation "'let*' x ':=' m 'in' k" := (bind m (fun x => k))
  (at level 10, x name, m at level 100, k at level 200) : prog_scope.
Notation "m '>>' k" := (bind m (fun _ => k))
  (at level 100, k at level 200, right associativity) : prog_scope.
Open Scope prog_scope.

(** *** JavaScript odds and ends *)

(** Truthiness of a string: only the empty string is falsy. *)
Definition truthy (s : string) : bool := negb (String.eqb s "").

(** [!!o] for a value that is an object or [undefined]. *)
Definition defined {A} (o : option A) : bool :=
  match o with Some _ => true | None => false end.

(** [s.endsWith(suffix)] *)
Definition endsWith (s suffix : string) : bool :=
  let n := String.length s in
  let m := String.length suffix in
  (m <=? n)%nat && String.eqb (String.substring (n - m) m s) suffix.

(* ===================================================================== *)
(** ** [mergeQuerySchemaWithShared]  (src/github/common.ts)              *)
(* ===================================================================== *)

Module Schema.

(** Objects and arrays live in a heap and are handled by reference, so that
    "the inputs are left unmodified" is a statement about the heap. *)
Abbreviation loc := positive (only parsing).

Inductive JsValue : Type :=
| VUndefined
| VNull
| VBool (b : bool)
| VNum (n : Z)          (* integral numbers; values are only copied here *)
| VStr (s : string)
| VRef (l : loc).

Inductive HeapObj : Type :=
| HObject (fields : gmap string JsValue)
| HArray (elems : list JsValue).

Abbreviation Heap := (gmap loc HeapObj) (only parsing).

(** [new]: a location that is not in use. *)
Definition alloc (h : Heap) (o : HeapObj) : loc * Heap :=
  let l := fresh (dom h) in (l, <[l := o]> h).

(** [o.key] on a reference to a plain object; a missing key reads as
    [undefined]; [None]: the receiver is not an object (TypeError on
    [undefined], out of the [Schema] type otherwise). *)
Definition getField (h : Heap) (o : loc) (key : string) : option JsValue :=
  match h !! o with
  | Some (HObject fields) => Some (default VUndefined (fields !! key))
  | _ => None
  end.

(** [recv.concat(arg)] of [Array.prototype]: a new array; an array argument
    is spread, any other value is appended as one element.  [None]: [recv]
    is not an array. *)
Definition concat (h : Heap) (recv arg : JsValue) : option (loc * Heap) :=
  match recv with
  | VRef r =>
      match h !! r with
      | Some (HArray xs) =>
          let ys :=
            match arg with
            | VRef a => match h !! a with
                        | Some (HArray ys) => ys
                        | _ => [arg]
                        end
            | _ => [arg]
            end in
          Some (alloc h (HArray (xs ++ ys)))
      | _ => None
      end
  | _ => None
  end.

(** [{ ...a, ...b }] on plain objects: the keys of both, [b] winning. *)
Definition spread2 (a b : gmap string JsValue) : gmap string JsValue := b ∪ a.

Definition mergeQuerySchemaWithShared (h : Heap) (sharedSchema schema : loc)
  : option (loc * Heap) :=
  sharedSchemaDefinitions ← getField h sharedSchema "definitions";
  schemaDefinitions ← getField h schema "definitions";
  '(mergedDefinitions, h1) ← concat h schemaDefinitions sharedSchemaDefinitions;
  match h1 !! schema, h1 !! sharedSchema with
  | Some (HObject schemaFields), Some (HObject sharedFields) =>
      Some (alloc h1 (HObject
              (<["definitions" := VRef mergedDefinitions]>
                 (spread2 schemaFields sharedFields))))
  | _, _ => None
  end.

End Schema.

(* ===================================================================== *)
(** ** [CredentialStore]  (src/github/credentials.ts)                    *)
(* ===================================================================== *)

Module Credentials.

(** [AuthProvider] of common/authentication: the two providers the store
    keeps a hub for. *)
Module AuthProvider.
Inductive t : Type := github | githubEnterprise.
End AuthProvider.
Abbreviation AuthProvider := AuthProvider.t (only parsing).

(** The parts of [vscode.Uri] that [createHub] reads. *)
Record Uri : Type := mkUri { scheme : string; authority : string }.

(** What credentials.ts takes from modules that are not among the sources at
    hand: [isEnterprise], [hasEnterpriseUri()] and [getEnterpriseUri()] of
    ./utils (the latter two read the settings, which do not change during one
    call) and [vscode.env.uiKind === vscode.UIKind.Web]. *)
Class Host : Type := mkHost {
  isEnterprise : AuthProvider -> bool;
  hasEnterpriseUri : bool;
  getEnterpriseUri : option Uri;
  uiKindIsWeb : bool;
  l10n_t : string -> string
}.

Definition SCOPES_OLDEST : list string := ["read:user"; "user:email"; "repo"].
Definition SCOPES_OLD : list string := ["read:user"; "user:email"; "repo"; "workflow"].
Definition SCOPES_WITH_ADDITIONAL : list string :=
  ["read:user"; "user:email"; "repo"; "workflow"; "project"; "read:org"].

Definition LAST_USED_SCOPES_GITHUB_KEY : string := "githubPullRequest.lastUsedScopes".
Definition LAST_USED_SCOPES_ENTERPRISE_KEY : string := "githubPullRequest.lastUsedScopesEnterprise".

(** The options object given to [new Octokit(...)]; [request_fetch] tells
    whether [fetchCore] was defined. *)
Record OctokitOptions : Type := mkOctokitOptions {
  request_fetch : bool;
  userAgent : string;
  previews : list string;
  auth : string;
  baseUrl : string
}.

(** What [link(url, token)] builds: the headers it sets and the [uri] of the
    http link. *)
Record HttpLink : Type := mkHttpLink {
  authorization : string;
  Accept : string;
  uri : string
}.

(** [interface GitHub]: a client is represented by what it was built from.
    [currentUser] and [isEmu] are promises started by [setCurrentUser]. *)
Record GitHub : Type := mkGitHub {
  octokit : OctokitOptions;
  graphql : HttpLink
}.

Record AuthResult : Type := mkAuthResult { canceled : bool }.

(** [vscode.AuthenticationSession], the fields read here. *)
Record AuthenticationSession : Type := mkSession {
  session_id : string;
  accessToken : string
}.

(** [forceNewSession?: boolean | { detail: string }] *)
Inductive ForceNewSession : Type :=
| ForceBool (b : bool)
| ForceDetail (detail : string).

(** [vscode.AuthenticationGetSessionOptions], the fields used here; [None] is
    [undefined]. *)
Record GetSessionOptions : Type := mkOptions {
  createIfNone : option bool;
  forceNewSession : option ForceNewSession;
  silent : option bool
}.

(** Truthiness of [options.forceNewSession]. *)
Definition forced (o : GetSessionOptions) : bool :=
  match forceNewSession o with
  | Some (ForceBool b) => b
  | Some (ForceDetail _) => true
  | None => false
  end.

(** [if (o.createIfNone === undefined && o.forceNewSession === undefined)
      o.createIfNone = false] *)
Definition defaultCreateIfNone (o : GetSessionOptions) : GetSessionOptions :=
  match createIfNone o, forceNewSession o with
  | None, None => mkOptions (Some false) None (silent o)
  | _, _ => o
  end.

(** Truthiness of a [boolean | undefined]. *)
Definition truthyb (o : option bool) : bool := default false o.

(** The fields of a [CredentialStore]. *)
Record CredentialStore : Type := mkStore {
  _githubAPI : option GitHub;
  _sessionId : option string;
  _githubEnterpriseAPI : option GitHub;
  _enterpriseSessionId : option string;
  _isInitialized : bool;
  _scopes : list string;
  _scopesEnterprise : list string;
  _isSamling : bool
}.

Definition set_githubAPI (v : option GitHub) (s : CredentialStore) : CredentialStore :=
  mkStore v (_sessionId s) (_githubEnterpriseAPI s) (_enterpriseSessionId s)
          (_isInitialized s) (_scopes s) (_scopesEnterprise s) (_isSamling s).
Definition set_sessionId (v : option string) (s : CredentialStore) : CredentialStore :=
  mkStore (_githubAPI s) v (_githubEnterpriseAPI s) (_enterpriseSessionId s)
          (_isInitialized s) (_scopes s) (_scopesEnterprise s) (_isSamling s).
Definition set_githubEnterpriseAPI (v : option GitHub) (s : CredentialStore) : CredentialStore :=
  mkStore (_githubAPI s) (_sessionId s) v (_enterpriseSessionId s)
          (_isInitialized s) (_scopes s) (_scopesEnterprise s) (_isSamling s).
Definition set_enterpriseSessionId (v : option string) (s : CredentialStore) : CredentialStore :=
  mkStore (_githubAPI s) (_sessionId s) (_githubEnterpriseAPI s) v
          (_isInitialized s) (_scopes s) (_scopesEnterprise s) (_isSamling s).
Definition set_isInitialized (v : bool) (s : CredentialStore) : CredentialStore :=
  mkStore (_githubAPI s) (_sessionId s) (_githubEnterpriseAPI s) (_enterpriseSessionId s)
          v (_scopes s) (_scopesEnterprise s) (_isSamling s).
Definition set_scopes (v : list string) (s : CredentialStore) : CredentialStore :=
  mkStore (_githubAPI s) (_sessionId s) (_githubEnterpriseAPI s) (_enterpriseSessionId s)
          (_isInitialized s) v (_scopesEnterprise s) (_isSamling s).
Definition set_scopesEnterprise (v : list string) (s : CredentialStore) : CredentialStore :=
  mkStore (_githubAPI s) (_sessionId s) (_githubEnterpriseAPI s) (_enterpriseSessionId s)
          (_isInitialized s) (_scopes s) v (_isSamling s).

(** The calls a [CredentialStore] makes to the editor and to its libraries.
    [Logger] and [console] calls only write to the output channel and are
    left out. *)
Inductive Call : Type -> Type :=
| authentication_getSession (authProviderId : AuthProvider) (scopes : list string)
    (options : GetSessionOptions) : Call (Error + option AuthenticationSession)
| new_Octokit (options : OctokitOptions) : Call (Error + unit)
| new_ApolloClient (link : HttpLink) : Call (Error + unit)
| octokit_getAuthenticated : Call unit
| globalState_update (key : string) (value : list string) : Call (Error + unit)
| onDidInitialize_fire : Call unit
| telemetry_sendTelemetryEvent (name : string) : Call unit
| window_showErrorMessage (msg : string) : Call unit.

Abbreviation Method := (M Call CredentialStore) (only parsing).

(** What a trace says about the session requests and the clients built. *)
Definition auth_of (e : Event Call)
  : option (AuthProvider * list string * GetSessionOptions
            * (Error + option AuthenticationSession)) :=
  match e with
  | Ev c x =>
      match c in Call X
            return X -> option (AuthProvider * list string * GetSessionOptions
                                * (Error + option AuthenticationSession)) with
      | authentication_getSession p scopes options => fun r => Some (p, scopes, options, r)
      | _ => fun _ => None
      end x
  end.

Definition octokit_of (e : Event Call) : option OctokitOptions :=
  match ev_call e with
  | new_Octokit o => Some o
  | _ => None
  end.

Definition apollo_of (e : Event Call) : option HttpLink :=
  match ev_call e with
  | new_ApolloClient l => Some l
  | _ => None
  end.

(** A run of [createHub] builds its REST client on [rest] and its GraphQL
    client, if it gets that far, on [graphQL]; the hub it returns holds both.
    The run starts with the construction of the REST client; when that
    succeeds the GraphQL client is constructed next; when that succeeds too
    the hub of the two clients is returned. *)
Definition hub_urls (tr : list (Event Call)) (out : Outcome GitHub)
    (rest graphQL : string) : Prop :=
  (exists o, head (omap octokit_of tr) = Some o /\ baseUrl o = rest)
  /\ (forall l, l ∈ omap apollo_of tr -> uri l = graphQL)
  /\ (forall g, out = Returned g ->
         omap octokit_of tr = [octokit g] /\ omap apollo_of tr = [graphql g]
         /\ baseUrl (octokit g) = rest /\ uri (graphql g) = graphQL)
  /\ (exists o (built : Error + unit) after,
        tr = Ev (new_Octokit o) built :: after /\ baseUrl o = rest
        /\ match built with
           | inl e => after = [] /\ out = Thrown e
           | inr _ =>
               exists l (linked : Error + unit) rest_of_run,
                 after = Ev (new_ApolloClient l) linked :: rest_of_run
                 /\ uri l = graphQL
                 /\ match linked with
                    | inl e => rest_of_run = [] /\ out = Thrown e
                    | inr _ =>
                        out = Returned (mkGitHub o l)
                        /\ omap octokit_of rest_of_run = []
                        /\ omap apollo_of rest_of_run = []
                    end
           end).

Section Store.
Context `{Host}.

Definition isAuthenticated (authProviderId : AuthProvider) (this : CredentialStore) : bool :=
  if negb (isEnterprise authProviderId) then defined (_githubAPI this)
  else defined (_githubEnterpriseAPI this).

Definition isAnyAuthenticated (this : CredentialStore) : bool :=
  isAuthenticated AuthProvider.github this
  || isAuthenticated AuthProvider.githubEnterprise this.

Definition getHub (authProviderId : AuthProvider) (this : CredentialStore) : option GitHub :=
  if negb (isEnterprise authProviderId) then _githubAPI this
  else _githubEnterpriseAPI this.

(** The loop of [findExistingScopes], over what is left of
    [scopesInPreferenceOrder]. *)
Fixpoint findExistingScopes_from (authProviderId : AuthProvider)
    (scopesInPreferenceOrder : list (list string))
  : Method (option (AuthenticationSession * list string)) :=
  match scopesInPreferenceOrder with
  | [] => ret None
  | scopes :: rest =>
      let* session := await (authentication_getSession authProviderId scopes
                               (mkOptions None None (Some true))) in
      match session with
      | Some session => ret (Some (session, scopes))
      | None => findExistingScopes_from authProviderId rest
      end
  end.

Definition scopesInPreferenceOrder : list (list string) :=
  [SCOPES_WITH_ADDITIONAL; SCOPES_OLD; SCOPES_OLDEST].

Definition findExistingScopes (authProviderId : AuthProvider)
  : Method (option (AuthenticationSession * list string)) :=
  findExistingScopes_from authProviderId scopesInPreferenceOrder.

(** The object [getSession] returns. *)
Record SessionResult : Type := mkSessionResult {
  session : option AuthenticationSession;
  isNew : bool;
  scopes : list string
}.

Definition getSession (authProviderId : AuthProvider) (getAuthSessionOptions : GetSessionOptions)
    (scopes : list string) (requireScopes : bool) : Method SessionResult :=
  let* existingSession :=
    (if forced getAuthSessionOptions || requireScopes then ret None
     else findExistingScopes authProviderId) in
  match existingSession with
  | Some (session, existingScopes) => ret (mkSessionResult (Some session) false existingScopes)
  | None =>
      let* session := await (authentication_getSession authProviderId
                               (if requireScopes then scopes else SCOPES_OLD)
                               getAuthSessionOptions) in
      ret (mkSessionResult session (defined session)
             (if requireScopes then scopes else SCOPES_OLD))
  end.

(** [link(url, token)] *)
Definition link (url token : string) : HttpLink :=
  mkHttpLink (if truthy token then "Bearer " +:+ token else "")
             "application/vnd.github.merge-info-preview"
             (url +:+ "/graphql").

(** [setCurrentUser]: starts the request for the authenticated user; the
    promises it stores on the hub are not awaited by [createHub]. *)
Definition setCurrentUser (github : GitHub) : Method unit :=
  call octokit_getAuthenticated.

Definition createHub (token : string) (authProviderId : AuthProvider) : Method GitHub :=
  let baseUrl := "https://api.github.com" in
  let enterpriseServerUri : option Uri :=
    if isEnterprise authProviderId then getEnterpriseUri else None in
  let isGhe : option bool :=
    (fun u => endsWith (authority u) "ghe.com") <$> enterpriseServerUri in
  let baseUrl :=
    match enterpriseServerUri with
    | Some u =>
        if truthyb isGhe then scheme u +:+ "://api." +:+ authority u
        else scheme u +:+ "://" +:+ authority u +:+ "/api/v3"
    | None => baseUrl
    end in
  let fetchCore := uiKindIsWeb in
  let octokit := mkOctokitOptions fetchCore "GitHub VSCode Pull Requests"
                   ["shadow-cat-preview"; "merge-info-preview"]
                   (if truthy token then token else "") baseUrl in
  await (new_Octokit octokit) >>
  let graphQLBaseUrl :=
    match enterpriseServerUri with
    | Some u =>
        if negb (truthyb isGhe) then scheme u +:+ "://" +:+ authority u +:+ "/api"
        else baseUrl
    | None => baseUrl
    end in
  let graphql := link graphQLBaseUrl (if truthy token then token else "") in
  await (new_ApolloClient graphql) >>
  let github := mkGitHub octokit graphql in
  setCurrentUser github >>
  ret github.

Definition saveScopesInState : Method unit :=
  let* this := get in
  await (globalState_update LAST_USED_SCOPES_GITHUB_KEY (_scopes this)) >>
  let* this := get in
  await (globalState_update LAST_USED_SCOPES_ENTERPRISE_KEY (_scopesEnterprise this)).

(** [initialize] calls itself once more when [createHub] fails with
    'Bad credentials' and no new session was forced; the second call forces
    one and so cannot recurse again.  [fuel] bounds the nesting; [None] is
    "out of fuel", which two units of fuel exclude ([initialize_total]). *)
Fixpoint initialize_fuel (fuel : nat) (authProviderId : AuthProvider)
    (getAuthSessionOptions : GetSessionOptions) (scopesArg : option (list string))
    (requireScopes : option bool) : Method (option AuthResult) :=
  match fuel with
  | O => ret None
  | S fuel =>
    let* this := get in
    (* default value of the parameter [scopes] *)
    let scopes := default (if negb (isEnterprise authProviderId) then _scopes this
                           else _scopesEnterprise this) scopesArg in
    if isEnterprise authProviderId && negb hasEnterpriseUri then
      ret (Some (mkAuthResult false))
    else
    let getAuthSessionOptions := defaultCreateIfNone getAuthSessionOptions in
    let oldScopes := _scopes this in
    let oldEnterpriseScopes := _scopesEnterprise this in
    (* [session], [isNew], [usedScopes] and [authResult] after the try/catch *)
    let* locals :=
      try_catch
        (modify (if negb (isEnterprise authProviderId) then set_scopes scopes
                 else set_scopesEnterprise scopes) >>
         let* result := getSession authProviderId getAuthSessionOptions scopes
                          (truthyb requireScopes) in
         let '(mkSessionResult session isNew usedScopes) := result in
         ret (session, isNew, usedScopes, mkAuthResult false))
        (fun e =>
           modify (set_scopes oldScopes) >>
           modify (set_scopesEnterprise oldEnterpriseScopes) >>
           let userCanceld := String.eqb (message e) "User did not consent to login." in
           let authResult := mkAuthResult (if userCanceld then true else false) in
           if forced getAuthSessionOptions && userCanceld then
             ret (None, false, SCOPES_OLD, authResult)
           else throw e) in
    let '(session, isNew, usedScopes, authResult) := locals in
    match session with
    | Some session =>
        modify (if negb (isEnterprise authProviderId) then set_sessionId (Some (session_id session))
                else set_enterpriseSessionId (Some (session_id session))) >>
        (* [inl r]: the [return this.initialize(...)] of the catch block *)
        let* hub :=
          try_catch
            (let* github := createHub (accessToken session) authProviderId in
             ret (inr (Some github)))
            (fun e =>
               if String.eqb (message e) "Bad credentials"
                  && negb (forced getAuthSessionOptions) then
                 let getAuthSessionOptions :=
                   mkOptions (createIfNone getAuthSessionOptions)
                             (Some (ForceBool true)) (Some false) in
                 let* r := initialize_fuel fuel authProviderId getAuthSessionOptions
                             (Some scopes) requireScopes in
                 ret (inl r)
               else
                 call (window_showErrorMessage
                         (l10n_t "Unable to sign in with the provided credentials")) >>
                 ret (inr None)) in
        match hub with
        | inl r => ret r
        | inr github =>
            modify (if negb (isEnterprise authProviderId)
                    then fun s => set_scopes usedScopes (set_githubAPI github s)
                    else fun s => set_scopesEnterprise usedScopes
                                    (set_githubEnterpriseAPI github s)) >>
            saveScopesInState >>
            let* this := get in
            when (negb (_isInitialized this) || (isNew && negb (_isSamling this)))
                 (modify (set_isInitialized true) >> call onDidInitialize_fire) >>
            when isNew (call (telemetry_sendTelemetryEvent "auth.session")) >>
            ret (Some authResult)
        end
    | None => ret (Some authResult)
    end
  end.

Definition initialize := initialize_fuel 2.

(** [requiredScopes.every(scope => actualScopes.includes(scope))] *)
Definition allScopesIncluded (actualScopes requiredScopes : list string) : bool :=
  forallb (fun scope => existsb (String.eqb scope) actualScopes) requiredScopes.

Definition isAuthenticatedWithAdditionalScopes (authProviderId : AuthProvider)
    (this : CredentialStore) : bool :=
  if negb (isEnterprise authProviderId) then
    defined (_githubAPI this) && allScopesIncluded (_scopes this) SCOPES_WITH_ADDITIONAL
  else
    defined (_githubEnterpriseAPI this)
    && allScopesIncluded (_scopesEnterprise this) SCOPES_WITH_ADDITIONAL.

Definition areScopesOld (authProviderId : AuthProvider) (this : CredentialStore) : bool :=
  if negb (isEnterprise authProviderId) then
    negb (allScopesIncluded (_scopes this) SCOPES_OLD)
  else negb (allScopesIncluded (_scopesEnterprise this) SCOPES_OLD).

Definition areScopesExtra (authProviderId : AuthProvider) (this : CredentialStore) : bool :=
  if negb (isEnterprise authProviderId) then
    allScopesIncluded (_scopes this) SCOPES_WITH_ADDITIONAL
  else allScopesIncluded (_scopesEnterprise this) SCOPES_WITH_ADDITIONAL.

End Store.

(** What a trace says about the sessions obtained, the initialization
    event, the sign-in error shown and the scopes saved. *)
Definition session_of (e : Event Call) : option AuthenticationSession :=
  match auth_of e with
  | Some (_, _, _, inr (Some session)) => Some session
  | _ => None
  end.

Definition fired (e : Event Call) : bool :=
  match ev_call e with
  | onDidInitialize_fire => true
  | _ => false
  end.

Definition showError_of (e : Event Call) : option string :=
  match ev_call e with
  | window_showErrorMessage msg => Some msg
  | _ => None
  end.

Definition telemetry_of (e : Event Call) : option string :=
  match ev_call e with
  | telemetry_sendTelemetryEvent name => Some name
  | _ => None
  end.

Definition update_of (e : Event Call) : option (string * list string) :=
  match ev_call e with
  | globalState_update key value => Some (key, value)
  | _ => None
  end.

(** The session id field of a provider. *)
Definition sessionIdOf `{Host} (authProviderId : AuthProvider) (this : CredentialStore)
  : option string :=
  if negb (isEnterprise authProviderId) then _sessionId this else _enterpriseSessionId this.

End Credentials.

(* ===================================================================== *)
(** ** Webview messages  (common/webview, as the providers use it)       *)
(* ===================================================================== *)

Module Webview.

(** [MergeArguments] of ./views. *)
Record MergeArguments : Type := mkMergeArguments {
  title : option string;
  description : option string;
  method : option string
}.

(** [message.args] has type [any]; these are the shapes the webviews send. *)
Inductive Args : Type :=
| ArgsNone
| ArgsString (s : string)
| ArgsMerge (a : MergeArguments).

(** [IRequestMessage<any>] *)
Record IRequestMessage : Type := mkMessage {
  req : string;
  command : string;
  args : Args
}.

(** [const { title, description, method } = args]: a [TypeError] when [args]
    is [undefined]; a string has none of the three properties. *)
Definition TypeError (text : string) : Error := mkError text.

Definition destructure_MergeArguments (args : Args)
  : Error + (option string * option string * option string) :=
  match args with
  | ArgsMerge a => inr (title a, description a, method a)
  | ArgsString _ => inr (None, None, None)
  | ArgsNone =>
      inl (TypeError "Cannot destructure property 'title' of 'message.args' as it is undefined.")
  end.

(** What a [_onDidReceiveMessage] returns, as far as its caller looks at it:
    the sentinel [this.MESSAGE_UNHANDLED] or anything else. *)
Inductive HandlerResult : Type :=
| Handled
| MESSAGE_UNHANDLED.

Definition is_unhandled (r : HandlerResult) : bool :=
  match r with MESSAGE_UNHANDLED => true | Handled => false end.

(** [switch (discriminant) { case label: return body; ... default: ... }]:
    the first case whose label is strictly equal is taken. *)
Fixpoint switch {A} (discriminant : string) (cases : list (string * A)) (default : A) : A :=
  match cases with
  | [] => default
  | (label, body) :: rest =>
      if String.eqb discriminant label then body else switch discriminant rest default
  end.

End Webview.

(* ===================================================================== *)
(** ** [PullRequestViewProvider]  (src/github/common.ts) *)
(* ===================================================================== *)

Module PullRequestViewProvider.
Import Webview.

(** The parts of ./interface and ../common/timelineEvent that are used. *)
Record IAccount : Type := mkAccount { login : string; account_id : string }.
Record ITeam : Type := mkTeam { slug : string; team_id : string }.

(** [IAccount | ITeam] *)
Inductive Reviewer : Type :=
| Account (a : IAccount)
| Team (t : ITeam).

Module ReviewState.
Record t : Type := mk { reviewer : Reviewer; state : string }.
End ReviewState.

Module ReviewEvent.
(** [state] is optional in the interface. *)
Record t : Type := mk { user : IAccount; state : option string; body : string }.
End ReviewEvent.

Inductive TimelineEvent : Type :=
| Reviewed (review : ReviewEvent.t)
| OtherEvent (id : N).

Inductive GithubItemStateEnum : Type := Open | Merged | Closed.

Inductive PullRequestMergeability : Type :=
| Mergeable | NotMergeable | Conflict | Unknown | Behind.

Inductive ReviewEventEnum : Type := Approve | RequestChanges | Comment.

(** The result of [FolderRepositoryManager.mergePullRequest]. *)
Record MergeResult : Type := mkMergeResult {
  merged : bool;
  merge_message : option string
}.

(** The second argument of [_replyMessage], in the shapes built here. *)
Inductive Reply : Type :=
| ReplyEmpty                                                    (* [{}] *)
| ReplyState (state : GithubItemStateEnum)                      (* [{ state }] *)
| ReplyBranch (events : list TimelineEvent) (mergeable : PullRequestMergeability)
| ReplyReview (events : list TimelineEvent) (reviewedEvent : ReviewEvent.t)
    (reviewers : list ReviewState.t).

(** The second argument of [_throwError]. *)
Inductive ErrorReply : Type :=
| ErrorEmpty                                                    (* [{}] *)
| ErrorText (text : string).

(** The methods of the class that [_onDidReceiveMessage] hands a message to. *)
Module Method.
Inductive t : Type :=
| close | createComment | mergePullRequest | create | deleteBranch
| setReadyForReview | approvePullRequestMessage | requestChangesMessage
| submitReviewMessage | checkoutDefaultBranch | updateBranch | reRequestReview.
End Method.

(** Imported functions that are not among the sources at hand:
    [reviewerId] (./interface), [formatError] (../common/utils) and
    [vscode.l10n.t] with its arguments. *)
Class Host : Type := mkHost {
  reviewerId : Reviewer -> string;
  formatError : Error -> string;
  l10n_t : string -> list string -> string
}.

(** The calls the provider makes: to its base class [WebviewViewBase], to the
    editor, to the repository, to the [FolderRepositoryManager] and to the
    [PullRequestModel] in [this._item].  [enter m message] is the dispatcher
    handing [message] to the method [m] of the class. *)
Inductive Call : Type -> Type :=
| super_onDidReceiveMessage (message : IRequestMessage) : Call (Error + HandlerResult)
| _replyMessage (message : IRequestMessage) (reply : Reply) : Call unit
| _throwError (message : option IRequestMessage) (error : ErrorReply) : Call unit
| window_showErrorMessage (msg : string) (modal : bool) : Call unit
| window_showInformationMessage (msg : string) (modal : bool) (items : list string)
    : Call (option string)
| commands_executeCommand (cmd : string) : Call unit
| setTimeout (ms : nat) : Call unit
| workingTreeChanges_length : Call nat
| indexChanges_length : Call nat
| getPreferredEmail : Call (Error + option string)
| folderRepositoryManager_mergePullRequest (title description method email : option string)
    : Call (Error + MergeResult)
| tryMergeBaseIntoHead (push : bool) : Call (Error + bool)
| item_getMergeability : Call (Error + PullRequestMergeability)
| item_getTimelineEvents : Call (Error + list TimelineEvent)
| item_approve (body : Args) : Call (Error + ReviewEvent.t)
| item_requestChanges (body : Args) : Call (Error + ReviewEvent.t)
| item_submitReview (event : ReviewEventEnum) (body : Args) : Call (Error + ReviewEvent.t)
| this_refresh : Call (Error + option (list ReviewState.t))
| openPullRequestOnGitHub : Call (Error + unit)
| enter (m : Method.t) (message : IRequestMessage) : Call (Error + unit).

(** The field of the provider that the handlers embedded here read and
    assign.  [_item], [_view], the folder repository manager and the review
    manager are objects of their own: what the provider asks of them is a
    call. *)
Record PullRequestViewProvider : Type := mkProvider {
  _existingReviewers : list ReviewState.t
}.

Abbreviation Method := (M Call PullRequestViewProvider) (only parsing).

(** What a trace says: the replies and errors sent to the webview, the
    answers of the confirmation dialogs, of the merge, of the polls, of the
    repository state and of the review submissions. *)
Definition reply_of (e : Event Call) : option (IRequestMessage * Reply) :=
  match ev_call e with
  | _replyMessage message reply => Some (message, reply)
  | _ => None
  end.

Definition throwError_of (e : Event Call) : option (option IRequestMessage * ErrorReply) :=
  match ev_call e with
  | _throwError message error => Some (message, error)
  | _ => None
  end.

Definition showError_of (e : Event Call) : option string :=
  match ev_call e with
  | window_showErrorMessage msg _ => Some msg
  | _ => None
  end.

Definition confirm_of (e : Event Call)
  : option (string * bool * list string * option string) :=
  match e with
  | Ev c x =>
      match c in Call X return X -> option (string * bool * list string * option string) with
      | window_showInformationMessage msg modal items => fun r => Some (msg, modal, items, r)
      | _ => fun _ => None
      end x
  end.

Definition merge_of (e : Event Call) : option (Error + MergeResult) :=
  match e with
  | Ev c x =>
      match c in Call X return X -> option (Error + MergeResult) with
      | folderRepositoryManager_mergePullRequest _ _ _ _ => fun r => Some r
      | _ => fun _ => None
      end x
  end.

Definition tryMerge_of (e : Event Call) : option (Error + bool) :=
  match e with
  | Ev c x =>
      match c in Call X return X -> option (Error + bool) with
      | tryMergeBaseIntoHead _ => fun r => Some r
      | _ => fun _ => None
      end x
  end.

Definition mergeability_of (e : Event Call) : option (Error + PullRequestMergeability) :=
  match e with
  | Ev c x =>
      match c in Call X return X -> option (Error + PullRequestMergeability) with
      | item_getMergeability => fun r => Some r
      | _ => fun _ => None
      end x
  end.

Definition changes_of (e : Event Call) : option nat :=
  match e with
  | Ev c x =>
      match c in Call X return X -> option nat with
      | workingTreeChanges_length => fun n => Some n
      | indexChanges_length => fun n => Some n
      | _ => fun _ => None
      end x
  end.

Definition submit_of (e : Event Call)
  : option (ReviewEventEnum * Args * (Error + ReviewEvent.t)) :=
  match e with
  | Ev c x =>
      match c in Call X return X -> option (ReviewEventEnum * Args * (Error + ReviewEvent.t)) with
      | item_approve body => fun r => Some (Approve, body, r)
      | item_requestChanges body => fun r => Some (RequestChanges, body, r)
      | item_submitReview event body => fun r => Some (event, body, r)
      | _ => fun _ => None
      end x
  end.

Section Provider.
Context `{Host}.

(** [refresh] re-reads the pull request and, when it gets that far, installs
    the reviewers it parsed ([updatePullRequest]); it is not embedded here
    beyond that effect on the fields. *)
Definition refresh : Method unit :=
  let* reviewers := await this_refresh in
  match reviewers with
  | Some reviewers => modify (fun _ => mkProvider reviewers)
  | None => ret tt
  end.

(** The do-while loop of [updateBranch]; [attemptsRemaining] is the counter
    on entry of the body. *)
Fixpoint pollMergeability (attemptsRemaining : nat) : Method PullRequestMergeability :=
  let* mergability := await item_getMergeability in
  call (setTimeout 1000) >>
  match attemptsRemaining with
  | O => ret mergability
  | S attemptsRemaining =>            (* [attemptsRemaining--] *)
      if (0 <? attemptsRemaining)%nat
         && (match mergability with Unknown => true | _ => false end)
      then pollMergeability attemptsRemaining
      else ret mergability
  end.

Definition updateBranch (message : IRequestMessage) : Method unit :=
  let* workingTreeChanges := call workingTreeChanges_length in
  let* changed :=
    (if (0 <? workingTreeChanges)%nat then ret true
     else let* indexChanges := call indexChanges_length in ret (0 <? indexChanges)%nat) in
  if (changed : bool) then
    call (window_showErrorMessage
            (l10n_t "The pull request branch cannot be updated when the there changed files in the working tree or index. Stash or commit all change and then try again." [])
            true) >>
    call (_replyMessage message ReplyEmpty)
  else
    let* mergeSucceeded := await (tryMergeBaseIntoHead true) in
    when (negb mergeSucceeded) (call (_replyMessage message ReplyEmpty)) >>
    (* The mergability of the PR doesn't update immediately. Poll. *)
    let* mergability := pollMergeability 5 in
    let* events := await item_getTimelineEvents in
    refresh >>
    call (_replyMessage message (ReplyBranch events mergability)).

Definition _onDidReceiveMessage (message : IRequestMessage) : Method unit :=
  let* result := await (super_onDidReceiveMessage message) in
  if negb (is_unhandled result) then ret tt
  else
    switch (command message)
      [ ("alert", call (window_showErrorMessage
                          (match args message with ArgsString s => s | _ => "" end) false));
        ("pr.close", await (enter Method.close message));
        ("pr.comment", await (enter Method.createComment message));
        ("pr.merge", await (enter Method.mergePullRequest message));
        ("pr.open-create", await (enter Method.create message));
        ("pr.deleteBranch", await (enter Method.deleteBranch message));
        ("pr.readyForReview", await (enter Method.setReadyForReview message));
        ("pr.approve", await (enter Method.approvePullRequestMessage message));
        ("pr.request-changes", await (enter Method.requestChangesMessage message));
        ("pr.submit", await (enter Method.submitReviewMessage message));
        ("pr.openOnGitHub", await openPullRequestOnGitHub);
        ("pr.checkout-default-branch", await (enter Method.checkoutDefaultBranch message));
        ("pr.update-branch", await (enter Method.updateBranch message));
        ("pr.re-request-review", await (enter Method.reRequestReview message)) ]
      (ret tt).

(** [existingReviewer.state = review.state] on the entry that [find] gave,
    or [push] of a new entry. *)
Definition updateReviewers (review : option ReviewEvent.t) (this : PullRequestViewProvider)
  : PullRequestViewProvider :=
  match review with
  | Some review =>
      match ReviewEvent.state review with
      | Some state =>
          if truthy state then
            match list_find
                    (fun reviewer => login (ReviewEvent.user review)
                                     = reviewerId (ReviewState.reviewer reviewer))
                    (_existingReviewers this) with
            | Some (i, existingReviewer) =>
                mkProvider (<[i := ReviewState.mk (ReviewState.reviewer existingReviewer) state]>
                              (_existingReviewers this))
            | None =>
                mkProvider (_existingReviewers this
                            ++ [ReviewState.mk (Account (ReviewEvent.user review)) state])
            end
          else this
      | None => this
      end
  | None => this
  end.

Definition doReviewMessage (message : IRequestMessage)
    (action : Args -> Method ReviewEvent.t) : Method unit :=
  try_catch
    (let* review := action (args message) in
     modify (updateReviewers (Some review)) >>
     let* this := get in
     call (_replyMessage message (ReplyReview [] review (_existingReviewers this))))
    (fun e =>
       call (window_showErrorMessage
               (l10n_t "Submitting review failed. {0}" [formatError e]) false) >>
       call (_throwError (Some message) (ErrorText (formatError e)))).

Definition approvePullRequest (body : Args) : Method ReviewEvent.t :=
  await (item_approve body).

Definition approvePullRequestMessage (message : IRequestMessage) : Method unit :=
  doReviewMessage message (fun body => approvePullRequest body).

Definition requestChanges (body : Args) : Method ReviewEvent.t :=
  await (item_requestChanges body).

Definition requestChangesMessage (message : IRequestMessage) : Method unit :=
  doReviewMessage message (fun body => requestChanges body).

Definition submitReview (body : Args) : Method ReviewEvent.t :=
  await (item_submitReview Comment body).

Definition submitReviewMessage (message : IRequestMessage) : Method unit :=
  doReviewMessage message (fun body => submitReview body).

(** The handler of a review request, by the kind of review. *)
Definition reviewMessage (kind : ReviewEventEnum) (message : IRequestMessage) : Method unit :=
  match kind with
  | Approve => approvePullRequestMessage message
  | RequestChanges => requestChangesMessage message
  | Comment => submitReviewMessage message
  end.

(** [.then(...).catch(...)] on the promise of the merge is the try/catch
    around its continuation. *)
Definition mergePullRequest (message : IRequestMessage) : Method unit :=
  let* fields :=
    match destructure_MergeArguments (args message) with
    | inr fields => ret fields
    | inl e => throw e
    end in
  let '(title, description, method) := fields in
  let* email := await getPreferredEmail in
  let yes := l10n_t "Yes" [] in
  let* confirmation :=
    call (window_showInformationMessage (l10n_t "Merge this pull request?" []) true [yes]) in
  if negb (bool_decide (confirmation = Some yes)) then
    call (_replyMessage message (ReplyState Open))
  else
    try_catch
      (let* result := await (folderRepositoryManager_mergePullRequest
                               title description method email) in
       call (commands_executeCommand "pr.refreshList") >>
       when (negb (merged result))
            (call (window_showErrorMessage
                     (l10n_t "Merging PR failed: {0}" [default "" (merge_message result)])
                     false)) >>
       call (_replyMessage message
               (ReplyState (if merged result then Merged else Open))))
      (fun e =>
         call (window_showErrorMessage
                 (l10n_t "Unable to merge pull request. {0}" [formatError e]) false) >>
         call (_throwError (Some message) ErrorEmpty)).

(** [reviewers.find(r => reviewerId(r.reviewer) === currentUser.login)?.state] *)
Definition getCurrentUserReviewState (reviewers : list ReviewState.t) (currentUser : IAccount)
  : option string :=
  match list_find (fun r => reviewerId (ReviewState.reviewer r) = login currentUser)
                  reviewers with
  | Some (_, review) => Some (ReviewState.state review)
  | None => None
  end.

End Provider.

End PullRequestViewProvider.

(* ===================================================================== *)
(** ** [CreatePullRequestViewProvider]  (src/github/createPRViewProvider.ts) *)
(* ===================================================================== *)

Module CreatePullRequestViewProvider.
Import Webview.

(** The methods that the two dispatchers of this file hand a message to. *)
Module Method.
Inductive t : Type :=
(* BaseCreatePullRequestViewProvider *)
| initializeParamsPromise | cancel | create | addLabels | addReviewers
| addAssignees | addMilestone | addProjects | removeLabel
(* CreatePullRequestViewProvider *)
| changeRemoteAndBranch (isBase : bool) | generateTitleAndDescription
| cancelGenerateTitleAndDescription | preReview | cancelPreReview.
End Method.

(** [super_onDidReceiveMessage] is the handler of [WebviewViewBase];
    [enter m message] is a dispatcher handing [message] to the method [m].
    The methods return [void] or the create parameters, never the sentinel. *)
Inductive Call : Type -> Type :=
| super_onDidReceiveMessage (message : IRequestMessage) : Call (Error + HandlerResult)
| enter (m : Method.t) (message : IRequestMessage) : Call (Error + unit)
| window_showErrorMessage (msg : string) : Call unit.

(** No field of the provider is assigned by the dispatchers. *)
Abbreviation Method := (M Call unit) (only parsing).

(** [return this.m(message)]: whatever the method returns is not the sentinel. *)
Definition handle (m : Method.t) (message : IRequestMessage) : Method HandlerResult :=
  await (enter m message) >> ret Handled.

(** [BaseCreatePullRequestViewProvider._onDidReceiveMessage] *)
Definition Base_onDidReceiveMessage (message : IRequestMessage) : Method HandlerResult :=
  let* result := await (super_onDidReceiveMessage message) in
  if negb (is_unhandled result) then ret Handled   (* [return;] *)
  else
    switch (command message)
      [ ("pr.requestInitialize", handle Method.initializeParamsPromise message);
        ("pr.cancelCreate", handle Method.cancel message);
        ("pr.create", handle Method.create message);
        ("pr.changeLabels", handle Method.addLabels message);
        ("pr.changeReviewers", handle Method.addReviewers message);
        ("pr.changeAssignees", handle Method.addAssignees message);
        ("pr.changeMilestone", handle Method.addMilestone message);
        ("pr.changeProjects", handle Method.addProjects message);
        ("pr.removeLabel", handle Method.removeLabel message) ]
      (ret MESSAGE_UNHANDLED).

(** [CreatePullRequestViewProvider._onDidReceiveMessage] *)
Definition _onDidReceiveMessage (message : IRequestMessage) : Method unit :=
  let* result := Base_onDidReceiveMessage message in
  if negb (is_unhandled result) then ret tt
  else
    switch (command message)
      [ ("pr.changeBaseRemoteAndBranch",
          await (enter (Method.changeRemoteAndBranch true) message));
        ("pr.changeCompareRemoteAndBranch",
          await (enter (Method.changeRemoteAndBranch false) message));
        ("pr.generateTitleAndDescription",
          await (enter Method.generateTitleAndDescription message));
        ("pr.cancelGenerateTitleAndDescription",
          await (enter Method.cancelGenerateTitleAndDescription message));
        ("pr.preReview", await (enter Method.preReview message));
        ("pr.cancelPreReview", await (enter Method.cancelPreReview message)) ]
      (* Log error *)
      (call (window_showErrorMessage "Unsupported webview message")).

End CreatePullRequestViewProvider.

(* ===================================================================== *)
(** ** More control flow, and what a method keeps true                   *)
(* ===================================================================== *)

Section Control.
Context {E : Type -> Type}.

(** [try { m } finally { f }]: [f] runs however [m] ends; the outcome of [m]
    stands unless [f] throws. *)
Definition try_finally {S A} (m : M E S A) (f : M E S unit) : M E S A :=
  fun s => pbind (m s) (fun r =>
    pbind (f r.2) (fun r2 =>
      match r2 with
      | (Returned _, s2) => Ret _ (r.1, s2)
      | (Thrown e, s2) => Ret _ (Thrown e, s2)
      end)).

(** A promise that is started and not awaited, as in the statement
    [p.then(f);] that ends a method: the method has returned by the time [f]
    runs, and a rejection is not thrown to its caller. *)
Definition detached {S A} (m : M E S A) : M E S unit :=
  try_catch (m >> ret tt) (fun _ => ret tt).

(** [R s tr out s']: from the fields [s], the run made the calls [tr] and
    ended with [out] and the fields [s'].  [tracks R m]: every run of [m],
    in every environment, is in [R]. *)
Definition tracks {S A} (R : S -> list (Event E) -> Outcome A -> S -> Prop) (m : M E S A)
  : Prop :=
  forall W (h : Handler E W) (w w' : W) (s s' : S) tr out,
    exec h m s w = (tr, (out, s'), w') -> R s tr out s'.

End Control.

(** *** A method run among the calls of a larger interface *)

(** [translate inj p]: the program [p], each of its calls [c] made as
    [inj c]. *)
Fixpoint translate {E F : Type -> Type} {A} (inj : forall X, E X -> F X) (p : Prog E A)
  : Prog F A :=
  match p with
  | Ret _ a => Ret _ a
  | Vis _ c k => Vis _ (inj _ c) (fun x => translate inj (k x))
  end.

Definition lift {E F : Type -> Type} {S A} (inj : forall X, E X -> F X) (m : M E S A)
  : M F S A :=
  fun s => translate inj (m s).

Definition relabel {E F : Type -> Type} (inj : forall X, E X -> F X) (e : Event E)
  : Event F :=
  Ev (inj _ (ev_call e)) (ev_answer e).

(* ===================================================================== *)
(** ** [PullRequestViewProvider]: the other handlers  (src/github/common.ts) *)
(* ===================================================================== *)

Module PullRequestViewActions.
Import Webview.
Module P := PullRequestViewProvider.

(** [IComment] of ../common/comment, as far as it is looked at. *)
Record IComment : Type := mkComment { comment_id : N; comment_body : string }.

(** [ReviewType] of ./views. *)
Module ReviewType.
Inductive t : Type := Comment | Approve | RequestChanges.
End ReviewType.

(** What [PullRequestView.deleteBranch] resolves to; the message is passed on
    as it is. *)
Record DeleteBranchResult : Type := mkDeleteBranchResult {
  isReply : bool;
  result_message : string
}.

(** The second argument of [_replyMessage], in the shapes built by the
    handlers of this section. *)
Inductive Reply : Type :=
| ReplyEmpty                                            (* [{}] *)
| ReplyValue (value : IComment)                         (* [{ value: comment }] *)
| ReplyReviewers (reviewers : list P.ReviewState.t)     (* [{ reviewers }] *)
| ReplyReady (isDraft : bool)                           (* the result of [setReadyForReview] *)
| ReplyMessage (message : string).                      (* [result.message] *)

(** The argument of [_postMessage]. *)
Inductive Posted : Type :=
| SubmittingReview (lastReviewType : ReviewType.t)      (* 'pr.submitting-review' *)
| AppendReview (reviewedEvent : P.ReviewEvent.t) (reviewers : list P.ReviewState.t)
                                                        (* 'pr.append-review', with the review *)
| AppendReviewBare                                      (* [{ command: 'pr.append-review' }] *)
| PostedMessage (message : string).                     (* [result.message] *)

Definition posted_command (m : Posted) : option string :=
  match m with
  | SubmittingReview _ => Some "pr.submitting-review"
  | AppendReview _ _ => Some "pr.append-review"
  | AppendReviewBare => Some "pr.append-review"
  | PostedMessage _ => None
  end.

(** The calls of these handlers.  [_postMessage] returns a promise;
    [submit reviewType body] is the [action] that the three review commands
    pass to [doReviewCommand]: [approvePullRequest], [requestChanges] or
    [submitReview], embedded above. *)
Inductive Call : Type -> Type :=
| _replyMessage (message : IRequestMessage) (reply : Reply) : Call unit
| _throwError (message : option IRequestMessage) (error : P.ErrorReply) : Call unit
| _postMessage (message : Posted) : Call (Error + unit)
| window_showErrorMessage (msg : string) : Call unit
| getPullRequestRepositoryDefaultBranch : Call (Error + string)
| repository_state_HEAD_name : Call (option string)
| folderRepositoryManager_checkoutDefaultBranch (branch : string) : Call (Error + unit)
| cleanupAfterPullRequest (branch : string) : Call (Error + unit)
| item_requestReview (users : list P.IAccount) (teams : list P.ITeam) (re : bool)
    : Call (Error + unit)
| commands_executeCommand_pr_close (args : Args) : Call (Error + option IComment)
| item_createIssueComment (args : Args) : Call (Error + IComment)
| item_setReadyForReview : Call (Error + bool)
| PullRequestView_deleteBranch : Call (Error + DeleteBranchResult)
| submit (reviewType : ReviewType.t) (body : string) : Call (Error + P.ReviewEvent.t).

Abbreviation Method := (M Call P.PullRequestViewProvider) (only parsing).

Definition reply_of (e : Event Call) : option (IRequestMessage * Reply) :=
  match ev_call e with
  | _replyMessage message reply => Some (message, reply)
  | _ => None
  end.

Definition throwError_of (e : Event Call) : option (option IRequestMessage * P.ErrorReply) :=
  match ev_call e with
  | _throwError message error => Some (message, error)
  | _ => None
  end.

Definition posted_of (e : Event Call) : option Posted :=
  match ev_call e with
  | _postMessage message => Some message
  | _ => None
  end.

(** A message posted to the webview, with what became of the post. *)
Definition post_of (e : Event Call) : option (Posted * (Error + unit)) :=
  match e with
  | Ev c x =>
      match c in Call X return X -> option (Posted * (Error + unit)) with
      | _postMessage message => fun r => Some (message, r)
      | _ => fun _ => None
      end x
  end.

Definition showError_of (e : Event Call) : option string :=
  match ev_call e with
  | window_showErrorMessage msg => Some msg
  | _ => None
  end.



Definition requestReview_of (e : Event Call)
  : option (list P.IAccount * list P.ITeam * bool * (Error + unit)) :=
  match e with
  | Ev c x =>
      match c in Call X
            return X -> option (list P.IAccount * list P.ITeam * bool * (Error + unit)) with
      | item_requestReview users teams re => fun r => Some (users, teams, re, r)
      | _ => fun _ => None
      end x
  end.

Definition submit_of (e : Event Call)
  : option (ReviewType.t * string * (Error + P.ReviewEvent.t)) :=
  match e with
  | Ev c x =>
      match c in Call X return X -> option (ReviewType.t * string * (Error + P.ReviewEvent.t)) with
      | submit reviewType body => fun r => Some (reviewType, body, r)
      | _ => fun _ => None
      end x
  end.



(** [reviewer.reviewer.id] *)
Definition reviewer_id (r : P.Reviewer) : string :=
  match r with
  | P.Account a => P.account_id a
  | P.Team t => P.team_id t
  end.

(** [id === message.args], for a string [id]. *)
Definition is_args (id : string) (a : Args) : bool :=
  match a with
  | ArgsString s => String.eqb id s
  | _ => false
  end.

Section Handlers.
Context `{P.Host}.

Definition checkoutDefaultBranch (message : IRequestMessage) : Method unit :=
  try_finally
    (let* defaultBranch := await getPullRequestRepositoryDefaultBranch in
     let* prBranch := call repository_state_HEAD_name in
     await (folderRepositoryManager_checkoutDefaultBranch defaultBranch) >>
     match prBranch with
     | Some prBranch =>
         if truthy prBranch then await (cleanupAfterPullRequest prBranch) else ret tt
     | None => ret tt
     end)
    (* Complete webview promise so that button becomes enabled again *)
    (call (_replyMessage message ReplyEmpty)).

(** The loop of [reRequestReview]: [targetReviewer] after the reviewers from
    position [index] on, as a position in [_existingReviewers]. *)
Fixpoint targetReviewer_from (args : Args) (reviewers : list P.ReviewState.t) (index : nat)
    (targetReviewer : option nat) : option nat :=
  match reviewers with
  | [] => targetReviewer
  | reviewer :: rest =>
      let id := reviewer_id (P.ReviewState.reviewer reviewer) in
      targetReviewer_from args rest (S index)
        (if truthy id
            && (String.eqb (P.ReviewState.state reviewer) "REQUESTED" || is_args id args)
         then (if is_args id args then Some index else targetReviewer)
         else targetReviewer)
  end.

(** [targetReviewer] is one of the objects of [_existingReviewers]: the
    assignment to its [state] shows in the array.  (The array is the one of
    the time of the request; [updatePullRequest] installs a new one.) *)
Definition reRequestReview (message : IRequestMessage) : Method unit :=
  let* this := get in
  let targetReviewer :=
    targetReviewer_from (args message) (P._existingReviewers this) 0 None in
  let target := targetReviewer ≫= fun i => P._existingReviewers this !! i in
  let teamReviewers :=
    match target with
    | Some (P.ReviewState.mk (P.Team t) _) => [t]
    | _ => []
    end in
  let userReviewers :=
    match target with
    | Some (P.ReviewState.mk (P.Account a) _) => [a]
    | _ => []
    end in
  detached
    (await (item_requestReview userReviewers teamReviewers true) >>
     match targetReviewer with
     | Some i =>
         modify (fun this =>
           P.mkProvider
             (alter (fun r => P.ReviewState.mk (P.ReviewState.reviewer r) "REQUESTED") i
                    (P._existingReviewers this)))
     | None => ret tt
     end >>
     let* this := get in
     call (_replyMessage message (ReplyReviewers (P._existingReviewers this)))).

Definition close (message : IRequestMessage) : Method unit :=
  detached
    (let* comment := await (commands_executeCommand_pr_close (args message)) in
     match comment with
     | Some comment => call (_replyMessage message (ReplyValue comment))
     | None => ret tt
     end).

Definition createComment (message : IRequestMessage) : Method unit :=
  detached
    (let* comment := await (item_createIssueComment (args message)) in
     call (_replyMessage message (ReplyValue comment))).

Definition doReviewCommand (context_body : string) (reviewType : ReviewType.t)
    (action : string -> Method P.ReviewEvent.t) : Method unit :=
  let submittingMessage := SubmittingReview reviewType in
  detached (await (_postMessage submittingMessage)) >>
  try_catch
    (let* review := action context_body in
     modify (P.updateReviewers (Some review)) >>
     let* this := get in
     let reviewMessage := AppendReview review (P._existingReviewers this) in
     await (_postMessage reviewMessage))
    (fun e =>
       call (window_showErrorMessage
               (P.l10n_t "Submitting review failed. {0}" [P.formatError e])) >>
       call (_throwError None (P.ErrorText (P.formatError e))) >>
       detached (await (_postMessage AppendReviewBare))).

Definition approvePullRequestCommand (context_body : string) : Method unit :=
  doReviewCommand context_body ReviewType.Approve
    (fun body => await (submit ReviewType.Approve body)).

Definition requestChangesCommand (context_body : string) : Method unit :=
  doReviewCommand context_body ReviewType.RequestChanges
    (fun body => await (submit ReviewType.RequestChanges body)).

Definition submitReviewCommand (context_body : string) : Method unit :=
  doReviewCommand context_body ReviewType.Comment
    (fun body => await (submit ReviewType.Comment body)).

Definition deleteBranch (message : IRequestMessage) : Method unit :=
  let* result := await PullRequestView_deleteBranch in
  if isReply result then call (_replyMessage message (ReplyMessage (result_message result)))
  else detached (await (_postMessage (PostedMessage (result_message result)))).

(** [.then(...).catch(...)] on a promise that is not awaited. *)
Definition setReadyForReview (message : IRequestMessage) : Method unit :=
  detached
    (try_catch
       (let* result := await item_setReadyForReview in
        call (_replyMessage message (ReplyReady result)))
       (fun e =>
          call (window_showErrorMessage
                  (P.l10n_t "Unable to set PR ready for review. {0}" [P.formatError e])) >>
          call (_throwError (Some message) P.ErrorEmpty))).

End Handlers.

End PullRequestViewActions.

(* ===================================================================== *)
(** ** The create view: lists, defaults and [create]
       (src/github/createPRViewProvider.ts)                              *)
(* ===================================================================== *)

Module CreateView.
Module P := PullRequestViewProvider.

(** The parts of ./interface, ./views and the git API that are read. *)
Record ILabel : Type := mkLabel { name : string; color : string }.
Record IMilestone : Type := mkMilestone { milestone_id : string }.
Record IProject : Type := mkProject { project_id : string }.
Record RemoteInfo : Type := mkRemoteInfo { info_owner : string; info_repositoryName : string }.
Record GitHubRemote : Type := mkRemote {
  remoteName : string; remote_owner : string; remote_repositoryName : string
}.
Record GitHubRepository : Type := mkRepository { remote : GitHubRemote }.
Record PullRequestModel : Type := mkPullRequest { number : N }.

(** [Branch], of which [create] looks at [upstream] only, for being defined. *)
Record Branch : Type := mkBranch { upstream : bool }.

(** What [pushUpstream] resolves to. *)
Record PushResult : Type := mkPushResult {
  compareUpstream : GitHubRemote;
  push_repo : option GitHubRepository
}.

(** [CreatePullRequestNew], the arguments of the 'pr.create' and
    'pr.cancelCreate' messages. *)
Record CreatePullRequestNew : Type := mkCreateArgs {
  title : string;
  body : string;
  owner : string;
  repo : string;
  base : string;
  compareBranch : string;
  compareOwner : string;
  compareRepo : string;
  draft : bool;
  autoMerge : bool;
  autoMergeMethod : option string;
  arg_labels : list ILabel;
  arg_assignees : list P.IAccount;
  arg_reviewers : list P.Reviewer;
  arg_milestone : option IMilestone;
  arg_projects : list IProject
}.

(** [IRequestMessage<CreatePullRequestNew>] *)
Record CreateMessage : Type := mkCreateMessage { req : string; args : CreatePullRequestNew }.

(** What [configuration.inspect(PULL_REQUEST_LABELS)] gives. *)
Record LabelSettings : Type := mkLabelSettings {
  workspaceValue : option (list string);
  globalValue : option (list string)
}.

(** The messages posted to the webview by the methods embedded here. *)
Inductive Posted : Type :=
| SetLabels (labels : list ILabel)               (* 'set-labels' *)
| SetAssignees (assignees : list P.IAccount).    (* 'set-assignees' *)

(** [e.message], where [message] names the request. *)
Definition e_message (e : Error) : string := message e.

(** [vscode.l10n.t] with its arguments. *)
Class Host : Type := mkHost { l10n_t : string -> list string -> string }.

(** The calls: the webview base class, the editor, the settings, the
    repository, the [FolderRepositoryManager], the pull request that was
    created, and the methods of the class that are not embedded
    ([pushUpstream], [postCreate], [checkGeneratedTitleAndDescription],
    [getMergeConfiguration]). *)
Inductive Call : Type -> Type :=
| _postMessage (message : Posted) : Call (Error + unit)
| _replyMessage (message : CreateMessage) : Call unit      (* with [{}] or [undefined] *)
| _throwError (message : CreateMessage) (error : string) : Call unit
| _onDone_fire (pr : option PullRequestModel) : Call unit
| getMergeConfiguration (owner repo : string) (refetch : bool) : Call (Error + unit)
| showQuickPick_assignees (current : list P.IAccount)
    : Call (Error + option (list (option P.IAccount)))
| inspect_PULL_REQUEST_LABELS : Call (option LabelSettings)
| getLabels (owner repo : string) : Call (Error + list ILabel)
| pr_setLabels (names : list string) : Call (Error + unit)
| pr_enableAutoMerge (method : string) : Call (Error + unit)
| pr_requestReview (users : list P.IAccount) (teams : list P.ITeam) (re : bool)
    : Call (Error + unit)
| pr_updateMilestone (id : string) : Call (Error + unit)
| pr_updateProjects (projects : list IProject) : Call (Error + unit)
| model_filesHaveChanges : Call (Error + bool)
| model_applyChanges (commitMessage : string) : Call (Error + bool)
| window_showWarningMessage (msg : string) (modal : bool) (items : list string)
    : Call (option string)
| window_showInformationMessage (msg : string) (modal : bool) (items : list string)
    : Call (option string)
| window_showInputBox (prompt : string) : Call (option string)
| window_showErrorMessage (msg : string) : Call unit
| workspaceState_update_PREVIOUS_CREATE_METHOD (autoMerge : bool)
    (mergeMethod : option string) (isDraft : bool) : Call (Error + unit)
| setContext_CREATING (value : bool) : Call unit
| progress_report (msg : string) (increment : Z) : Call unit
| repository_getBranch (name : string) : Call (Error + Branch)
| findRepo (owner repositoryName : string) : Call (option GitHubRepository)
| getConfiguration_PUSH_BRANCH : Call (option string)
| configuration_update_PUSH_BRANCH (value : string) : Call (Error + unit)
| pushUpstream (compareOwner compareRepositoryName compareBranchName : string)
    : Call (Error + option PushResult)
| checkGeneratedTitleAndDescription (title description : string) : Call unit
| folderRepositoryManager_createPullRequest (args : CreatePullRequestNew) (head : string)
    : Call (Error + option PullRequestModel)
| postCreate (message : CreateMessage) (createdPR : PullRequestModel) : Call (Error + unit).

(** What a trace says. *)
Definition posted_of (e : Event Call) : option Posted :=
  match ev_call e with
  | _postMessage message => Some message
  | _ => None
  end.

Definition reply_of (e : Event Call) : option CreateMessage :=
  match ev_call e with
  | _replyMessage message => Some message
  | _ => None
  end.

Definition throwError_of (e : Event Call) : option (CreateMessage * string) :=
  match ev_call e with
  | _throwError message error => Some (message, error)
  | _ => None
  end.

Definition done_of (e : Event Call) : option (option PullRequestModel) :=
  match ev_call e with
  | _onDone_fire pr => Some pr
  | _ => None
  end.

Definition getLabels_of (e : Event Call) : option (string * string) :=
  match ev_call e with
  | getLabels owner repo => Some (owner, repo)
  | _ => None
  end.

Definition requestReview_of (e : Event Call)
  : option (list P.IAccount * list P.ITeam * bool) :=
  match ev_call e with
  | pr_requestReview users teams re => Some (users, teams, re)
  | _ => None
  end.

Definition applyChanges_of (e : Event Call) : option (string * (Error + bool)) :=
  match e with
  | Ev c x =>
      match c in Call X return X -> option (string * (Error + bool)) with
      | model_applyChanges commitMessage => fun r => Some (commitMessage, r)
      | _ => fun _ => None
      end x
  end.

Definition warning_of (e : Event Call) : option (option string) :=
  match e with
  | Ev c x =>
      match c in Call X return X -> option (option string) with
      | window_showWarningMessage _ _ _ => fun r => Some r
      | _ => fun _ => None
      end x
  end.

Definition inputBox_of (e : Event Call) : option (option string) :=
  match e with
  | Ev c x =>
      match c in Call X return X -> option (option string) with
      | window_showInputBox _ => fun r => Some r
      | _ => fun _ => None
      end x
  end.

Definition creating_of (e : Event Call) : option bool :=
  match ev_call e with
  | setContext_CREATING value => Some value
  | _ => None
  end.

Definition increment_of (e : Event Call) : option Z :=
  match ev_call e with
  | progress_report _ increment => Some increment
  | _ => None
  end.

Definition createPullRequest_of (e : Event Call)
  : option (string * (Error + option PullRequestModel)) :=
  match e with
  | Ev c x =>
      match c in Call X return X -> option (string * (Error + option PullRequestModel)) with
      | folderRepositoryManager_createPullRequest _ head => fun r => Some (head, r)
      | _ => fun _ => None
      end x
  end.

Definition postCreate_of (e : Event Call) : option (PullRequestModel * (Error + unit)) :=
  match e with
  | Ev c x =>
      match c in Call X return X -> option (PullRequestModel * (Error + unit)) with
      | postCreate _ createdPR => fun r => Some (createdPR, r)
      | _ => fun _ => None
      end x
  end.

Definition showError_of (e : Event Call) : option string :=
  match ev_call e with
  | window_showErrorMessage msg => Some msg
  | _ => None
  end.

(* ------------------------------------------------------------------- *)
(** *** [BaseCreatePullRequestViewProvider]: labels, assignees, reviewers *)

(** The fields that the methods embedded here assign. *)
Record Fields : Type := mkFields {
  labels : list ILabel;
  assignees : list P.IAccount
}.

Definition set_labels (v : list ILabel) (this : Fields) : Fields :=
  mkFields v (assignees this).
Definition set_assignees (v : list P.IAccount) (this : Fields) : Fields :=
  mkFields (labels this) v.

Abbreviation Method := (M Call Fields) (only parsing).

(** [getPullRequestDefaultLabels]: an array is truthy also when it is empty. *)
Definition getPullRequestDefaultLabels (defaultBaseRemote : RemoteInfo)
  : Method (list ILabel) :=
  let* pullRequestLabelSettings := call inspect_PULL_REQUEST_LABELS in
  match pullRequestLabelSettings with
  | None => ret []
  | Some pullRequestLabelSettings =>
      let defaultLabelValues :=
        default [] (workspaceValue pullRequestLabelSettings)
        ++ default [] (globalValue pullRequestLabelSettings) in
      (* Return early if no config present *)
      if (length defaultLabelValues =? 0)%nat then ret []
      else
        let* labels := await (getLabels (info_owner defaultBaseRemote)
                                (info_repositoryName defaultBaseRemote)) in
        let defaultLabels :=
          List.filter (fun label => existsb (String.eqb (name label)) defaultLabelValues)
                      labels in
        ret defaultLabels
  end.

Definition enableAutoMerge (autoMerge : bool) (automergeMethod : option string)
  : Method unit :=
  match automergeMethod with
  | Some method => if autoMerge && truthy method then await (pr_enableAutoMerge method)
                   else ret tt
  | None => ret tt
  end.

Definition setLabels (labels : list ILabel) : Method unit :=
  if (0 <? length labels)%nat then await (pr_setLabels (name <$> labels)) else ret tt.

(** The loop of [setReviewers]: [users] and [teams] after [reviewers]. *)
Fixpoint partitionReviewers (reviewers : list P.Reviewer) (users : list P.IAccount)
    (teams : list P.ITeam) : list P.IAccount * list P.ITeam :=
  match reviewers with
  | [] => (users, teams)
  | P.Team t :: rest => partitionReviewers rest users (teams ++ [t])
  | P.Account a :: rest => partitionReviewers rest (users ++ [a]) teams
  end.

Definition setReviewers (reviewers : list P.Reviewer) : Method unit :=
  if (0 <? length reviewers)%nat then
    let '(users, teams) := partitionReviewers reviewers [] [] in
    await (pr_requestReview users teams true)
  else ret tt.

Definition setMilestone (milestone : option IMilestone) : Method unit :=
  match milestone with
  | Some milestone => await (pr_updateMilestone (milestone_id milestone))
  | None => ret tt
  end.

Definition setProjects (projects : list IProject) : Method unit :=
  if (0 <? length projects)%nat then await (pr_updateProjects projects) else ret tt.

(** The filter of [addAssignees]: an item passes when it has a user whose
    login was not seen before; [seenNewAssignees] is the set so far. *)
Fixpoint addedAssignees_from (seenNewAssignees : gset string)
    (assigneesToAdd : list (option P.IAccount)) : list P.IAccount :=
  match assigneesToAdd with
  | [] => []
  | None :: rest => addedAssignees_from seenNewAssignees rest
  | Some assignee :: rest =>
      if decide (P.login assignee ∈ seenNewAssignees)
      then addedAssignees_from seenNewAssignees rest
      else assignee :: addedAssignees_from ({[P.login assignee]} ∪ seenNewAssignees) rest
  end.

(** [addAssignees], from the quick pick on; the answer of the quick pick is
    the [user] of every item picked, or [undefined]. *)
Definition addAssignees : Method unit :=
  let* this := get in
  let* assigneesToAdd := await (showQuickPick_assignees (assignees this)) in
  match assigneesToAdd with
  | Some assigneesToAdd =>
      let addedAssignees := addedAssignees_from ∅ assigneesToAdd in
      modify (set_assignees addedAssignees) >>
      let* this := get in
      detached (await (_postMessage (SetAssignees (assignees this))))
  | None => ret tt
  end.

(** [removeLabel(message)], with [label] for [message.args.label]. *)
Definition removeLabel (label : option ILabel) : Method unit :=
  match label with
  | None => ret tt
  | Some label =>
      let* this := get in
      let previousLabelsLength := length (labels this) in
      modify (fun this =>
                set_labels (List.filter (fun l => negb (String.eqb (name l) (name label)))
                                        (labels this)) this) >>
      let* this := get in
      if (previousLabelsLength =? length (labels this))%nat then ret tt
      else detached (await (_postMessage (SetLabels (labels this))))
  end.

Definition cancel (message : CreateMessage) : Method unit :=
  call (_onDone_fire None) >>
  (* Re-fetch the automerge info so that it's updated for next time. *)
  await (getMergeConfiguration (owner (args message)) (repo (args message)) true) >>
  call (_replyMessage message).

(* ------------------------------------------------------------------- *)
(** *** The default of the auto-merge box *)

(** The setting [DEFAULT_CREATE_OPTION]. *)
Module DefaultCreateOption.
Inductive t : Type := lastUsed | create | createDraft | createAutoMerge.
End DefaultCreateOption.

(** What the workspace state remembers of the last creation. *)
Record CreateMethod : Type := mkCreateMethod {
  last_autoMerge : bool;
  last_mergeMethod : option string;
  last_isDraft : bool
}.

(** [defaultMergeMethod], [isDraftDefault] and [autoMergeDefault] as
    [getCreateParams] computes them. *)
Definition getCreateParams_defaults (defaultCreateOption : DefaultCreateOption.t)
    (lastCreateMethod : option CreateMethod) (repoMergeMethod : string)
    (viewerCanAutoMerge : bool) : string * bool * bool :=
  (* default values are for 'create' *)
  let defaultMergeMethod := repoMergeMethod in
  let isDraftDefault := false in
  let autoMergeDefault := false in
  let lastMergeMethod := lastCreateMethod ≫= last_mergeMethod in
  let defaultMergeMethod :=
    match defaultCreateOption, lastMergeMethod with
    | DefaultCreateOption.lastUsed, Some m => if truthy m then m else repoMergeMethod
    | _, _ => repoMergeMethod
    end in
  match defaultCreateOption with
  | DefaultCreateOption.lastUsed =>
      (default repoMergeMethod lastMergeMethod,
       default false (last_isDraft <$> lastCreateMethod),
       viewerCanAutoMerge && default false (last_autoMerge <$> lastCreateMethod))
  | DefaultCreateOption.createDraft => (defaultMergeMethod, true, autoMergeDefault)
  | DefaultCreateOption.createAutoMerge =>
      (defaultMergeMethod, isDraftDefault, viewerCanAutoMerge)
  | DefaultCreateOption.create => (defaultMergeMethod, isDraftDefault, autoMergeDefault)
  end.

(** [autoMergeDefault] as [processRemoteAndBranchResult] computes it for a
    new base. *)
Definition processRemoteAndBranchResult_autoMergeDefault
    (defaultCreateOption : DefaultCreateOption.t) (lastCreateMethod : option CreateMethod)
    (viewerCanAutoMerge : bool) : bool :=
  let autoMergeDefault := false in
  if viewerCanAutoMerge then
    (match defaultCreateOption with
     | DefaultCreateOption.lastUsed => default false (last_autoMerge <$> lastCreateMethod)
     | _ => false
     end)
    || (match defaultCreateOption with
        | DefaultCreateOption.createAutoMerge => true
        | _ => false
        end)
  else autoMergeDefault.

(* ------------------------------------------------------------------- *)
(** *** [CreatePullRequestViewProvider]: [checkForChanges] and [create] *)

(** The local variables of the progress task of [create] that its [catch]
    and [finally] read. *)
Record Locals : Type := mkLocals {
  totalIncrement : Z;
  createdPR : option PullRequestModel
}.

Definition set_totalIncrement (v : Z) (l : Locals) : Locals := mkLocals v (createdPR l).
Definition set_createdPR (v : option PullRequestModel) (l : Locals) : Locals :=
  mkLocals (totalIncrement l) v.

Abbreviation Task := (M Call Locals) (only parsing).

(** [s.startsWith(prefix) ? s.substring(prefix.length) : s] *)
Definition stripPrefix (prefix s : string) : string :=
  if String.prefix prefix s
  then String.substring (String.length prefix) (String.length s - String.length prefix) s
  else s.

(** The double quote, for the messages that contain it. *)
Definition dquote : string := String (Ascii.ascii_of_nat 34) EmptyString.

(** The line feed, [\n] in a string of the source. *)
Definition lf : string := String (Ascii.ascii_of_nat 10) EmptyString.

Definition UNSTABLE_STATUS : string :=
  "GraphQL error: [" +:+ dquote +:+ "Pull request Pull request is in unstable status"
  +:+ dquote +:+ "]".

Section Create.
Context `{Host}.

Definition checkForChanges : Task bool :=
  let* changed := await model_filesHaveChanges in
  if (changed : bool) then
    let apply := l10n_t "Commit" [] in
    let deleteChanges := l10n_t "Delete my changes" [] in
    let* result :=
      call (window_showWarningMessage
              (l10n_t "You have made changes to the files in this pull request. Do you want to commit these changes to the pull request before creating it?" [])
              true [apply; deleteChanges]) in
    if bool_decide (result = Some apply) then
      let* commitMessage :=
        call (window_showInputBox (l10n_t "Commit message for your changes" [])) in
      match commitMessage with
      | Some commitMessage =>
          if truthy commitMessage then await (model_applyChanges commitMessage)
          else ret true
      | None => ret true
      end
    else if negb (bool_decide (result = Some deleteChanges)) then ret false
    else ret true
  else ret true.

(** The [try] block of the progress task.  A [return] ends it. *)
Definition create_try (message : CreateMessage) : Task unit :=
  let compareOwner := compareOwner (args message) in
  let compareRepositoryName := compareRepo (args message) in
  let compareBranchName := compareBranch (args message) in
  let compareGithubRemoteName := compareOwner +:+ "/" +:+ compareRepositoryName in
  let* compareBranch := await (repository_getBranch compareBranchName) in
  let* headRepo :=
    (if upstream compareBranch then call (findRepo compareOwner compareRepositoryName)
     else ret None) in
  let existingCompareUpstream := remote <$> headRepo in
  let* found :=
    (if match existingCompareUpstream with
        | None => true
        | Some existing =>
            negb (String.eqb (remote_owner existing) compareOwner)
            || negb (String.eqb (remote_repositoryName existing) compareRepositoryName)
        end
     then
       (* We assume this happens only when the compare branch is based on the
          current branch. *)
       let alwaysPublish := l10n_t "Always Publish Branch" [] in
       let publish := l10n_t "Publish Branch" [] in
       let* setting := call getConfiguration_PUSH_BRANCH in
       let pushBranchSetting := bool_decide (setting = Some "always") in
       let* messageResult :=
         (if negb pushBranchSetting then
            call (window_showInformationMessage
                    (l10n_t ("There is no remote branch on {0}/{1} for '{2}'." +:+ lf +:+ lf
                             +:+ "Do you want to publish it and then create the pull request?")
                       [compareOwner; compareRepositoryName; compareBranchName])
                    true [publish; alwaysPublish])
          else ret (Some publish)) in
       when (bool_decide (messageResult = Some alwaysPublish))
            (await (configuration_update_PUSH_BRANCH "always")) >>
       if bool_decide (messageResult = Some alwaysPublish)
          || bool_decide (messageResult = Some publish)
       then
         call (progress_report (l10n_t "Pushing branch" []) 10) >>
         modify (fun l => set_totalIncrement (totalIncrement l + 10) l) >>
         let* pushResult :=
           await (pushUpstream compareOwner compareRepositoryName compareBranchName) in
         match pushResult with
         | Some pushResult =>
             ret (Some (compareUpstream pushResult), push_repo pushResult)
         | None =>
             call (_throwError message
                     (l10n_t "The current repository does not have a push remote for {0}"
                        [compareGithubRemoteName])) >>
             ret (existingCompareUpstream, headRepo)
         end
       else ret (existingCompareUpstream, headRepo)
     else ret (existingCompareUpstream, headRepo)) in
  let '(existingCompareUpstream, headRepo) := found in
  match existingCompareUpstream with
  | None =>
      call (_throwError message
              (l10n_t "No remote branch on {0}/{1} for the merge branch."
                 [compareOwner; compareRepositoryName])) >>
      let* l := get in
      call (progress_report (l10n_t "Pull request cancelled" []) (100 - totalIncrement l))
  | Some existingCompareUpstream =>
      match headRepo with
      | None =>
          throw (mkError
                   (l10n_t ("Unable to find GitHub repository matching '{0}'. You can add '{0}' to the setting "
                            +:+ dquote +:+ "githubPullRequests.remotes" +:+ dquote
                            +:+ " to ensure '{0}' is found.")
                      [remoteName existingCompareUpstream]))
      | Some headRepo =>
          let* l := get in
          call (progress_report (l10n_t "Creating pull request" [])
                  (70 - totalIncrement l)) >>
          modify (fun l => set_totalIncrement (totalIncrement l + (70 - totalIncrement l)) l) >>
          let head := remote_owner (remote headRepo) +:+ ":" +:+ compareBranchName in
          call (checkGeneratedTitleAndDescription (title (args message))
                  (body (args message))) >>
          let* created :=
            await (folderRepositoryManager_createPullRequest (args message) head) in
          modify (set_createdPR created) >>
          match created with
          | None =>
              (* Create was cancelled *)
              call (_throwError message
                      (l10n_t "There must be a difference in commits to create a pull request."
                         []))
          | Some createdPR => await (postCreate message createdPR)
          end
      end
  end.

Definition create_catch (message : CreateMessage) (e : Error) : Task unit :=
  let* l := get in
  match createdPR l with
  | None =>
      let errorMessage := stripPrefix "GraphQL error: " (e_message e) in
      call (_throwError message errorMessage)
  | Some createdPR =>
      when (String.eqb (e_message e) UNSTABLE_STATUS)
           (* This error can happen if the PR isn't fully created by the time
              we try to set properties on it. Try again. *)
           (await (postCreate message createdPR)) >>
      (* All of these errors occur after the PR is created, so the error is
         not critical. *)
      call (window_showErrorMessage
              (l10n_t "There was an error creating the pull request: {0}" [e_message e]))
  end.

Definition create_finally (message : CreateMessage) : Task unit :=
  call (setContext_CREATING false) >>
  let* l := get in
  let* completeMessage :=
    match createdPR l with
    | Some createdPR =>
        call (_onDone_fire (Some createdPR)) >> ret (l10n_t "Pull request created" [])
    | None =>
        call (_replyMessage message) >> ret (l10n_t "Unable to create pull request" [])
    end in
  let* l := get in
  call (progress_report completeMessage (100 - totalIncrement l)).

(** The task given to [withProgress]. *)
Definition create_task (message : CreateMessage) : Task unit :=
  call (setContext_CREATING true) >>
  modify (set_totalIncrement 0) >>
  let* l := get in
  call (progress_report (l10n_t "Checking for upstream branch" []) (totalIncrement l)) >>
  modify (set_createdPR None) >>
  try_finally
    (try_catch (create_try message) (create_catch message))
    (create_finally message).

(** [create]: the task runs under [withProgress], whose promise is not
    awaited; neither is the update of the workspace state. *)
Definition create (message : CreateMessage) : Task unit :=
  let* go := checkForChanges in
  if negb go then call (_replyMessage message)
  else
    (* Save create method *)
    detached (await (workspaceState_update_PREVIOUS_CREATE_METHOD
                       (autoMerge (args message)) (autoMergeMethod (args message))
                       (draft (args message)))) >>
    detached (create_task message).

End Create.

End CreateView.

(* ===================================================================== *)
(** ** [CredentialStore]: asking for the additional scopes
       (src/github/credentials.ts)                                       *)
(* ===================================================================== *)

Module CredentialStoreUpgrade.
Import Credentials.

(** The calls of [initialize], and the event [onDidUpgradeSession]. *)
Inductive Call : Type -> Type :=
| store {X : Type} (c : Credentials.Call X) : Call X
| _onDidUpgradeSession_fire : Call unit.

Definition upgraded (e : Event Call) : bool :=
  match ev_call e with
  | _onDidUpgradeSession_fire => true
  | store _ => false
  end.

Section Store.
Context `{Host}.

Definition getHubEnsureAdditionalScopes (authProviderId : AuthProvider)
  : M Call CredentialStore (option GitHub) :=
  let* this := get in
  let hasScopesAlready := isAuthenticatedWithAdditionalScopes authProviderId this in
  lift (@store)
       (initialize authProviderId (mkOptions (Some (negb hasScopesAlready)) None None)
          (Some SCOPES_WITH_ADDITIONAL) (Some true)) >>
  when (negb hasScopesAlready) (call _onDidUpgradeSession_fire) >>
  let* this := get in
  ret (getHub authProviderId this).

End Store.

End CredentialStoreUpgrade.

(* ===================================================================== *)
(** ** Concrete inputs, used to run the definitions                      *)
(* ===================================================================== *)

Module Examples.

(** A heap with a shared schema (1) and a query schema (2) and their
    definition arrays (3, 4). *)
Definition sharedFields : gmap string Schema.JsValue :=
  <["definitions" := Schema.VRef 3]> (<["kind" := Schema.VStr "Document"]> ∅).
Definition schemaFields : gmap string Schema.JsValue :=
  <["definitions" := Schema.VRef 4]>
    (<["kind" := Schema.VStr "Query"]> (<["loc" := Schema.VNum 7]> ∅)).
Definition heap : gmap positive Schema.HeapObj :=
  <[1%positive := Schema.HObject sharedFields]>
    (<[2%positive := Schema.HObject schemaFields]>
       (<[3%positive := Schema.HArray [Schema.VStr "fragment Node"]]>
          (<[4%positive := Schema.HArray [Schema.VStr "query PullRequest"; Schema.VStr "query Issue"]]> ∅))).

(** *** A credential store and two environments for it *)

Definition credentialsHost : Credentials.Host :=
  Credentials.mkHost
    (fun p => match p with
              | Credentials.AuthProvider.githubEnterprise => true
              | Credentials.AuthProvider.github => false
              end)
    true
    (Some (Credentials.mkUri "https" "octocorp.ghe.com"))
    false
    (fun s => s).

Definition store : Credentials.CredentialStore :=
  Credentials.mkStore None None None None false
    Credentials.SCOPES_OLD Credentials.SCOPES_OLD false.

Definition oldSession : Credentials.AuthenticationSession :=
  Credentials.mkSession "session-1" "gho_token".

(** The user has a session for SCOPES_OLD only; everything else succeeds. *)
Definition sessionForOld : Handler Credentials.Call unit :=
  fun X c w =>
    match c in Credentials.Call X return X * unit with
    | Credentials.authentication_getSession _ scopes _ =>
        (inr (if bool_decide (scopes = Credentials.SCOPES_OLD) then Some oldSession
              else None), w)
    | Credentials.new_Octokit _ => (inr tt, w)
    | Credentials.new_ApolloClient _ => (inr tt, w)
    | Credentials.octokit_getAuthenticated => (tt, w)
    | Credentials.globalState_update _ _ => (inr tt, w)
    | Credentials.onDidInitialize_fire => (tt, w)
    | Credentials.telemetry_sendTelemetryEvent _ => (tt, w)
    | Credentials.window_showErrorMessage _ => (tt, w)
    end.

(** The user dismisses every login prompt. *)
Definition consentRefused : Handler Credentials.Call unit :=
  fun X c w =>
    match c in Credentials.Call X return X * unit with
    | Credentials.authentication_getSession _ _ _ =>
        (inl (mkError "User did not consent to login."), w)
    | Credentials.new_Octokit _ => (inr tt, w)
    | Credentials.new_ApolloClient _ => (inr tt, w)
    | Credentials.octokit_getAuthenticated => (tt, w)
    | Credentials.globalState_update _ _ => (inr tt, w)
    | Credentials.onDidInitialize_fire => (tt, w)
    | Credentials.telemetry_sendTelemetryEvent _ => (tt, w)
    | Credentials.window_showErrorMessage _ => (tt, w)
    end.

(** *** A pull request view and environments for it *)

Definition viewHost : PullRequestViewProvider.Host :=
  PullRequestViewProvider.mkHost
    (fun r => match r with
              | PullRequestViewProvider.Account a => PullRequestViewProvider.login a
              | PullRequestViewProvider.Team t => PullRequestViewProvider.team_id t
              end)
    (fun e => message e)
    (fun s _ => s).

Definition alice : PullRequestViewProvider.IAccount :=
  PullRequestViewProvider.mkAccount "alice" "U_1".
Definition bob : PullRequestViewProvider.IAccount :=
  PullRequestViewProvider.mkAccount "bob" "U_2".

Definition view : PullRequestViewProvider.PullRequestViewProvider :=
  PullRequestViewProvider.mkProvider
    [PullRequestViewProvider.ReviewState.mk (PullRequestViewProvider.Account alice) "REQUESTED";
     PullRequestViewProvider.ReviewState.mk (PullRequestViewProvider.Account bob) "COMMENTED"].

Definition approval : PullRequestViewProvider.ReviewEvent.t :=
  PullRequestViewProvider.ReviewEvent.mk bob (Some "APPROVED") "LGTM".

Definition mergeMessage : Webview.IRequestMessage :=
  Webview.mkMessage "7" "pr.merge"
    (Webview.ArgsMerge (Webview.mkMergeArguments (Some "Fix") None (Some "squash"))).

Definition approveMessage : Webview.IRequestMessage :=
  Webview.mkMessage "8" "pr.approve" (Webview.ArgsString "LGTM").

Definition unknownMessage : Webview.IRequestMessage :=
  Webview.mkMessage "9" "pr.unheard-of" Webview.ArgsNone.

(** The environment counts the polls it has answered: the mergeability is
    [Unknown] twice and [Mergeable] from then on.  The user says 'Yes', the
    merge succeeds, a submitted review is [approval] unless [rejects]. *)
Definition cooperative (rejects : bool) : Handler PullRequestViewProvider.Call nat :=
  fun X c polls =>
    match c in PullRequestViewProvider.Call X return X * nat with
    | PullRequestViewProvider.super_onDidReceiveMessage _ =>
        (inr Webview.MESSAGE_UNHANDLED, polls)
    | PullRequestViewProvider._replyMessage _ _ => (tt, polls)
    | PullRequestViewProvider._throwError _ _ => (tt, polls)
    | PullRequestViewProvider.window_showErrorMessage _ _ => (tt, polls)
    | PullRequestViewProvider.window_showInformationMessage _ _ _ => (Some "Yes", polls)
    | PullRequestViewProvider.commands_executeCommand _ => (tt, polls)
    | PullRequestViewProvider.setTimeout _ => (tt, polls)
    | PullRequestViewProvider.workingTreeChanges_length => (0, polls)
    | PullRequestViewProvider.indexChanges_length => (0, polls)
    | PullRequestViewProvider.getPreferredEmail => (inr (Some "alice@example.com"), polls)
    | PullRequestViewProvider.folderRepositoryManager_mergePullRequest _ _ _ _ =>
        (inr (PullRequestViewProvider.mkMergeResult true None), polls)
    | PullRequestViewProvider.tryMergeBaseIntoHead _ => (inr true, polls)
    | PullRequestViewProvider.item_getMergeability =>
        (inr (if polls <? 2 then PullRequestViewProvider.Unknown
              else PullRequestViewProvider.Mergeable), S polls)
    | PullRequestViewProvider.item_getTimelineEvents => (inr [], polls)
    | PullRequestViewProvider.item_approve _ =>
        (if rejects then inl (mkError "Validation Failed") else inr approval, polls)
    | PullRequestViewProvider.item_requestChanges _ =>
        (if rejects then inl (mkError "Validation Failed") else inr approval, polls)
    | PullRequestViewProvider.item_submitReview _ _ =>
        (if rejects then inl (mkError "Validation Failed") else inr approval, polls)
    | PullRequestViewProvider.this_refresh => (inr None, polls)
    | PullRequestViewProvider.openPullRequestOnGitHub => (inr tt, polls)
    | PullRequestViewProvider.enter _ _ => (inr tt, polls)
    end.

(** For the create view: the base class leaves every message unhandled. *)
Definition createEnv : Handler CreatePullRequestViewProvider.Call unit :=
  fun X c w =>
    match c in CreatePullRequestViewProvider.Call X return X * unit with
    | CreatePullRequestViewProvider.super_onDidReceiveMessage _ =>
        (inr Webview.MESSAGE_UNHANDLED, w)
    | CreatePullRequestViewProvider.enter _ _ => (inr tt, w)
    | CreatePullRequestViewProvider.window_showErrorMessage _ => (tt, w)
    end.

End Examples.

Module MoreExamples.

(** A host without an enterprise server in its settings. *)
Definition githubOnlyHost : Credentials.Host :=
  Credentials.mkHost
    (fun p => match p with
              | Credentials.AuthProvider.githubEnterprise => true
              | Credentials.AuthProvider.github => false
              end)
    false None false (fun s => s).

(** A store that is signed in to github.com with the additional scopes. *)
Definition signedIn : Credentials.CredentialStore :=
  Credentials.mkStore
    (Some (Credentials.mkGitHub
             (Credentials.mkOctokitOptions false "GitHub VSCode Pull Requests"
                ["shadow-cat-preview"; "merge-info-preview"] "gho_token"
                "https://api.github.com")
             (Credentials.link "https://api.github.com" "gho_token")))
    (Some "session-1") None None true
    Credentials.SCOPES_WITH_ADDITIONAL Credentials.SCOPES_OLD false.


(** Nobody is signed in: every request comes back without a session. *)
Definition noSession : Handler Credentials.Call unit :=
  fun X c w =>
    match c in Credentials.Call X return X * unit with
    | Credentials.authentication_getSession _ _ _ => (inr None, w)
    | c' => Examples.sessionForOld _ c' w
    end.

(** As [Examples.sessionForOld], but the REST client cannot be built. *)
Definition hubFails : Handler Credentials.Call unit :=
  fun X c w =>
    match c in Credentials.Call X return X * unit with
    | Credentials.new_Octokit _ => (inl (mkError "getaddrinfo ENOTFOUND api.github.com"), w)
    | c' => Examples.sessionForOld _ c' w
    end.

(** *** Environments for the other handlers of the pull request view *)

Definition carol : PullRequestViewProvider.ITeam :=
  PullRequestViewProvider.mkTeam "reviewers" "T_9".

(** Alice was asked, Bob has commented, the team has approved. *)
Definition reviewed : PullRequestViewProvider.PullRequestViewProvider :=
  PullRequestViewProvider.mkProvider
    [PullRequestViewProvider.ReviewState.mk (PullRequestViewProvider.Account Examples.alice)
       "REQUESTED";
     PullRequestViewProvider.ReviewState.mk (PullRequestViewProvider.Account Examples.bob)
       "COMMENTED";
     PullRequestViewProvider.ReviewState.mk (PullRequestViewProvider.Team carol) "APPROVED"].

Definition reRequestBob : Webview.IRequestMessage :=
  Webview.mkMessage "11" "pr.re-request-review" (Webview.ArgsString "U_2").

Definition checkoutMessage : Webview.IRequestMessage :=
  Webview.mkMessage "12" "pr.checkout-default-branch" Webview.ArgsNone.

(** Everything succeeds, unless [fails]: then the checkout of the default
    branch and the submission of a review are rejected. *)
Definition obliging (fails : bool) : Handler PullRequestViewActions.Call unit :=
  fun X c w =>
    match c in PullRequestViewActions.Call X return X * unit with
    | PullRequestViewActions._replyMessage _ _ => (tt, w)
    | PullRequestViewActions._throwError _ _ => (tt, w)
    | PullRequestViewActions._postMessage _ => (inr tt, w)
    | PullRequestViewActions.window_showErrorMessage _ => (tt, w)
    | PullRequestViewActions.getPullRequestRepositoryDefaultBranch => (inr "main", w)
    | PullRequestViewActions.repository_state_HEAD_name => (Some "fix-typo", w)
    | PullRequestViewActions.folderRepositoryManager_checkoutDefaultBranch _ =>
        (if fails then inl (mkError "local changes would be overwritten") else inr tt, w)
    | PullRequestViewActions.cleanupAfterPullRequest _ => (inr tt, w)
    | PullRequestViewActions.item_requestReview _ _ _ => (inr tt, w)
    | PullRequestViewActions.commands_executeCommand_pr_close _ => (inr None, w)
    | PullRequestViewActions.item_createIssueComment _ =>
        (inr (PullRequestViewActions.mkComment 1 "Thanks"), w)
    | PullRequestViewActions.item_setReadyForReview =>
        (if fails then inl (mkError "not allowed") else inr false, w)
    | PullRequestViewActions.PullRequestView_deleteBranch =>
        (inr (PullRequestViewActions.mkDeleteBranchResult true "deleted"), w)
    | PullRequestViewActions.submit _ _ =>
        (if fails then inl (mkError "Validation Failed") else inr Examples.approval, w)
    end.

(** As [obliging false], but the webview is gone when a review is to be
    appended: that post is rejected. *)
Definition disposed : Handler PullRequestViewActions.Call unit :=
  fun X c w =>
    match c in PullRequestViewActions.Call X return X * unit with
    | PullRequestViewActions._postMessage (PullRequestViewActions.AppendReview _ _) =>
        (inl (mkError "Webview is disposed"), w)
    | c' => obliging false _ c' w
    end.

(** *** Environments for the create view *)

(** The editor in English: a message is its own translation. *)
Definition english : CreateView.Host := CreateView.mkHost (fun message _ => message).

Definition bug : CreateView.ILabel := CreateView.mkLabel "bug" "d73a4a".
Definition docs : CreateView.ILabel := CreateView.mkLabel "documentation" "0075ca".
(** A label named as [bug] with another colour. *)
Definition bug_blue : CreateView.ILabel := CreateView.mkLabel "bug" "0000ff".

Definition drafted : CreateView.Fields :=
  CreateView.mkFields [bug; docs; bug_blue] [Examples.alice].

(** Another account with the login of [Examples.alice]. *)
Definition alice_again : PullRequestViewProvider.IAccount :=
  PullRequestViewProvider.mkAccount "alice" "U_7".

Definition upstreamRemote : CreateView.GitHubRemote :=
  CreateView.mkRemote "origin" "octo" "widgets".

Definition createArgs : CreateView.CreatePullRequestNew :=
  CreateView.mkCreateArgs "Fix typo" "One letter." "octo" "widgets" "main" "fix-typo"
    "octo" "widgets" false true (Some "squash") [bug] [Examples.alice]
    [PullRequestViewProvider.Account Examples.bob; PullRequestViewProvider.Team carol;
     PullRequestViewProvider.Account Examples.alice]
    None [].

Definition createMessage : CreateView.CreateMessage :=
  CreateView.mkCreateMessage "21" createArgs.

Definition pr42 : CreateView.PullRequestModel := CreateView.mkPullRequest 42.

(** What the user and the services answer while a pull request is created. *)
Record Studio : Type := mkStudio {
  studio_changes : bool;                     (* the files of the view were edited *)
  studio_warning : option string;            (* the answer to the warning *)
  studio_commitMessage : option string;      (* what is typed in the input box *)
  studio_upstream : bool;                    (* the compare branch is published *)
  studio_publish : option string;            (* the answer to the offer to publish *)
  studio_created : Error + option CreateView.PullRequestModel;
  studio_postCreate : list (Error + unit)    (* the answers of [postCreate], in turn *)
}.

(** The environment of a [Studio]; its state counts the runs of [postCreate]. *)
Definition studio (s : Studio) : Handler CreateView.Call nat :=
  fun X c n =>
    match c in CreateView.Call X return X * nat with
    | CreateView._postMessage _ => (inr tt, n)
    | CreateView._replyMessage _ => (tt, n)
    | CreateView._throwError _ _ => (tt, n)
    | CreateView._onDone_fire _ => (tt, n)
    | CreateView.getMergeConfiguration _ _ _ => (inr tt, n)
    | CreateView.showQuickPick_assignees _ =>
        (inr (Some [Some Examples.bob; None; Some Examples.alice; Some alice_again;
                    Some Examples.bob]), n)
    | CreateView.inspect_PULL_REQUEST_LABELS =>
        (Some (CreateView.mkLabelSettings (Some ["bug"; "wontfix"]) None), n)
    | CreateView.getLabels _ _ => (inr [docs; bug; bug_blue], n)
    | CreateView.pr_setLabels _ => (inr tt, n)
    | CreateView.pr_enableAutoMerge _ => (inr tt, n)
    | CreateView.pr_requestReview _ _ _ => (inr tt, n)
    | CreateView.pr_updateMilestone _ => (inr tt, n)
    | CreateView.pr_updateProjects _ => (inr tt, n)
    | CreateView.model_filesHaveChanges => (inr (studio_changes s), n)
    | CreateView.model_applyChanges _ => (inr true, n)
    | CreateView.window_showWarningMessage _ _ _ => (studio_warning s, n)
    | CreateView.window_showInformationMessage _ _ _ => (studio_publish s, n)
    | CreateView.window_showInputBox _ => (studio_commitMessage s, n)
    | CreateView.window_showErrorMessage _ => (tt, n)
    | CreateView.workspaceState_update_PREVIOUS_CREATE_METHOD _ _ _ => (inr tt, n)
    | CreateView.setContext_CREATING _ => (tt, n)
    | CreateView.progress_report _ _ => (tt, n)
    | CreateView.repository_getBranch _ => (inr (CreateView.mkBranch (studio_upstream s)), n)
    | CreateView.findRepo _ _ => (Some (CreateView.mkRepository upstreamRemote), n)
    | CreateView.getConfiguration_PUSH_BRANCH => (None, n)
    | CreateView.configuration_update_PUSH_BRANCH _ => (inr tt, n)
    | CreateView.pushUpstream _ _ _ => (inr None, n)
    | CreateView.checkGeneratedTitleAndDescription _ _ => (tt, n)
    | CreateView.folderRepositoryManager_createPullRequest _ _ => (studio_created s, n)
    | CreateView.postCreate _ _ =>
        (default (inr tt) (studio_postCreate s !! n), S n)
    end.

(** Nothing was edited, the branch is published, the pull request is created
    and its properties are set at the first attempt. *)
Definition smooth : Studio :=
  mkStudio false None None true None (inr (Some pr42)) [].

(** As [smooth], but the pull request is not ready when its properties are
    first set. *)
Definition unstable : Studio :=
  mkStudio false None None true None (inr (Some pr42))
    [inl (mkError CreateView.UNSTABLE_STATUS); inr tt].

(** The branch is not published and the offer to publish it is dismissed. *)
Definition unpublished : Studio :=
  mkStudio false None None false None (inr (Some pr42)) [].

(** The files were edited; the user chooses to commit and types nothing. *)
Definition edited : Studio :=
  mkStudio true (Some "Commit") (Some "") true None (inr (Some pr42)) [].

(** *** Environments for the upgrade of a session *)

(** The environment [base] for the calls of [initialize]; the event
    [onDidUpgradeSession] has no listener. *)
Definition upgrading (base : Handler Credentials.Call unit)
  : Handler CredentialStoreUpgrade.Call unit :=
  fun X c w =>
    match c in CredentialStoreUpgrade.Call X return X * unit with
    | CredentialStoreUpgrade.store c' => base _ c' w
    | CredentialStoreUpgrade._onDidUpgradeSession_fire => (tt, w)
    end.

End MoreExamples.

(* ===================================================================== *)
(** * Properties                                                         *)
(* ===================================================================== *)

(** ** Running programs *)

Section ProgramFacts.
Context {E : Type -> Type}.

Lemma run_pbind {W A B} (h : Handler E W) (p : Prog E A) (f : A -> Prog E B) w :
  run h (pbind p f) w =
    let '(tr1, a, w1) := run h p w in
    let '(tr2, b, w2) := run h (f a) w1 in
    (tr1 ++ tr2, b, w2).
Proof.
  revert w; induction p as [a | X c k IH]; intros w; simpl.
  - destruct (run h (f a) w) as [[tr b] w']; reflexivity.
  - destruct (h X c w) as [x w1]. rewrite IH.
    destruct (run h (k x) w1) as [[tr1 a] w2].
    destruct (run h (f a) w2) as [[tr2 b] w3]; reflexivity.
Qed.

Lemma exec_bind {W S A B} (h : Handler E W) (m : M E S A) (f : A -> M E S B) s w :
  exec h (bind m f) s w =
    let '(tr1, r, w1) := exec h m s w in
    match r with
    | (Returned a, s1) =>
        let '(tr2, r2, w2) := exec h (f a) s1 w1 in (tr1 ++ tr2, r2, w2)
    | (Thrown e, s1) => (tr1, (Thrown e, s1), w1)
    end.
Proof.
  unfold exec, bind. rewrite run_pbind.
  destruct (run h (m s) w) as [[tr1 [[a | e] s1]] w1]; simpl.
  - destruct (run h (f a s1) w1) as [[tr2 r2] w2]; reflexivity.
  - rewrite app_nil_r; reflexivity.
Qed.

Lemma exec_try_catch {W S A} (h : Handler E W) (m : M E S A) (f : Error -> M E S A) s w :
  exec h (try_catch m f) s w =
    let '(tr1, r, w1) := exec h m s w in
    match r with
    | (Returned a, s1) => (tr1, (Returned a, s1), w1)
    | (Thrown e, s1) =>
        let '(tr2, r2, w2) := exec h (f e) s1 w1 in (tr1 ++ tr2, r2, w2)
    end.
Proof.
  unfold exec, try_catch. rewrite run_pbind.
  destruct (run h (m s) w) as [[tr1 [[a | e] s1]] w1]; simpl.
  - rewrite app_nil_r; reflexivity.
  - destruct (run h (f e s1) w1) as [[tr2 r2] w2]; reflexivity.
Qed.

Lemma exec_ret {W S A} (h : Handler E W) (a : A) (s : S) w :
  exec h (ret a) s w = ([], (Returned a, s), w).
Proof. reflexivity. Qed.

Lemma exec_throw {W S A} (h : Handler E W) (e : Error) (s : S) w :
  exec h (throw (A:=A) e) s w = ([], (Thrown e, s), w).
Proof. reflexivity. Qed.

Lemma exec_get {W S} (h : Handler E W) (s : S) w :
  exec h get s w = ([], (Returned s, s), w).
Proof. reflexivity. Qed.

Lemma exec_modify {W S} (h : Handler E W) (f : S -> S) (s : S) w :
  exec h (modify f) s w = ([], (Returned tt, f s), w).
Proof. reflexivity. Qed.

(** Rules for [returns]. *)
Lemma returns_ret {S A} (P : A -> Prop) (a : A) : P a -> returns (E:=E) (S:=S) P (ret a).
Proof. intros HP W h w w' s s' tr out [= <- <- <- <-] a' [= <-]. exact HP. Qed.

Lemma returns_throw {S A} (P : A -> Prop) (e : Error) : returns (E:=E) (S:=S) P (throw e).
Proof. intros W h w w' s s' tr out [= <- <- <- <-] a' [=]. Qed.

Lemma returns_bind {S A B} (Q : A -> Prop) (P : B -> Prop) (m : M E S A)
    (k : A -> M E S B) :
  returns Q m -> (forall a, Q a -> returns P (k a)) -> returns P (bind m k).
Proof.
  intros Hm Hk W h w w' s s' tr out Hrun b Hout. rewrite exec_bind in Hrun.
  destruct (exec h m s w) as [[tr1 [[a | e] s1]] w1] eqn:Hm1.
  - destruct (exec h (k a) s1 w1) as [[tr2 [out2 s2]] w2] eqn:Hk1.
    injection Hrun as <- <- <- <-.
    apply (Hk a (Hm _ _ _ _ _ _ _ _ Hm1 a eq_refl) _ _ _ _ _ _ _ _ Hk1 b Hout).
  - injection Hrun as <- <- <- <-. discriminate.
Qed.

Lemma returns_try_catch {S A} (P : A -> Prop) (m : M E S A) (f : Error -> M E S A) :
  returns P m -> (forall e, returns P (f e)) -> returns P (try_catch m f).
Proof.
  intros Hm Hf W h w w' s s' tr out Hrun a Hout. rewrite exec_try_catch in Hrun.
  destruct (exec h m s w) as [[tr1 [[a1 | e] s1]] w1] eqn:Hm1.
  - injection Hrun as <- <- <- <-. apply (Hm _ _ _ _ _ _ _ _ Hm1 a Hout).
  - destruct (exec h (f e) s1 w1) as [[tr2 [out2 s2]] w2] eqn:Hf1.
    injection Hrun as <- <- <- <-. apply (Hf e _ _ _ _ _ _ _ _ Hf1 a Hout).
Qed.

Lemma returns_True {S A} (m : M E S A) : returns (fun _ => True) m.
Proof. intros W h w w' s s' tr out _ a _. exact I. Qed.

Lemma preceded_by_nil (P Q : Event E -> Prop) : preceded_by P Q [].
Proof. intros [|? ?] ? ? Heq; discriminate. Qed.

(** An event that is not a [Q] may come first. *)
Lemma preceded_by_cons (P Q : Event E -> Prop) e tr :
  ~ Q e -> (P e \/ preceded_by P Q tr) -> preceded_by P Q (e :: tr).
Proof.
  intros HnQ Hrest [|e0 tr1] e1 tr2 Heq HQ; simpl in Heq; injection Heq as <- ->.
  - contradiction.
  - destruct Hrest as [HP | Hrest].
    + exists e. split; [left | exact HP].
    + destruct (Hrest tr1 e1 tr2 eq_refl HQ) as (e' & Hin & HP).
      exists e'. split; [right; exact Hin | exact HP].
Qed.

(** Nothing in [tr] is a [Q]. *)
Lemma preceded_by_none (P Q : Event E -> Prop) tr :
  Forall (fun e => ~ Q e) tr -> preceded_by P Q tr.
Proof.
  intros Hall tr1 e tr2 -> HQ. exfalso.
  rewrite Forall_app, Forall_cons in Hall. destruct Hall as (_ & HnQ & _). auto.
Qed.

End ProgramFacts.

(** Stepping a run in the hypothesis [H]: name the answer of the next call. *)
Ltac next_call h H :=
  match type of H with
  | context [h ?X ?c ?w] =>
      let x := fresh "ans" in let w' := fresh "w" in
      destruct (h X c w) as [x w'] eqn:?; simpl in H
  end.

(** The run in [H] is over: take its trace, outcome and fields. *)
Ltac finish_run H :=
  injection H as <- <- <- <-;
  repeat match goal with u : unit |- _ => destruct u end.

(** ** Strings *)

Lemma substring_all (s : string) : String.substring 0 (String.length s) s = s.
Proof. induction s as [|a s IH]; simpl; [reflexivity | rewrite IH; reflexivity]. Qed.

Lemma substring_app_suffix (p t : string) :
  String.substring (String.length p) (String.length t) (p +:+ t) = t.
Proof. induction p as [|a p IH]; simpl; [apply substring_all | exact IH]. Qed.

Lemma length_app (p t : string) :
  String.length (p +:+ t) = String.length p + String.length t.
Proof. induction p as [|a p IH]; simpl; [reflexivity | rewrite IH; reflexivity]. Qed.

Lemma substring_split (s : string) (k : nat) :
  k <= String.length s ->
  s = String.substring 0 k s +:+ String.substring k (String.length s - k) s.
Proof.
  revert k; induction s as [|a s IH]; intros k Hk; simpl in *.
  - assert (k = 0) as -> by lia. reflexivity.
  - destruct k as [|k]; simpl.
    + rewrite substring_all. reflexivity.
    + change (String a s
              = String a (String.substring 0 k s
                          +:+ String.substring k (String.length s - k) s)).
      f_equal. apply IH. lia.
Qed.

(** [s.endsWith(suffix)] holds exactly when [s] is something followed by
    [suffix]. *)
Lemma endsWith_iff (s suffix : string) :
  endsWith s suffix = true <-> exists p, s = p +:+ suffix.
Proof.
  unfold endsWith; split.
  - intros [Hle Heq]%andb_true_iff.
    apply Nat.leb_le in Hle. apply String.eqb_eq in Heq.
    exists (String.substring 0 (String.length s - String.length suffix) s).
    rewrite (substring_split s (String.length s - String.length suffix)) at 1 by lia.
    f_equal. rewrite <- Heq at 3. f_equal. lia.
  - intros [p ->]. rewrite length_app. apply andb_true_iff; split.
    + apply Nat.leb_le. lia.
    + replace (String.length p + String.length suffix - String.length suffix)
        with (String.length p) by lia.
      rewrite substring_app_suffix. apply String.eqb_refl.
Qed.
(** ** [mergeQuerySchemaWithShared] *)

Module SchemaFacts.
Import Schema.

Lemma alloc_fresh (h : Heap) o l h' :
  alloc h o = (l, h') -> h !! l = None /\ h' = <[l := o]> h.
Proof.
  unfold alloc; intros [= <- <-]; split; [|reflexivity].
  apply not_elem_of_dom, is_fresh.
Qed.

Lemma alloc_old (h : Heap) o l h' k :
  alloc h o = (l, h') -> is_Some (h !! k) -> h' !! k = h !! k.
Proof.
  intros Ha [x Hx]. destruct (alloc_fresh _ _ _ _ Ha) as [Hl ->].
  rewrite lookup_insert_ne; [reflexivity | congruence].
Qed.

Lemma concat_arrays (h : Heap) r a xs ys :
  h !! r = Some (HArray xs) -> h !! a = Some (HArray ys) ->
  concat h (VRef r) (VRef a) = Some (alloc h (HArray (xs ++ ys))).
Proof. intros Hr Ha. unfold concat. rewrite Hr, Ha. reflexivity. Qed.

#[local] Opaque alloc concat.

(** C10. For all schemas on the heap, [mergeQuerySchemaWithShared] returns a
    new object whose [definitions] is a new array holding the definitions of
    [schema] followed by those of [sharedSchema]; every other key has the
    value of [sharedSchema] when present there and that of [schema]
    otherwise; and every object and array that was on the heap, the two
    inputs and their definition arrays among them, is as it was. *)
Theorem mergeQuerySchemaWithShared_spec
    (h : Heap) (sharedSchema schema : loc)
    (sharedFields schemaFields : gmap string JsValue)
    (aShared aSchema : loc) (sharedDefs schemaDefs : list JsValue) :
  h !! sharedSchema = Some (HObject sharedFields) ->
  h !! schema = Some (HObject schemaFields) ->
  sharedFields !! "definitions" = Some (VRef aShared) ->
  schemaFields !! "definitions" = Some (VRef aSchema) ->
  h !! aShared = Some (HArray sharedDefs) ->
  h !! aSchema = Some (HArray schemaDefs) ->
  exists (r : loc) (h' : Heap) (fields : gmap string JsValue) (aMerged : loc),
    mergeQuerySchemaWithShared h sharedSchema schema = Some (r, h')
    /\ h !! r = None /\ h !! aMerged = None
    /\ h' !! r = Some (HObject fields)
    /\ fields !! "definitions" = Some (VRef aMerged)
    /\ h' !! aMerged = Some (HArray (schemaDefs ++ sharedDefs))
    /\ (forall key, key <> "definitions" ->
          fields !! key = match sharedFields !! key with
                          | Some v => Some v
                          | None => schemaFields !! key
                          end)
    /\ (forall l, is_Some (h !! l) -> h' !! l = h !! l).
Proof.
  intros Hs Hc Hsd Hcd Has Hac.
  unfold mergeQuerySchemaWithShared, getField.
  rewrite Hs, Hc, Hsd, Hcd; simpl.
  rewrite (concat_arrays _ _ _ _ _ Hac Has).
  destruct (alloc h (HArray (schemaDefs ++ sharedDefs))) as [a h1] eqn:Ha; simpl.
  destruct (alloc_fresh _ _ _ _ Ha) as [Hfa Hh1].
  assert (Hc1 : h1 !! schema = Some (HObject schemaFields)).
  { rewrite (alloc_old _ _ _ _ _ Ha); eauto. }
  assert (Hs1 : h1 !! sharedSchema = Some (HObject sharedFields)).
  { rewrite (alloc_old _ _ _ _ _ Ha); eauto. }
  rewrite Hc1, Hs1.
  destruct (alloc h1 (HObject (<["definitions":=VRef a]> (spread2 schemaFields sharedFields))))
    as [r h2] eqn:Hr.
  destruct (alloc_fresh _ _ _ _ Hr) as [Hfr Hh2].
  exists r, h2, (<["definitions":=VRef a]> (spread2 schemaFields sharedFields)), a.
  assert (Hra : r <> a).
  { intros ->. subst h1. rewrite lookup_insert_eq in Hfr. discriminate. }
  repeat split.
  - subst h1. rewrite lookup_insert_ne in Hfr by congruence. exact Hfr.
  - exact Hfa.
  - subst h2. apply lookup_insert_eq.
  - apply lookup_insert_eq.
  - subst h2 h1. rewrite lookup_insert_ne by congruence. apply lookup_insert_eq.
  - intros key Hkey. rewrite lookup_insert_ne by congruence.
    unfold spread2. rewrite lookup_union.
    destruct (sharedFields !! key), (schemaFields !! key); reflexivity.
  - intros l Hl. rewrite (alloc_old _ _ _ _ _ Hr).
    + apply (alloc_old _ _ _ _ _ Ha Hl).
    + rewrite (alloc_old _ _ _ _ _ Ha Hl). exact Hl.
Qed.

#[local] Transparent alloc concat.

Lemma mergeQuerySchemaWithShared_spec_witness :
  exists (r : loc) (h' : Heap) (fields : gmap string JsValue) (aMerged : loc),
    mergeQuerySchemaWithShared Examples.heap 1 2 = Some (r, h')
    /\ Examples.heap !! r = None /\ Examples.heap !! aMerged = None
    /\ h' !! r = Some (HObject fields)
    /\ fields !! "definitions" = Some (VRef aMerged)
    /\ h' !! aMerged
       = Some (HArray ([VStr "query PullRequest"; VStr "query Issue"] ++ [VStr "fragment Node"]))
    /\ (forall key, key <> "definitions" ->
          fields !! key = match Examples.sharedFields !! key with
                          | Some v => Some v
                          | None => Examples.schemaFields !! key
                          end)
    /\ (forall l, is_Some (Examples.heap !! l) -> h' !! l = Examples.heap !! l).
Proof.
  apply (mergeQuerySchemaWithShared_spec Examples.heap 1 2
           Examples.sharedFields Examples.schemaFields 3 4); reflexivity.
Defined.

(** The merged object of the example: the key [kind] comes from the shared
    schema, [loc] from the query schema. *)
Example mergeQuerySchemaWithShared_example :
  match mergeQuerySchemaWithShared Examples.heap 1 2 with
  | Some (r, h') =>
      match h' !! r with
      | Some (HObject fields) =>
          fields !! "kind" = Some (VStr "Document")
          /\ fields !! "loc" = Some (VNum 7)
          /\ (fields !! "definitions" ≫= (fun v =>
                match v with VRef a => h' !! a | _ => None end))
             = Some (HArray [VStr "query PullRequest"; VStr "query Issue"; VStr "fragment Node"])
      | _ => False
      end
  | None => False
  end.
Proof. vm_compute. repeat split. Qed.

End SchemaFacts.

(** ** [CredentialStore] *)

Module CredentialsFacts.
Import Credentials.

Section Store.
Context `{Host}.

(** C7. [isAuthenticated(provider)] is true exactly when a hub is stored for
    the provider ([_githubAPI] when the provider is not the enterprise one,
    [_githubEnterpriseAPI] when it is), and [isAnyAuthenticated()] is true
    exactly when [isAuthenticated] is for one of the two providers. *)
Theorem isAuthenticated_iff_hub_stored (this : CredentialStore) :
  (forall authProviderId : AuthProvider,
      isAuthenticated authProviderId this = true
      <-> is_Some (if isEnterprise authProviderId then _githubEnterpriseAPI this
                   else _githubAPI this))
  /\ (isAnyAuthenticated this = true
      <-> isAuthenticated AuthProvider.github this = true
          \/ isAuthenticated AuthProvider.githubEnterprise this = true)
  /\ (isAnyAuthenticated this = true
      <-> exists authProviderId, isAuthenticated authProviderId this = true).
Proof.
  split; [|split].
  - intros p. unfold isAuthenticated.
    destruct (isEnterprise p); simpl;
      [destruct (_githubEnterpriseAPI this) | destruct (_githubAPI this)]; simpl;
      split; intros Hx; try discriminate; eauto; destruct Hx; discriminate.
  - unfold isAnyAuthenticated. apply orb_true_iff.
  - unfold isAnyAuthenticated. rewrite orb_true_iff. split.
    + intros [Hx | Hx]; eauto.
    + intros [[|] Hx]; auto.
Qed.

(** [getHub] gives the hub that [isAuthenticated] tests for. *)
Lemma isAuthenticated_getHub (p : AuthProvider) (this : CredentialStore) :
  isAuthenticated p this = defined (getHub p this).
Proof. unfold isAuthenticated, getHub. destruct (isEnterprise p); reflexivity. Qed.

(** C5. [createHub] builds the REST client on 'https://api.github.com' for
    a provider that is not the enterprise one; for the enterprise provider
    with an enterprise URI whose authority ends with 'ghe.com', on
    '<scheme>://api.<authority>'; with any other enterprise URI, on
    '<scheme>://<authority>/api/v3'.  The GraphQL endpoint is that base URL
    followed by '/graphql', except that for an enterprise URI that is not on
    ghe.com it is '<scheme>://<authority>/api' followed by '/graphql'.  In
    every run the REST client is constructed first, on that base URL; the
    GraphQL client is constructed next whenever the REST client could be
    constructed, on that endpoint; the hub returned holds the two. *)
Theorem createHub_urls {W} (h : Handler Call W) (w w' : W) (this this' : CredentialStore)
    (token : string) (authProviderId : AuthProvider)
    (tr : list (Event Call)) (out : Outcome GitHub) :
  exec h (createHub token authProviderId) this w = (tr, (out, this'), w') ->
  (isEnterprise authProviderId = false ->
     hub_urls tr out "https://api.github.com" ("https://api.github.com" +:+ "/graphql"))
  /\ (forall u, isEnterprise authProviderId = true -> getEnterpriseUri = Some u ->
        endsWith (authority u) "ghe.com" = true ->
        hub_urls tr out (scheme u +:+ "://api." +:+ authority u)
                        ((scheme u +:+ "://api." +:+ authority u) +:+ "/graphql"))
  /\ (forall u, isEnterprise authProviderId = true -> getEnterpriseUri = Some u ->
        endsWith (authority u) "ghe.com" = false ->
        hub_urls tr out (scheme u +:+ "://" +:+ authority u +:+ "/api/v3")
                        ((scheme u +:+ "://" +:+ authority u +:+ "/api") +:+ "/graphql")).
Proof.
  intros Hrun.
  assert (Hgen : forall rest graphQLBaseUrl,
    exec h
      (await (new_Octokit (mkOctokitOptions uiKindIsWeb "GitHub VSCode Pull Requests"
                ["shadow-cat-preview"; "merge-info-preview"]
                (if truthy token then token else "") rest)) >>
       await (new_ApolloClient (link graphQLBaseUrl (if truthy token then token else ""))) >>
       setCurrentUser
         (mkGitHub (mkOctokitOptions uiKindIsWeb "GitHub VSCode Pull Requests"
                      ["shadow-cat-preview"; "merge-info-preview"]
                      (if truthy token then token else "") rest)
                   (link graphQLBaseUrl (if truthy token then token else ""))) >>
       ret (mkGitHub (mkOctokitOptions uiKindIsWeb "GitHub VSCode Pull Requests"
                      ["shadow-cat-preview"; "merge-info-preview"]
                      (if truthy token then token else "") rest)
                   (link graphQLBaseUrl (if truthy token then token else ""))))
      this w = (tr, (out, this'), w') ->
    hub_urls tr out rest (graphQLBaseUrl +:+ "/graphql")).
  { intros rest gql Hx. unfold exec, setCurrentUser in Hx. simpl in Hx.
    next_call h Hx. destruct ans as [e | []]; simpl in Hx.
    { injection Hx as <- <- <- <-. split; [|split; [|split]]; simpl.
      - eexists; split; reflexivity.
      - intros l Hl. inversion Hl.
      - discriminate.
      - eexists _, (inl e), []. repeat split. }
    next_call h Hx. destruct ans as [e | []]; simpl in Hx.
    { injection Hx as <- <- <- <-. split; [|split; [|split]]; simpl.
      - eexists; split; reflexivity.
      - intros l Hl. apply list_elem_of_singleton in Hl as ->. reflexivity.
      - discriminate.
      - eexists _, (inr tt), _. split; [reflexivity|]. split; [reflexivity|].
        eexists _, (inl e), []. repeat split. }
    next_call h Hx. injection Hx as <- <- <- <-. split; [|split; [|split]]; simpl.
    - eexists; split; reflexivity.
    - intros l Hl. apply list_elem_of_singleton in Hl as ->. reflexivity.
    - intros g [= <-]. repeat split.
    - eexists _, (inr tt), _. split; [reflexivity|]. split; [reflexivity|].
      eexists _, (inr tt), _. split; [reflexivity|]. split; [reflexivity|].
      repeat split. }
  unfold createHub in Hrun.
  split; [|split].
  - intros Hp. rewrite Hp in Hrun. simpl in Hrun. apply Hgen, Hrun.
  - intros u Hp Hu Hg. rewrite Hp, Hu in Hrun. simpl in Hrun. rewrite Hg in Hrun.
    simpl in Hrun. apply Hgen, Hrun.
  - intros u Hp Hu Hg. rewrite Hp, Hu in Hrun. simpl in Hrun. rewrite Hg in Hrun.
    simpl in Hrun. apply Hgen, Hrun.
Qed.

(** The runs of [getSession], case by case; the fields are not touched. *)
Lemma getSession_cases {W} (h : Handler Call W) (w w' : W) (this this' : CredentialStore)
    (p : AuthProvider) (opts : GetSessionOptions) (scopes : list string) (req : bool)
    (tr : list (Event Call)) (out : Outcome SessionResult) :
  exec h (getSession p opts scopes req) this w = (tr, (out, this'), w') ->
  this' = this
  /\ length (omap auth_of tr) = length tr
  /\ let calls := omap auth_of tr in
     let requested := if req then scopes else SCOPES_OLD in
     let fresh_outcome (ans : Error + option AuthenticationSession) :=
       match ans with
       | inr session => Returned (mkSessionResult session (defined session) requested)
       | inl e => Thrown e
       end in
     if forced opts || req then
       exists ans, calls = [(p, requested, opts, ans)] /\ out = fresh_outcome ans
     else
       exists k rest,
         k <= 3
         /\ calls = ((fun sc => (p, sc, mkOptions None None (Some true), inr None))
                       <$> take k scopesInPreferenceOrder) ++ rest
         /\ ((exists sc session,
                scopesInPreferenceOrder !! k = Some sc
                /\ rest = [(p, sc, mkOptions None None (Some true), inr (Some session))]
                /\ out = Returned (mkSessionResult (Some session) false sc))
             \/ (exists sc e,
                   scopesInPreferenceOrder !! k = Some sc
                   /\ rest = [(p, sc, mkOptions None None (Some true), inl e)]
                   /\ out = Thrown e)
             \/ (k = 3 /\ exists ans,
                   rest = [(p, SCOPES_OLD, opts, ans)] /\ out = fresh_outcome ans)).
Proof.
  intros Hrun. unfold exec, getSession, findExistingScopes in Hrun.
  destruct (forced opts || req) eqn:Hf; simpl in Hrun.
  - next_call h Hrun. destruct ans as [e | session]; simpl in Hrun;
      injection Hrun as <- <- <- <-; (split; [reflexivity | split; [reflexivity|]]);
      simpl; eexists; split; reflexivity.
  - apply orb_false_iff in Hf as [_ ->].
    next_call h Hrun. destruct ans as [e | [session|]]; simpl in Hrun.
    { injection Hrun as <- <- <- <-. split; [reflexivity | split; [reflexivity|]].
      exists 0, [(p, SCOPES_WITH_ADDITIONAL, mkOptions None None (Some true), inl e)].
      split; [lia | split; [reflexivity|]]. right; left. do 2 eexists. repeat split. }
    { injection Hrun as <- <- <- <-. split; [reflexivity | split; [reflexivity|]].
      exists 0, [(p, SCOPES_WITH_ADDITIONAL, mkOptions None None (Some true),
                  inr (Some session))].
      split; [lia | split; [reflexivity|]]. left. do 2 eexists. repeat split. }
    next_call h Hrun. destruct ans as [e | [session|]]; simpl in Hrun.
    { injection Hrun as <- <- <- <-. split; [reflexivity | split; [reflexivity|]].
      exists 1, [(p, SCOPES_OLD, mkOptions None None (Some true), inl e)].
      split; [lia | split; [reflexivity|]]. right; left. do 2 eexists. repeat split. }
    { injection Hrun as <- <- <- <-. split; [reflexivity | split; [reflexivity|]].
      exists 1, [(p, SCOPES_OLD, mkOptions None None (Some true), inr (Some session))].
      split; [lia | split; [reflexivity|]]. left. do 2 eexists. repeat split. }
    next_call h Hrun. destruct ans as [e | [session|]]; simpl in Hrun.
    { injection Hrun as <- <- <- <-. split; [reflexivity | split; [reflexivity|]].
      exists 2, [(p, SCOPES_OLDEST, mkOptions None None (Some true), inl e)].
      split; [lia | split; [reflexivity|]]. right; left. do 2 eexists. repeat split. }
    { injection Hrun as <- <- <- <-. split; [reflexivity | split; [reflexivity|]].
      exists 2, [(p, SCOPES_OLDEST, mkOptions None None (Some true), inr (Some session))].
      split; [lia | split; [reflexivity|]]. left. do 2 eexists. repeat split. }
    next_call h Hrun.
    destruct ans as [e | session]; simpl in Hrun; injection Hrun as <- <- <- <-;
      (split; [reflexivity | split; [reflexivity|]]);
      (eexists 3, [_]; split; [lia | split; [reflexivity|]]);
      right; right; (split; [reflexivity|]); eexists; split; reflexivity.
Qed.

(** C8. [getSession] looks for an existing session only when neither
    [forceNewSession] nor [requireScopes] is set; then the scope sets are
    tried silently in the order SCOPES_WITH_ADDITIONAL, SCOPES_OLD,
    SCOPES_OLDEST, and the first session found is returned with the scope set
    it was found for and [isNew = false].  In every other case that returns,
    one request is made with the caller's options, for the requested scopes
    when [requireScopes] is set and for SCOPES_OLD otherwise, and those are
    the scopes reported. *)
Theorem getSession_preference_order {W} (h : Handler Call W) (w w' : W)
    (this this' : CredentialStore) (authProviderId : AuthProvider)
    (getAuthSessionOptions : GetSessionOptions) (scopes : list string)
    (requireScopes : bool) (tr : list (Event Call)) (out : Outcome SessionResult) :
  exec h (getSession authProviderId getAuthSessionOptions scopes requireScopes) this w
    = (tr, (out, this'), w') ->
  let calls := omap auth_of tr in
  let silentOnly := mkOptions None None (Some true) in
  let requested := if requireScopes then scopes else SCOPES_OLD in
  let fresh_outcome (ans : Error + option AuthenticationSession) :=
    match ans with
    | inr session => Returned (mkSessionResult session (defined session) requested)
    | inl e => Thrown e
    end in
  (forced getAuthSessionOptions || requireScopes = true ->
     exists ans, calls = [(authProviderId, requested, getAuthSessionOptions, ans)]
                 /\ out = fresh_outcome ans)
  /\ (forced getAuthSessionOptions || requireScopes = false ->
       exists k rest,
         k <= 3
         /\ calls = ((fun sc => (authProviderId, sc, silentOnly, inr None))
                       <$> take k [SCOPES_WITH_ADDITIONAL; SCOPES_OLD; SCOPES_OLDEST])
                    ++ rest
         /\ ((exists sc session,
                [SCOPES_WITH_ADDITIONAL; SCOPES_OLD; SCOPES_OLDEST] !! k = Some sc
                /\ rest = [(authProviderId, sc, silentOnly, inr (Some session))]
                /\ out = Returned (mkSessionResult (Some session) false sc))
             \/ (exists sc e,
                   [SCOPES_WITH_ADDITIONAL; SCOPES_OLD; SCOPES_OLDEST] !! k = Some sc
                   /\ rest = [(authProviderId, sc, silentOnly, inl e)]
                   /\ out = Thrown e)
             \/ (k = 3 /\ exists ans,
                   rest = [(authProviderId, SCOPES_OLD, getAuthSessionOptions, ans)]
                   /\ out = fresh_outcome ans))).
Proof.
  intros Hrun calls silentOnly requested fresh_outcome.
  destruct (getSession_cases _ _ _ _ _ _ _ _ _ _ _ Hrun) as (_ & _ & Hc).
  simpl in Hc. fold calls in Hc. split; intros Hf; rewrite Hf in Hc; exact Hc.
Qed.

Lemma forced_defaultCreateIfNone (o : GetSessionOptions) :
  forced (defaultCreateIfNone o) = forced o.
Proof.
  destruct o as [[c|] [f|] s]; reflexivity.
Qed.

(** C2. When obtaining the session throws in a call of [initialize], the
    fields of the store, [_scopes] and [_scopesEnterprise] among them, are at
    the end of the call what they were at its start; the call returns
    [{ canceled: true }] when a new session was forced and the error is
    'User did not consent to login.', and throws the same error otherwise. *)
Theorem initialize_session_error {W} (h : Handler Call W) (w w1 : W)
    (this this1 : CredentialStore) (fuel : nat) (authProviderId : AuthProvider)
    (getAuthSessionOptions : GetSessionOptions) (scopesArg : option (list string))
    (requireScopes : option bool) (tr : list (Event Call)) (e : Error) :
  let scopes := default (if negb (isEnterprise authProviderId) then _scopes this
                         else _scopesEnterprise this) scopesArg in
  isEnterprise authProviderId && negb hasEnterpriseUri = false ->
  exec h (getSession authProviderId (defaultCreateIfNone getAuthSessionOptions) scopes
            (truthyb requireScopes))
       ((if negb (isEnterprise authProviderId) then set_scopes scopes
         else set_scopesEnterprise scopes) this) w
    = (tr, (Thrown e, this1), w1) ->
  exists out this',
    exec h (initialize_fuel (S fuel) authProviderId getAuthSessionOptions scopesArg
              requireScopes) this w
      = (tr, (out, this'), w1)
    /\ _scopes this' = _scopes this
    /\ _scopesEnterprise this' = _scopesEnterprise this
    /\ this' = this
    /\ out = if forced getAuthSessionOptions
                 && String.eqb (message e) "User did not consent to login."
              then Returned (Some (mkAuthResult true))
              else Thrown e.
Proof.
  intros scopes Hearly Hrun. subst scopes.
  pose proof (getSession_cases _ _ _ _ _ _ _ _ _ _ _ Hrun) as (-> & _ & _).
  cbn [initialize_fuel].
  rewrite exec_bind, exec_get. rewrite Hearly.
  rewrite exec_bind, exec_try_catch, exec_bind, exec_modify, exec_bind, Hrun.
  rewrite exec_bind, exec_modify, exec_bind, exec_modify.
  rewrite forced_defaultCreateIfNone.
  assert (Hback : forall scopes, set_scopesEnterprise (_scopesEnterprise this)
                    (set_scopes (_scopes this)
                       ((if negb (isEnterprise authProviderId) then set_scopes scopes
                         else set_scopesEnterprise scopes) this)) = this).
  { intros scopes. destruct this; destruct (isEnterprise authProviderId); reflexivity. }
  simpl. rewrite Hback.
  destruct (forced getAuthSessionOptions
            && String.eqb (message e) "User did not consent to login.") eqn:Hc.
  - apply andb_true_iff in Hc as [_ Hmsg]. rewrite Hmsg.
    rewrite !exec_ret. simpl. rewrite !app_nil_r.
    eexists _, _. repeat split; reflexivity.
  - rewrite exec_throw. simpl. rewrite !app_nil_r.
    eexists _, _. repeat split; reflexivity.
Qed.

(** What [initialize] does once it has a session: it returns [Some] result,
    or what the second call of [initialize] returned. *)
Lemma initialize_fuel_returns (fuel : nat) :
  (forall authProviderId getAuthSessionOptions scopesArg requireScopes,
      forced getAuthSessionOptions = true ->
      returns (fun r => r <> None)
        (initialize_fuel fuel authProviderId getAuthSessionOptions scopesArg requireScopes)) ->
  forall authProviderId getAuthSessionOptions scopesArg requireScopes,
    returns (fun r => r <> None)
      (initialize_fuel (S fuel) authProviderId getAuthSessionOptions scopesArg requireScopes).
Proof.
  intros IH p opts scopesArg req. cbn [initialize_fuel].
  apply (returns_bind (fun _ => True)); [apply returns_True|]. intros this _.
  destruct (isEnterprise p && negb hasEnterpriseUri); [apply returns_ret; discriminate|].
  apply (returns_bind (fun _ => True)); [apply returns_True|].
  intros [[[[session|] isNew] usedScopes] authResult] _; [|apply returns_ret; discriminate].
  apply (returns_bind (fun _ => True)); [apply returns_True|]. intros _ _.
  apply (returns_bind (fun hub => forall r, hub = inl r -> r <> None)).
  - apply returns_try_catch.
    + apply (returns_bind (fun _ => True)); [apply returns_True|]. intros github _.
      apply returns_ret. discriminate.
    + intros e.
      destruct (String.eqb (message e) "Bad credentials"
                && negb (forced (defaultCreateIfNone opts))).
      * apply (returns_bind (fun r => r <> None)); [apply IH; reflexivity|].
        intros r Hr. apply returns_ret. intros r' [= <-]. exact Hr.
      * apply (returns_bind (fun _ => True)); [apply returns_True|]. intros _ _.
        apply returns_ret. discriminate.
  - intros [r | github] Hhub.
    + apply returns_ret. apply Hhub. reflexivity.
    + repeat (apply (returns_bind (fun _ => True)); [apply returns_True|]; intros ? _).
      apply returns_ret. discriminate.
Qed.

(** [initialize] gives a result: two units of fuel are enough.  With a forced
    new session there is no second call; without, the second call is one with
    a forced new session. *)
Lemma initialize_total {W} (h : Handler Call W) (fuel : nat) (w w' : W)
    (this this' : CredentialStore) (authProviderId : AuthProvider)
    (getAuthSessionOptions : GetSessionOptions) (scopesArg : option (list string))
    (requireScopes : option bool) tr out :
  exec h (initialize_fuel (S (S fuel)) authProviderId getAuthSessionOptions scopesArg
            requireScopes) this w = (tr, (out, this'), w') ->
  out <> Returned None.
Proof.
  intros Hrun ->.
  refine (initialize_fuel_returns (S fuel) _ _ _ _ _ _ _ _ _ _ _ _ _ Hrun None eq_refl eq_refl).
  clear. intros p opts scopesArg req Hforced.
  (* a forced new session: the branch of the second call is dead *)
  cbn [initialize_fuel].
  apply (returns_bind (fun _ => True)); [apply returns_True|]. intros this _.
  destruct (isEnterprise p && negb hasEnterpriseUri); [apply returns_ret; discriminate|].
  apply (returns_bind (fun _ => True)); [apply returns_True|].
  intros [[[[session|] isNew] usedScopes] authResult] _; [|apply returns_ret; discriminate].
  apply (returns_bind (fun _ => True)); [apply returns_True|]. intros _ _.
  apply (returns_bind (fun hub => forall r, hub = inl r -> r <> None)).
  - apply returns_try_catch.
    + apply (returns_bind (fun _ => True)); [apply returns_True|]. intros github _.
      apply returns_ret. discriminate.
    + intros e. rewrite forced_defaultCreateIfNone, Hforced, andb_false_r.
      apply (returns_bind (fun _ => True)); [apply returns_True|]. intros _ _.
      apply returns_ret. discriminate.
  - intros [r | github] Hhub.
    + apply returns_ret. apply Hhub. reflexivity.
    + repeat (apply (returns_bind (fun _ => True)); [apply returns_True|]; intros ? _).
      apply returns_ret. discriminate.
Qed.

End Store.

(** *** The theorems at concrete inputs *)

(** A store that holds a hub for github.com only. *)
Lemma isAuthenticated_iff_hub_stored_witness :
  isAnyAuthenticated (H:=Examples.credentialsHost)
    (set_githubAPI
       (Some (mkGitHub (mkOctokitOptions false "" [] "" "https://api.github.com")
                       (link "https://api.github.com" "")))
       Examples.store) = true.
Proof.
  apply (proj1 (proj2 (isAuthenticated_iff_hub_stored (H:=Examples.credentialsHost) _))).
  left. reflexivity.
Defined.

(** The enterprise hub of the example host, whose URI is on ghe.com. *)
Lemma createHub_urls_witness :
  let '(tr, (out, _), _) :=
    exec Examples.sessionForOld
      (createHub (H:=Examples.credentialsHost) "gho_token" AuthProvider.githubEnterprise)
      Examples.store tt in
  hub_urls tr out "https://api.octocorp.ghe.com" "https://api.octocorp.ghe.com/graphql".
Proof.
  exact (proj1 (proj2
           (createHub_urls (H:=Examples.credentialsHost) Examples.sessionForOld tt tt
              Examples.store Examples.store "gho_token" AuthProvider.githubEnterprise
              _ _ eq_refl))
           (mkUri "https" "octocorp.ghe.com") eq_refl eq_refl eq_refl).
Defined.

(** With a session for SCOPES_OLD only, the second probe finds it. *)
Lemma getSession_preference_order_witness :
  let '(tr, (out, _), _) :=
    exec Examples.sessionForOld
      (getSession AuthProvider.github (mkOptions None None None) SCOPES_WITH_ADDITIONAL false)
      Examples.store tt in
  exists k rest,
    k <= 3
    /\ omap auth_of tr
       = ((fun sc => (AuthProvider.github, sc, mkOptions None None (Some true), inr None))
            <$> take k [SCOPES_WITH_ADDITIONAL; SCOPES_OLD; SCOPES_OLDEST]) ++ rest
    /\ ((exists sc session,
           [SCOPES_WITH_ADDITIONAL; SCOPES_OLD; SCOPES_OLDEST] !! k = Some sc
           /\ rest = [(AuthProvider.github, sc, mkOptions None None (Some true),
                       inr (Some session))]
           /\ out = Returned (mkSessionResult (Some session) false sc))
        \/ (exists sc e,
              [SCOPES_WITH_ADDITIONAL; SCOPES_OLD; SCOPES_OLDEST] !! k = Some sc
              /\ rest = [(AuthProvider.github, sc, mkOptions None None (Some true), inl e)]
              /\ out = Thrown e)
        \/ (k = 3 /\ exists ans,
              rest = [(AuthProvider.github, SCOPES_OLD, mkOptions None None None, ans)]
              /\ out = match ans with
                       | inr session =>
                           Returned (mkSessionResult session (defined session) SCOPES_OLD)
                       | inl e => Thrown e
                       end)).
Proof.
  exact (proj2
           (getSession_preference_order Examples.sessionForOld
              tt tt Examples.store Examples.store AuthProvider.github
              (mkOptions None None None) SCOPES_WITH_ADDITIONAL false _ _ eq_refl)
           eq_refl).
Defined.

(** A forced login that the user dismisses: [{ canceled: true }], and the
    store is as before. *)
Lemma initialize_session_error_witness :
  exists out this',
    exec Examples.consentRefused
      (initialize (H:=Examples.credentialsHost) AuthProvider.github
         (mkOptions None (Some (ForceBool true)) None)
         (Some SCOPES_WITH_ADDITIONAL) (Some true))
      Examples.store tt
    = ([Ev (authentication_getSession AuthProvider.github SCOPES_WITH_ADDITIONAL
              (mkOptions None (Some (ForceBool true)) None))
           (inl (mkError "User did not consent to login."))],
       (out, this'), tt)
    /\ _scopes this' = _scopes Examples.store
    /\ _scopesEnterprise this' = _scopesEnterprise Examples.store
    /\ this' = Examples.store
    /\ out = Returned (Some (mkAuthResult true)).
Proof.
  eapply (initialize_session_error (H:=Examples.credentialsHost) Examples.consentRefused
           tt tt Examples.store _ 1 AuthProvider.github
           (mkOptions None (Some (ForceBool true)) None)
           (Some SCOPES_WITH_ADDITIONAL) (Some true) _
           (mkError "User did not consent to login.")); reflexivity.
Defined.

(** A first sign-in with an old session at hand: the second silent probe
    finds it, the hub is built on github.com, the scopes are saved and the
    store is initialized. *)
Example initialize_with_old_session :
  let '(tr, (out, this'), _) :=
    exec Examples.sessionForOld
      (initialize (H:=Examples.credentialsHost) AuthProvider.github
         (mkOptions None None None) None None)
      Examples.store tt in
  out = Returned (Some (mkAuthResult false))
  /\ isAuthenticated (H:=Examples.credentialsHost) AuthProvider.github this' = true
  /\ isAuthenticated (H:=Examples.credentialsHost) AuthProvider.githubEnterprise this' = false
  /\ _sessionId this' = Some "session-1"
  /\ _scopes this' = SCOPES_OLD
  /\ _isInitialized this' = true
  /\ (fun '(_, sc, _, _) => sc) <$> omap auth_of tr = [SCOPES_WITH_ADDITIONAL; SCOPES_OLD]
  /\ baseUrl <$> omap octokit_of tr = ["https://api.github.com"]
  /\ uri <$> omap apollo_of tr = ["https://api.github.com/graphql"].
Proof. vm_compute. repeat split. Qed.

Example endsWith_examples :
  endsWith "octocorp.ghe.com" "ghe.com" = true
  /\ endsWith "github.example.com" "ghe.com" = false
  /\ endsWith "e.com" "ghe.com" = false.
Proof. repeat split. Qed.

End CredentialsFacts.

(** ** [PullRequestViewProvider] *)

Module PullRequestViewProviderFacts.
Import Webview PullRequestViewProvider.

Section Provider.
Context `{Host}.

(** C4. For a review that has a state, [updateReviewers] is an upsert on
    [_existingReviewers] by the reviewer id: when an entry whose reviewer id
    is the login of the review's user exists, the first such entry gets the
    state of the review, keeps its reviewer, and nothing else changes, the
    length included; when there is none, one entry, the review's user with
    the review's state, is appended. *)
Theorem updateReviewers_upsert (this : PullRequestViewProvider) (review : ReviewEvent.t)
    (state : string) :
  ReviewEvent.state review = Some state ->
  truthy state = true ->
  let matches (r : ReviewState.t) :=
    reviewerId (ReviewState.reviewer r) = login (ReviewEvent.user review) in
  let before := _existingReviewers this in
  let after := _existingReviewers (updateReviewers (Some review) this) in
  ((exists r, r ∈ before /\ matches r) ->
     exists i r,
       before !! i = Some r /\ matches r
       /\ (forall j r', j < i -> before !! j = Some r' -> ~ matches r')
       /\ after !! i = Some (ReviewState.mk (ReviewState.reviewer r) state)
       /\ (forall j, j <> i -> after !! j = before !! j)
       /\ length after = length before)
  /\ ((forall r, r ∈ before -> ~ matches r) ->
        after = before ++ [ReviewState.mk (Account (ReviewEvent.user review)) state]).
Proof.
  intros Hstate Htruthy matches before after.
  subst after. unfold updateReviewers. rewrite Hstate, Htruthy. fold before.
  destruct (list_find _ before) as [[i r]|] eqn:Hfind.
  - apply list_find_Some in Hfind as (Hi & Hm & Hfirst). simpl. split.
    + intros _. exists i, r. repeat split.
      * exact Hi.
      * symmetry; exact Hm.
      * intros j r' Hj Hr' Hm'. apply (Hfirst j r' Hr' Hj). symmetry; exact Hm'.
      * apply list_lookup_insert_eq. eapply lookup_lt_Some; eauto.
      * intros j Hj. apply list_lookup_insert_ne. congruence.
      * apply length_insert.
    + intros Hnone. exfalso. apply (Hnone r).
      * eapply list_elem_of_lookup_2; eauto.
      * symmetry; exact Hm.
  - apply list_find_None in Hfind. simpl. split.
    + intros (r & Hr & Hm). exfalso.
      rewrite Forall_forall in Hfind. apply (Hfind r Hr). symmetry; exact Hm.
    + intros _. reflexivity.
Qed.

(** C3. A review request makes one submission, with the arguments of the
    message.  When the submission rejects, [_existingReviewers] (the one
    field) is as it was, no reply is sent and the formatted error goes to the
    webview through [_throwError]; [_existingReviewers] differs at the end
    only when the submission resolved, and is then what [updateReviewers]
    makes of the review. *)
Theorem doReviewMessage_error_keeps_reviewers {W} (h : Handler Call W) (w w' : W)
    (this this' : PullRequestViewProvider) (kind : ReviewEventEnum)
    (message : IRequestMessage) (tr : list (Event Call)) (out : Outcome unit) :
  exec h (reviewMessage kind message) this w = (tr, (out, this'), w') ->
  exists ans,
    omap submit_of tr = [(kind, args message, ans)]
    /\ head tr ≫= submit_of = Some (kind, args message, ans)
    /\ (forall e, ans = inl e ->
          _existingReviewers this' = _existingReviewers this
          /\ omap throwError_of tr = [(Some message, ErrorText (formatError e))]
          /\ omap reply_of tr = []
          /\ out = Returned tt)
    /\ (forall review, ans = inr review ->
          this' = updateReviewers (Some review) this
          /\ omap reply_of tr
             = [(message, ReplyReview [] review (_existingReviewers this'))]
          /\ omap throwError_of tr = [])
    /\ (_existingReviewers this' <> _existingReviewers this ->
          exists review, ans = inr review).
Proof.
  intros Hrun.
  destruct kind; unfold exec in Hrun; simpl in Hrun;
    next_call h Hrun; destruct ans as [e | review]; simpl in Hrun;
    repeat next_call h Hrun; finish_run Hrun; simpl;
    eexists; (split; [reflexivity | split; [reflexivity|]]);
    (split; [|split]);
    try (intros ? Heq; simplify_eq; repeat split; reflexivity);
    try (intros Hne; eexists; reflexivity);
    try (intros Hne; exfalso; apply Hne; reflexivity).
Qed.

(** The order of a run of [mergePullRequest]: the merge comes after the
    dialog answered 'Yes'; what follows a dialog, and what follows a merge
    result. *)
Lemma mergePullRequest_order {W} (h : Handler Call W) (w w' : W)
    (this this' : PullRequestViewProvider) (message : IRequestMessage)
    (tr : list (Event Call)) (out : Outcome unit) :
  exec h (mergePullRequest message) this w = (tr, (out, this'), w') ->
  let yes := l10n_t "Yes" [] in
  let question := l10n_t "Merge this pull request?" [] in
  preceded_by (fun e => confirm_of e = Some (question, true, [yes], Some yes))
              (fun e => is_Some (merge_of e)) tr
  /\ (forall msg modal items answer,
        (msg, modal, items, answer) ∈ omap confirm_of tr ->
        msg = question /\ modal = true /\ items = [yes])
  /\ (forall answer,
        (question, true, [yes], answer) ∈ omap confirm_of tr -> answer <> Some yes ->
        omap reply_of tr = [(message, ReplyState Open)]
        /\ omap merge_of tr = []
        /\ out = Returned tt)
  /\ (forall result,
        inr result ∈ omap merge_of tr ->
        omap reply_of tr
        = [(message, ReplyState (if merged result then Merged else Open))]
        /\ (merged result = true <-> omap reply_of tr = [(message, ReplyState Merged)]))
  /\ length (omap merge_of tr) <= 1.
Proof.
  intros Hrun yes question.
  unfold exec, mergePullRequest in Hrun.
  destruct (destructure_MergeArguments (args message))
    as [e | [[title description] method]]; simpl in Hrun.
  { (* [message.args] cannot be destructured: nothing happens *)
    finish_run Hrun. simpl. split; [|split; [|split; [|split]]].
    - apply preceded_by_none. constructor.
    - intros ? ? ? ? Hin. inversion Hin.
    - intros ? Hin. inversion Hin.
    - intros ? Hin. inversion Hin.
    - lia. }
  next_call h Hrun. destruct ans as [e | email]; simpl in Hrun.
  { (* the preferred email cannot be had: nothing else happens *)
    finish_run Hrun. simpl. split; [|split; [|split; [|split]]].
    - apply preceded_by_none. repeat constructor. simpl. intros [? [=]].
    - intros ? ? ? ? Hin. inversion Hin.
    - intros ? Hin. inversion Hin.
    - intros ? Hin. inversion Hin.
    - lia. }
  next_call h Hrun. fold yes question in Hrun, Heqp0.
  destruct (bool_decide (ans = Some yes)) eqn:Hyes; simpl in Hrun.
  2: { (* not confirmed *)
    next_call h Hrun. finish_run Hrun. simpl.
    apply bool_decide_eq_false in Hyes.
    split; [|split; [|split; [|split]]].
    - apply preceded_by_none. repeat constructor; simpl; intros [? [=]].
    - intros ? ? ? ? Hin. apply list_elem_of_singleton in Hin.
      injection Hin as -> -> -> ->. auto.
    - intros ? _ _. auto.
    - intros ? Hin. inversion Hin.
    - lia. }
  apply bool_decide_eq_true in Hyes. subst ans.
  assert (Hdialog : forall (tl : list (Event Call)),
    Forall (fun e => confirm_of e = None) tl ->
    forall msg modal items answer,
      (msg, modal, items, answer)
        ∈ omap confirm_of (Ev getPreferredEmail (inr email)
                            :: Ev (window_showInformationMessage question true [yes])
                                  (Some yes) :: tl) ->
      msg = question /\ modal = true /\ items = [yes] /\ answer = Some yes).
  { intros tl Htl ? ? ? ? Hin. simpl in Hin.
    apply elem_of_cons in Hin as [Hin | Hin].
    - injection Hin as -> -> -> ->. auto.
    - exfalso. apply list_elem_of_omap in Hin as (e' & He' & Hc).
      rewrite Forall_forall in Htl. rewrite (Htl _ He') in Hc. discriminate. }
  next_call h Hrun. destruct ans as [e | result]; simpl in Hrun.
  { (* the merge rejects *)
    do 2 next_call h Hrun. finish_run Hrun.
    split; [|split; [|split; [|split]]].
    - apply preceded_by_cons; [simpl; intros [? [=]] | right].
      apply preceded_by_cons; [simpl; intros [? [=]] | left; reflexivity].
    - intros ? ? ? ? Hin. apply Hdialog in Hin; [tauto | repeat constructor].
    - intros ? Hin Hne. apply Hdialog in Hin; [tauto | repeat constructor].
    - simpl. intros ? Hin. apply list_elem_of_singleton in Hin. discriminate.
    - simpl. lia. }
  next_call h Hrun.
  destruct (merged result) eqn:Hmerged; simpl in Hrun.
  - next_call h Hrun. finish_run Hrun.
    split; [|split; [|split; [|split]]].
    + apply preceded_by_cons; [simpl; intros [? [=]] | right].
      apply preceded_by_cons; [simpl; intros [? [=]] | left; reflexivity].
    + intros ? ? ? ? Hin. apply Hdialog in Hin; [tauto | repeat constructor].
    + intros ? Hin Hne. apply Hdialog in Hin; [tauto | repeat constructor].
    + simpl. intros ? Hin. apply list_elem_of_singleton in Hin.
      injection Hin as ->. rewrite Hmerged. split; [reflexivity | tauto].
    + simpl. lia.
  - do 2 next_call h Hrun. finish_run Hrun.
    split; [|split; [|split; [|split]]].
    + apply preceded_by_cons; [simpl; intros [? [=]] | right].
      apply preceded_by_cons; [simpl; intros [? [=]] | left; reflexivity].
    + intros ? ? ? ? Hin. apply Hdialog in Hin; [tauto | repeat constructor].
    + intros ? Hin Hne. apply Hdialog in Hin; [tauto | repeat constructor].
    + simpl. intros ? Hin. apply list_elem_of_singleton in Hin.
      injection Hin as ->. rewrite Hmerged. split; [reflexivity|].
      split; [discriminate | intros [=]].
    + simpl. lia.
Qed.

(** The runs of [mergePullRequest], step by step, from the answers that the
    environment [h] gives. *)
Lemma mergePullRequest_runs {W} (h : Handler Call W) (w w' : W)
    (this this' : PullRequestViewProvider) (message : IRequestMessage)
    (tr : list (Event Call)) (out : Outcome unit) :
  exec h (mergePullRequest message) this w = (tr, (out, this'), w') ->
  let yes := l10n_t "Yes" [] in
  let question := l10n_t "Merge this pull request?" [] in
  this' = this
  /\ match destructure_MergeArguments (args message) with
     | inl e => tr = [] /\ out = Thrown e
     | inr (title, description, method) =>
         let email := (h _ getPreferredEmail w).1 in
         let w1 := (h _ getPreferredEmail w).2 in
         let dialog := window_showInformationMessage question true [yes] in
         let confirmation := (h _ dialog w1).1 in
         let w2 := (h _ dialog w1).2 in
         match email with
         | inl e => tr = [Ev getPreferredEmail (inl e)] /\ out = Thrown e
         | inr address =>
             let merge :=
               folderRepositoryManager_mergePullRequest title description method address in
             let result := (h _ merge w2).1 in
             out = Returned tt
             /\ if bool_decide (confirmation = Some yes) then
                  exists after,
                    tr = [Ev getPreferredEmail (inr address); Ev dialog confirmation;
                          Ev merge result] ++ after
                    /\ omap merge_of after = [] /\ omap confirm_of after = []
                    /\ match result with
                       | inr r =>
                           omap reply_of after
                           = [(message, ReplyState (if merged r then Merged else Open))]
                           /\ omap throwError_of after = []
                           /\ omap showError_of after
                              = (if merged r then []
                                 else [l10n_t "Merging PR failed: {0}"
                                         [default "" (merge_message r)]])
                       | inl e =>
                           omap reply_of after = []
                           /\ omap throwError_of after = [(Some message, ErrorEmpty)]
                           /\ omap showError_of after
                              = [l10n_t "Unable to merge pull request. {0}" [formatError e]]
                       end
                else
                  tr = [Ev getPreferredEmail (inr address); Ev dialog confirmation;
                        Ev (_replyMessage message (ReplyState Open)) tt]
         end
     end.
Proof.
  intros Hrun yes question. subst yes question. unfold exec, mergePullRequest in Hrun.
  destruct (destructure_MergeArguments (args message))
    as [e | [[title description] method]]; simpl in Hrun.
  { finish_run Hrun. repeat split. }
  cbv zeta.
  next_call h Hrun. cbn [fst snd]. destruct ans as [e | address]; simpl in Hrun.
  { finish_run Hrun. repeat split. }
  next_call h Hrun. cbn [fst snd].
  destruct (bool_decide (ans = Some (l10n_t "Yes" []))); simpl in Hrun.
  2: { next_call h Hrun. finish_run Hrun. cbv iota. repeat split. }
  next_call h Hrun. cbn [fst snd]. destruct ans0 as [e | result]; simpl in Hrun.
  { do 2 next_call h Hrun. finish_run Hrun. cbv iota. split; [reflexivity|].
    split; [reflexivity|]. eexists. split; [reflexivity|]. repeat split. }
  next_call h Hrun. destruct (merged result) eqn:Hmerged; simpl in Hrun.
  - next_call h Hrun. finish_run Hrun. cbv iota. split; [reflexivity|].
    split; [reflexivity|]. eexists. split; [reflexivity|]. repeat split.
  - do 2 next_call h Hrun. finish_run Hrun. cbv iota. split; [reflexivity|].
    split; [reflexivity|]. eexists. split; [reflexivity|]. repeat split.
Qed.

(** C1. In a run of [mergePullRequest]: the merge on the folder repository
    manager is called only after the modal dialog 'Merge this pull request?'
    was answered with 'Yes'; when the dialog is answered otherwise, the one
    reply is [{ state: Open }] and there is no merge; when the merge gives a
    result, the one reply carries [Merged] if the result says [merged] and
    [Open] if not.  The run is this, and nothing else: [message.args] is
    destructured, which throws when there are no arguments, before anything
    is asked; the preferred email is asked for, and its rejection is thrown
    on; the dialog is shown, modal, with the one item 'Yes'; any other answer
    is followed by the reply [{ state: Open }] alone; the answer 'Yes' is
    followed by the merge, with the title, description and method of the
    message and the email, and then by the one reply for its result, or by
    the error [{}] when it rejects. *)
Theorem mergePullRequest_after_confirmation {W} (h : Handler Call W) (w w' : W)
    (this this' : PullRequestViewProvider) (message : IRequestMessage)
    (tr : list (Event Call)) (out : Outcome unit) :
  exec h (mergePullRequest message) this w = (tr, (out, this'), w') ->
  let yes := l10n_t "Yes" [] in
  let question := l10n_t "Merge this pull request?" [] in
  preceded_by (fun e => confirm_of e = Some (question, true, [yes], Some yes))
              (fun e => is_Some (merge_of e)) tr
  /\ (forall msg modal items answer,
        (msg, modal, items, answer) ∈ omap confirm_of tr ->
        msg = question /\ modal = true /\ items = [yes])
  /\ (forall answer,
        (question, true, [yes], answer) ∈ omap confirm_of tr -> answer <> Some yes ->
        omap reply_of tr = [(message, ReplyState Open)]
        /\ omap merge_of tr = []
        /\ out = Returned tt)
  /\ (forall result,
        inr result ∈ omap merge_of tr ->
        omap reply_of tr
        = [(message, ReplyState (if merged result then Merged else Open))]
        /\ (merged result = true <-> omap reply_of tr = [(message, ReplyState Merged)]))
  /\ length (omap merge_of tr) <= 1
  /\ this' = this
  /\ match destructure_MergeArguments (args message) with
     | inl e => tr = [] /\ out = Thrown e
     | inr (title, description, method) =>
         let email := (h _ getPreferredEmail w).1 in
         let w1 := (h _ getPreferredEmail w).2 in
         let dialog := window_showInformationMessage question true [yes] in
         let confirmation := (h _ dialog w1).1 in
         let w2 := (h _ dialog w1).2 in
         match email with
         | inl e => tr = [Ev getPreferredEmail (inl e)] /\ out = Thrown e
         | inr address =>
             let merge :=
               folderRepositoryManager_mergePullRequest title description method address in
             let result := (h _ merge w2).1 in
             out = Returned tt
             /\ if bool_decide (confirmation = Some yes) then
                  exists after,
                    tr = [Ev getPreferredEmail (inr address); Ev dialog confirmation;
                          Ev merge result] ++ after
                    /\ omap merge_of after = [] /\ omap confirm_of after = []
                    /\ match result with
                       | inr r =>
                           omap reply_of after
                           = [(message, ReplyState (if merged r then Merged else Open))]
                           /\ omap throwError_of after = []
                           /\ omap showError_of after
                              = (if merged r then []
                                 else [l10n_t "Merging PR failed: {0}"
                                         [default "" (merge_message r)]])
                       | inl e =>
                           omap reply_of after = []
                           /\ omap throwError_of after = [(Some message, ErrorEmpty)]
                           /\ omap showError_of after
                              = [l10n_t "Unable to merge pull request. {0}" [formatError e]]
                       end
                else
                  tr = [Ev getPreferredEmail (inr address); Ev dialog confirmation;
                        Ev (_replyMessage message (ReplyState Open)) tt]
         end
     end.
Proof.
  intros Hrun yes question.
  destruct (mergePullRequest_order h w w' this this' message tr out Hrun)
    as (Horder & Hdialog & Hno & Hresult & Honce).
  destruct (mergePullRequest_runs h w w' this this' message tr out Hrun)
    as (Hthis & Hsteps).
  do 4 (split; [assumption|]). split; [exact Honce|]. split; [exact Hthis | exact Hsteps].
Qed.

(** The poll loop, by induction on the counter: it asks at least once and at
    most [attemptsRemaining] times (once when the counter is 0), every answer
    but the last is [Unknown], and it makes no other call than the poll and
    the timer. *)
Lemma pollMergeability_polls (attemptsRemaining : nat) {W} (h : Handler Call W) :
  forall (w w' : W) (this this' : PullRequestViewProvider) (tr : list (Event Call))
         (out : Outcome PullRequestMergeability),
    exec h (pollMergeability attemptsRemaining) this w = (tr, (out, this'), w') ->
    this' = this
    /\ 1 <= length (omap mergeability_of tr) <= Nat.max 1 attemptsRemaining
    /\ (forall i a, omap mergeability_of tr !! i = Some a -> a <> inr Unknown ->
          S i = length (omap mergeability_of tr))
    /\ omap tryMerge_of tr = [] /\ omap reply_of tr = [] /\ omap changes_of tr = [].
Proof.
  induction attemptsRemaining as [|n IH]; intros w w' this this' tr out Hrun.
  - unfold exec in Hrun; simpl in Hrun.
    next_call h Hrun. destruct ans as [e | m]; simpl in Hrun; [|next_call h Hrun];
      finish_run Hrun; simpl; repeat split; try lia;
      intros [|i] a Hi ?; simpl in Hi; try discriminate; reflexivity.
  - unfold exec in Hrun. cbn [pollMergeability] in Hrun.
    unfold bind at 1 in Hrun. cbn [await pbind run] in Hrun.
    next_call h Hrun. destruct ans as [e | m]; simpl in Hrun.
    { finish_run Hrun; simpl; repeat split; try lia;
        intros [|i] a Hi ?; simpl in Hi; try discriminate; reflexivity. }
    next_call h Hrun.
    destruct ((0 <? n) && match m with Unknown => true | _ => false end) eqn:Hc.
    + apply andb_true_iff in Hc as [Hn Hm]. apply Nat.ltb_lt in Hn.
      assert (m = Unknown) as -> by (destruct m; try discriminate; reflexivity).
      destruct (run h (pollMergeability n this) w1) as [[tr1 [out1 this1]] w2] eqn:Hrec.
      apply IH in Hrec as (-> & Hlen & Hlast & Ht & Hr & Hch).
      finish_run Hrun. unfold omap in *. simpl.
      rewrite Ht, Hr, Hch. repeat split; try lia.
      intros [|i] a Hi Ha; simpl in Hi.
      * injection Hi as <-. contradiction.
      * f_equal. apply (Hlast i a Hi Ha).
    + finish_run Hrun; simpl; repeat split; try lia;
        intros [|i] a Hi ?; simpl in Hi; try discriminate; reflexivity.
Qed.

(** The poll loop starts with a poll; it ends with the error of a poll that
    is rejected and otherwise returns the answer of its last poll; as long as
    the answer is [Unknown] it goes on, to [attemptsRemaining] polls. *)
Lemma pollMergeability_outcome (attemptsRemaining : nat) {W} (h : Handler Call W) :
  forall (w w' : W) (this this' : PullRequestViewProvider) (tr : list (Event Call))
         (out : Outcome PullRequestMergeability),
    exec h (pollMergeability attemptsRemaining) this w = (tr, (out, this'), w') ->
    (exists tl, tr = Ev item_getMergeability (h _ item_getMergeability w).1 :: tl)
    /\ last (omap mergeability_of tr)
       = Some (match out with Returned m => inr m | Thrown e => inl e end)
    /\ ((forall a, a ∈ omap mergeability_of tr -> a = inr Unknown) ->
          length (omap mergeability_of tr) = Nat.max 1 attemptsRemaining).
Proof.
  induction attemptsRemaining as [|n IH]; intros w w' this this' tr out Hrun.
  - unfold exec in Hrun; simpl in Hrun.
    next_call h Hrun. cbn [fst]. destruct ans as [e | m]; simpl in Hrun;
      [|next_call h Hrun]; finish_run Hrun; simpl;
      (split; [eexists; reflexivity|]); split; reflexivity.
  - unfold exec in Hrun. cbn [pollMergeability] in Hrun.
    unfold bind at 1 in Hrun. cbn [await pbind run] in Hrun.
    next_call h Hrun. cbn [fst]. destruct ans as [e | m]; simpl in Hrun.
    { finish_run Hrun. simpl. split; [eexists; reflexivity|]. split; [reflexivity|].
      intros Hall. specialize (Hall (inl e) (list_elem_of_here _ _)). discriminate. }
    next_call h Hrun.
    destruct ((0 <? n) && match m with Unknown => true | _ => false end) eqn:Hc.
    + apply andb_true_iff in Hc as [Hn Hm]. apply Nat.ltb_lt in Hn.
      destruct (run h (pollMergeability n this) w1) as [[tr1 [out1 this1]] w2] eqn:Hrec.
      apply IH in Hrec as ((tl & ->) & Hlast & Hall).
      finish_run Hrun. split; [eexists; reflexivity|].
      unfold omap in *. simpl in *. split; [exact Hlast|].
      intros Hunknown. rewrite Hall; [lia|].
      intros a Ha. apply Hunknown. right. exact Ha.
    + finish_run Hrun. simpl. split; [eexists; reflexivity|]. split; [reflexivity|].
      intros Hall. specialize (Hall (inr m) (list_elem_of_here _ _)).
      injection Hall as ->. simpl in Hc. rewrite andb_true_r in Hc.
      apply Nat.ltb_ge in Hc. lia.
Qed.

#[local] Opaque pollMergeability.

(** The run ended with the calls [post] after the poll: conclude from what is
    known of the calls around the poll. *)
Ltac close_with Hgoal :=
  match type of Hgoal with
  | forall post, _ -> _ -> _ -> ?lhs = _ -> _ =>
      match lhs with
      | _ ++ _ ++ ?p =>
          let Hno := fresh "Hno" in
          destruct (Hgoal p eq_refl eq_refl eq_refl eq_refl) as (Hno & ? & ? & ?);
          split; [intros Hc; exfalso; exact (Hno Hc) | repeat split; auto]
      end
  end.

(** Every run of [updateBranch] ends; what a trace with changes and a trace
    without say of the merge and of the polls. *)
Lemma updateBranch_bounds {W} (h : Handler Call W) (w : W)
    (this : PullRequestViewProvider) (message : IRequestMessage) :
  exists tr out this' w',
    exec h (updateBranch message) this w = (tr, (out, this'), w')
    /\ let polls := omap mergeability_of tr in
       ((exists n, n ∈ omap changes_of tr /\ 0 < n) ->
          omap tryMerge_of tr = [] /\ polls = []
          /\ (exists reads msg,
                tr = reads ++ [Ev (window_showErrorMessage msg true) tt;
                               Ev (_replyMessage message ReplyEmpty) tt]
                /\ length (omap changes_of reads) = length reads)
          /\ out = Returned tt)
       /\ ((forall n, n ∈ omap changes_of tr -> n = 0) ->
           length (omap tryMerge_of tr) = 1)
       /\ length polls <= 5
       /\ (forall i a, polls !! i = Some a -> a <> inr Unknown -> S i = length polls).
Proof.
  destruct (exec h (updateBranch message) this w) as [[tr [out this']] w'] eqn:Hrun.
  exists tr, out, this', w'. split; [reflexivity|].
  unfold exec, updateBranch in Hrun. simpl in Hrun.
  next_call h Hrun. rename ans into workingTreeChanges.
  destruct (0 <? workingTreeChanges) eqn:Hwt; simpl in Hrun.
  { (* changes in the working tree *)
    do 2 next_call h Hrun. finish_run Hrun. simpl. apply Nat.ltb_lt in Hwt.
    split; [|split; [|split]].
    - intros _. repeat split.
      eexists [Ev workingTreeChanges_length workingTreeChanges], _. split; reflexivity.
    - intros Hz. specialize (Hz workingTreeChanges). rewrite Hz in Hwt; [lia | left].
    - lia.
    - intros i a Hi. rewrite lookup_nil in Hi. discriminate. }
  next_call h Hrun. rename ans into indexChanges.
  destruct (0 <? indexChanges) eqn:Hix; simpl in Hrun.
  { (* changes in the index *)
    do 2 next_call h Hrun. finish_run Hrun. simpl. apply Nat.ltb_lt in Hix.
    split; [|split; [|split]].
    - intros _. repeat split.
      eexists [Ev workingTreeChanges_length workingTreeChanges;
               Ev indexChanges_length indexChanges], _. split; reflexivity.
    - intros Hz. specialize (Hz indexChanges). rewrite Hz in Hix; [lia | right; left].
    - lia.
    - intros i a Hi. rewrite lookup_nil in Hi. discriminate. }
  (* no changes: merge the base into the head, then poll *)
  apply Nat.ltb_ge in Hwt, Hix.
  assert (Hnone : forall (l : list nat),
             l = [] -> ~ exists n, n ∈ workingTreeChanges :: indexChanges :: l /\ 0 < n).
  { intros l -> (n & Hn & Hpos). apply elem_of_cons in Hn as [-> | Hn]; [lia|].
    apply list_elem_of_singleton in Hn as ->. lia. }
  next_call h Hrun. destruct ans as [e | mergeSucceeded]; simpl in Hrun.
  { finish_run Hrun. simpl. split; [|split; [|split]].
    - intros Hc. exfalso. apply (Hnone [] eq_refl Hc).
    - reflexivity.
    - lia.
    - intros i a Hi. rewrite lookup_nil in Hi. discriminate. }
  destruct (run h _ w2) as [[tr0 [out0 this0]] w3] eqn:Htl in Hrun.
  injection Hrun as <- <- <- <-.
  unfold bind at 1 in Htl. rewrite run_pbind in Htl.
  assert (Hpre : exists pre,
    omap changes_of pre = [] /\ omap tryMerge_of pre = [] /\ omap mergeability_of pre = []
    /\ exists wp0,
      (let '(tr2, b, w4) :=
         run h (bind (pollMergeability 5)
                  (fun mergability =>
                     let* events := await item_getTimelineEvents in
                     refresh >>
                     call (_replyMessage message (ReplyBranch events mergability))) this) wp0 in
       (pre ++ tr2, b, w4)) = (tr0, (out0, this0), w3)).
  { destruct mergeSucceeded; simpl in Htl.
    - exists []. repeat split. exists w2. exact Htl.
    - next_call h Htl. destruct ans.
      exists [Ev (_replyMessage message ReplyEmpty) tt]. repeat split.
      exists w4. exact Htl. }
  clear Htl. destruct Hpre as (pre & Hpc & Hpt & Hpm & wp0 & Htl).
  unfold bind in Htl. rewrite run_pbind in Htl.
  destruct (run h (pollMergeability 5 this) wp0) as [[trp [outp sp]] wp] eqn:Hpoll.
  apply (pollMergeability_polls 5 h) in Hpoll as (-> & Hlen & Hlast & Ht & Hr & Hch).
  assert (Hgoal : forall post,
            omap changes_of post = [] -> omap tryMerge_of post = [] ->
            omap mergeability_of post = [] -> tr0 = pre ++ trp ++ post ->
            let tr := Ev workingTreeChanges_length workingTreeChanges
                        :: Ev indexChanges_length indexChanges
                        :: Ev (tryMergeBaseIntoHead true) (inr mergeSucceeded)
                        :: tr0 in
            let polls := omap mergeability_of tr in
            (~ exists n, n ∈ omap changes_of tr /\ 0 < n)
            /\ length (omap tryMerge_of tr) = 1
            /\ length polls <= 5
            /\ (forall i a, polls !! i = Some a -> a <> inr Unknown ->
                  S i = length polls)).
  { intros post Hc1 Ht1 Hm1 ->. simpl.
    rewrite !omap_app, Hpc, Hpt, Hpm, Hc1, Ht1, Hm1, Ht, Hch, !app_nil_r. simpl.
    split; [apply Hnone; reflexivity|]. split; [reflexivity|].
    split; [simpl in Hlen; lia | exact Hlast]. }
  destruct outp as [mergability | e]; simpl in Htl.
  2: { finish_run Htl. close_with Hgoal. }
  next_call h Htl. destruct ans as [e | events]; simpl in Htl.
  { finish_run Htl. close_with Hgoal. }
  unfold refresh in Htl. simpl in Htl.
  next_call h Htl. destruct ans as [e | [reviewers|]]; simpl in Htl.
  { finish_run Htl. close_with Hgoal. }
  { next_call h Htl. finish_run Htl. close_with Hgoal. }
  next_call h Htl. finish_run Htl. close_with Hgoal.
Qed.

(** The runs of [updateBranch], step by step, from the answers that the
    environment [h] gives. *)
Lemma updateBranch_guard {W} (h : Handler Call W) (w w' : W)
    (this this' : PullRequestViewProvider) (message : IRequestMessage)
    (tr : list (Event Call)) (out : Outcome unit) :
  exec h (updateBranch message) this w = (tr, (out, this'), w') ->
  let workingTreeChanges := (h _ workingTreeChanges_length w).1 in
  let w1 := (h _ workingTreeChanges_length w).2 in
  let indexChanges := (h _ indexChanges_length w1).1 in
  let w2 := (h _ indexChanges_length w1).2 in
  let refused :=
    [Ev (window_showErrorMessage
           (l10n_t "The pull request branch cannot be updated when the there changed files in the working tree or index. Stash or commit all change and then try again." [])
           true) tt;
     Ev (_replyMessage message ReplyEmpty) tt] in
  if (0 <? workingTreeChanges)%nat then
    tr = Ev workingTreeChanges_length workingTreeChanges :: refused /\ out = Returned tt
  else if (0 <? indexChanges)%nat then
    tr = Ev workingTreeChanges_length workingTreeChanges
         :: Ev indexChanges_length indexChanges :: refused
    /\ out = Returned tt
  else
    let merged := (h _ (tryMergeBaseIntoHead true) w2).1 in
    exists after,
      tr = [Ev workingTreeChanges_length workingTreeChanges;
            Ev indexChanges_length indexChanges;
            Ev (tryMergeBaseIntoHead true) merged] ++ after
      /\ match merged with
         | inl e => after = [] /\ out = Thrown e
         | inr mergeSucceeded =>
             exists first polled rest,
               after = (if mergeSucceeded then []
                        else [Ev (_replyMessage message ReplyEmpty) tt])
                       ++ Ev item_getMergeability first :: polled ++ rest
               /\ omap mergeability_of rest = []
               /\ let polls := first :: omap mergeability_of polled in
                  length polls <= 5
                  /\ (forall i a, polls !! i = Some a -> a <> inr Unknown ->
                        S i = length polls)
                  /\ ((forall a, a ∈ polls -> a = inr Unknown) -> length polls = 5)
                  /\ (forall e, last polls = Some (inl e) -> rest = [] /\ out = Thrown e)
         end.
Proof.
  intros Hrun. cbv zeta. unfold exec, updateBranch in Hrun. simpl in Hrun.
  next_call h Hrun. cbn [fst snd]. rename ans into workingTreeChanges.
  destruct (0 <? workingTreeChanges) eqn:Hwt; simpl in Hrun.
  { do 2 next_call h Hrun. finish_run Hrun. split; reflexivity. }
  next_call h Hrun. cbn [fst snd]. rename ans into indexChanges.
  destruct (0 <? indexChanges) eqn:Hix; simpl in Hrun.
  { do 2 next_call h Hrun. finish_run Hrun. split; reflexivity. }
  next_call h Hrun. cbn [fst snd]. destruct ans as [e | ok]; simpl in Hrun.
  { finish_run Hrun. exists []. split; [reflexivity|]. split; reflexivity. }
  destruct (run h _ w2) as [[tr0 [out0 this0]] w3] eqn:Htl in Hrun.
  injection Hrun as <- <- <- <-.
  exists tr0. split; [reflexivity|].
  unfold bind at 1 in Htl. rewrite run_pbind in Htl.
  assert (Hpre : exists wp0,
    (let '(tr2, b, w4) :=
       run h (bind (pollMergeability 5)
                (fun mergability =>
                   let* events := await item_getTimelineEvents in
                   refresh >>
                   call (_replyMessage message (ReplyBranch events mergability))) this) wp0 in
     ((if ok then [] else [Ev (_replyMessage message ReplyEmpty) tt]) ++ tr2, b, w4))
    = (tr0, (out0, this0), w3)).
  { destruct ok; simpl in Htl.
    - exists w2. exact Htl.
    - next_call h Htl. destruct ans. eexists. exact Htl. }
  clear Htl. destruct Hpre as (wp0 & Htl).
  unfold bind in Htl. rewrite run_pbind in Htl.
  destruct (run h (pollMergeability 5 this) wp0) as [[trp [outp sp]] wp] eqn:Hpoll.
  pose proof (pollMergeability_polls 5 h _ _ _ _ _ _ Hpoll)
    as (-> & Hlen & Hlast & _).
  pose proof (pollMergeability_outcome 5 h _ _ _ _ _ _ Hpoll)
    as ((polled & ->) & Hend & Hall).
  change (omap mergeability_of (Ev item_getMergeability (h _ item_getMergeability wp0).1
                                  :: polled))
    with ((h _ item_getMergeability wp0).1 :: omap mergeability_of polled)
    in Hlen, Hlast, Hend, Hall.
  assert (Hgoal : forall rest,
            tr0 = (if ok then [] else [Ev (_replyMessage message ReplyEmpty) tt])
                  ++ (Ev item_getMergeability (h _ item_getMergeability wp0).1 :: polled)
                  ++ rest ->
            omap mergeability_of rest = [] ->
            (forall e, outp = Thrown e -> rest = [] /\ out0 = Thrown e) ->
            (forall m, outp = Returned m -> True) ->
            exists first polled0 rest0,
              tr0 = (if ok then [] else [Ev (_replyMessage message ReplyEmpty) tt])
                    ++ Ev item_getMergeability first :: polled0 ++ rest0
              /\ omap mergeability_of rest0 = []
              /\ (length (first :: omap mergeability_of polled0) <= 5
                  /\ (forall i a, (first :: omap mergeability_of polled0) !! i = Some a ->
                        a <> inr Unknown ->
                        S i = length (first :: omap mergeability_of polled0))
                  /\ ((forall a, a ∈ first :: omap mergeability_of polled0 ->
                                  a = inr Unknown) ->
                      length (first :: omap mergeability_of polled0) = 5)
                  /\ (forall e, last (first :: omap mergeability_of polled0) = Some (inl e) ->
                        rest0 = [] /\ out0 = Thrown e))).
  { intros rest -> Hrest Hthrown _. eexists _, polled, rest.
    split; [reflexivity|]. split; [exact Hrest|].
    split; [simpl in Hlen |- *; lia|]. split; [exact Hlast|]. split; [exact Hall|].
    intros e He. rewrite Hend in He. destruct outp as [m | e']; [discriminate He|].
    injection He as ->. apply Hthrown. reflexivity. }
  destruct outp as [mergability | e]; simpl in Htl.
  2: { injection Htl as <- <- <- <-.
       apply (Hgoal []); [ | reflexivity | intros e' [= <-]; split; reflexivity | auto].
       cbn [app]. rewrite app_nil_r. reflexivity. }
  next_call h Htl. destruct ans as [e | events]; simpl in Htl.
  { injection Htl as <- <- <- <-. eapply Hgoal; [ | | discriminate | auto].
    - reflexivity.
    - reflexivity. }
  unfold refresh in Htl. simpl in Htl.
  next_call h Htl. destruct ans as [e | [reviewers|]]; simpl in Htl.
  { injection Htl as <- <- <- <-. eapply Hgoal; [ | | discriminate | auto].
    - reflexivity.
    - reflexivity. }
  { next_call h Htl. injection Htl as <- <- <- <-.
    eapply Hgoal; [ | | discriminate | auto].
    - reflexivity.
    - reflexivity. }
  next_call h Htl. injection Htl as <- <- <- <-.
  eapply Hgoal; [ | | discriminate | auto].
  - reflexivity.
  - reflexivity.
Qed.

(** C9. Every run of [updateBranch] ends.  It reads the changes of the
    working tree and, when there are none, those of the index.  When either
    has changes, there is no merge of the base into the head and no poll:
    the handler shows the error and replies [{}], and that is the whole run.
    Otherwise the merge of the base into the head is started next and, when
    it resolves, the poll loop runs: [getMergeability] is called at least
    once and at most 5 times, an answer other than [Unknown] is the last
    one, and 5 polls are made when every answer is [Unknown]. *)
Theorem updateBranch_poll_bounded {W} (h : Handler Call W) (w : W)
    (this : PullRequestViewProvider) (message : IRequestMessage) :
  exists tr out this' w',
    exec h (updateBranch message) this w = (tr, (out, this'), w')
    /\ let polls := omap mergeability_of tr in
       ((exists n, n ∈ omap changes_of tr /\ 0 < n) ->
          omap tryMerge_of tr = [] /\ polls = []
          /\ (exists reads msg,
                tr = reads ++ [Ev (window_showErrorMessage msg true) tt;
                               Ev (_replyMessage message ReplyEmpty) tt]
                /\ length (omap changes_of reads) = length reads)
          /\ out = Returned tt)
       /\ ((forall n, n ∈ omap changes_of tr -> n = 0) ->
           length (omap tryMerge_of tr) = 1)
       /\ length polls <= 5
       /\ (forall i a, polls !! i = Some a -> a <> inr Unknown -> S i = length polls)
       /\ (let workingTreeChanges := (h _ workingTreeChanges_length w).1 in
           let w1 := (h _ workingTreeChanges_length w).2 in
           let indexChanges := (h _ indexChanges_length w1).1 in
           let w2 := (h _ indexChanges_length w1).2 in
           let refused :=
             [Ev (window_showErrorMessage
                    (l10n_t "The pull request branch cannot be updated when the there changed files in the working tree or index. Stash or commit all change and then try again." [])
                    true) tt;
              Ev (_replyMessage message ReplyEmpty) tt] in
           if (0 <? workingTreeChanges)%nat then
             tr = Ev workingTreeChanges_length workingTreeChanges :: refused
             /\ out = Returned tt
           else if (0 <? indexChanges)%nat then
             tr = Ev workingTreeChanges_length workingTreeChanges
                  :: Ev indexChanges_length indexChanges :: refused
             /\ out = Returned tt
           else
             let merged := (h _ (tryMergeBaseIntoHead true) w2).1 in
             exists after,
               tr = [Ev workingTreeChanges_length workingTreeChanges;
                     Ev indexChanges_length indexChanges;
                     Ev (tryMergeBaseIntoHead true) merged] ++ after
               /\ match merged with
                  | inl e => after = [] /\ out = Thrown e
                  | inr mergeSucceeded =>
                      exists first polled rest,
                        after = (if mergeSucceeded then []
                                 else [Ev (_replyMessage message ReplyEmpty) tt])
                                ++ Ev item_getMergeability first :: polled ++ rest
                        /\ omap mergeability_of rest = []
                        /\ let polls := first :: omap mergeability_of polled in
                           length polls <= 5
                           /\ (forall i a, polls !! i = Some a -> a <> inr Unknown ->
                                 S i = length polls)
                           /\ ((forall a, a ∈ polls -> a = inr Unknown) ->
                               length polls = 5)
                           /\ (forall e, last polls = Some (inl e) ->
                                 rest = [] /\ out = Thrown e)
                  end).
Proof.
  destruct (updateBranch_bounds h w this message)
    as (tr & out & this' & w' & Hrun & Hchanged & Hclean & Hbound & Hlast).
  exists tr, out, this', w'. split; [exact Hrun|]. cbv zeta.
  do 4 (split; [assumption|]).
  exact (updateBranch_guard h w w' this this' message tr out Hrun).
Qed.

End Provider.

#[local] Transparent pollMergeability.

(** *** The theorems at concrete inputs *)

(** Bob, who had commented, approves: his entry, the second, changes state. *)
Lemma updateReviewers_upsert_witness :
  exists i r,
    _existingReviewers Examples.view !! i = Some r
    /\ reviewerId (Host:=Examples.viewHost) (ReviewState.reviewer r) = "bob"
    /\ (forall j r', j < i -> _existingReviewers Examples.view !! j = Some r' ->
          ~ reviewerId (Host:=Examples.viewHost) (ReviewState.reviewer r') = "bob")
    /\ _existingReviewers
         (updateReviewers (H:=Examples.viewHost) (Some Examples.approval) Examples.view) !! i
       = Some (ReviewState.mk (ReviewState.reviewer r) "APPROVED")
    /\ (forall j, j <> i ->
          _existingReviewers
            (updateReviewers (H:=Examples.viewHost) (Some Examples.approval) Examples.view) !! j
          = _existingReviewers Examples.view !! j)
    /\ length (_existingReviewers
                 (updateReviewers (H:=Examples.viewHost) (Some Examples.approval)
                    Examples.view))
       = length (_existingReviewers Examples.view).
Proof.
  apply (proj1 (updateReviewers_upsert (H:=Examples.viewHost) Examples.view
                  Examples.approval "APPROVED" eq_refl eq_refl)).
  exists (ReviewState.mk (Account Examples.bob) "COMMENTED").
  split; [right; left | reflexivity].
Defined.

(** A rejected approval leaves the reviewers as they were. *)
Lemma doReviewMessage_error_keeps_reviewers_witness :
  let '(tr, (out, this'), _) :=
    exec (Examples.cooperative true)
      (reviewMessage (H:=Examples.viewHost) Approve Examples.approveMessage)
      Examples.view 0 in
  _existingReviewers this' = _existingReviewers Examples.view
  /\ omap throwError_of tr = [(Some Examples.approveMessage, ErrorText "Validation Failed")]
  /\ omap reply_of tr = []
  /\ out = Returned tt.
Proof.
  destruct (doReviewMessage_error_keeps_reviewers (H:=Examples.viewHost)
              (Examples.cooperative true) 0 _ Examples.view _ Approve
              Examples.approveMessage _ _ eq_refl)
    as (ans & Hsubmit & _ & Hrejected & _).
  injection Hsubmit as <-. exact (Hrejected _ eq_refl).
Defined.

(** The user confirms and the merge succeeds: the dialog and the merge are
    in the run, and the reply says [Merged]. *)
Lemma mergePullRequest_after_confirmation_witness :
  let '(tr, (out, _), _) :=
    exec (Examples.cooperative false)
      (mergePullRequest (H:=Examples.viewHost) Examples.mergeMessage) Examples.view 0 in
  omap reply_of tr = [(Examples.mergeMessage, ReplyState Merged)]
  /\ omap confirm_of tr = [("Merge this pull request?", true, ["Yes"], Some "Yes")]
  /\ omap merge_of tr = [inr (mkMergeResult true None)]
  /\ out = Returned tt.
Proof.
  destruct (mergePullRequest_after_confirmation (H:=Examples.viewHost)
              (Examples.cooperative false) 0 _ Examples.view _ Examples.mergeMessage
              _ _ eq_refl)
    as (_ & _ & _ & Hresult & _ & _ & Hout & after & Htr & Hmerge & Hconfirm & _).
  split; [exact (proj1 (Hresult (mkMergeResult true None) (list_elem_of_here _ _)))|].
  injection Htr as <-. split; [reflexivity|]. split; [reflexivity | exact Hout].
Defined.

(** With a clean working tree and index the merge of the base is tried once,
    and the polls stay within the bound. *)
Lemma updateBranch_poll_bounded_witness :
  let '(tr, _, _) :=
    exec (Examples.cooperative false)
      (updateBranch (H:=Examples.viewHost) Examples.approveMessage) Examples.view 0 in
  length (omap tryMerge_of tr) = 1 /\ length (omap mergeability_of tr) <= 5.
Proof.
  destruct (updateBranch_poll_bounded (H:=Examples.viewHost) (Examples.cooperative false) 0
              Examples.view Examples.approveMessage)
    as (tr & out & this' & w' & Hrun & _ & Hclean & Hbound & _).
  cbv in Hrun. injection Hrun as <- <- <- <-.
  split; [apply Hclean | exact Hbound].
  intros n Hn. repeat (apply elem_of_cons in Hn as [-> | Hn]; [reflexivity|]). inversion Hn.
Defined.

(** In the example environment the mergeability is known at the third poll. *)
Example updateBranch_three_polls :
  let '(tr, (out, _), _) :=
    exec (Examples.cooperative false)
      (updateBranch (H:=Examples.viewHost) Examples.approveMessage) Examples.view 0 in
  omap mergeability_of tr = [inr Unknown; inr Unknown; inr Mergeable]
  /\ omap reply_of tr = [(Examples.approveMessage, ReplyBranch [] Mergeable)]
  /\ out = Returned tt.
Proof. repeat split. Qed.

End PullRequestViewProviderFacts.

(** ** Routing of webview messages *)

Module RoutingFacts.
Import Webview.

(** A [switch] whose cases all return takes the first case with the label,
    or the default when no case has it. *)
Lemma switch_inv {A} (d : string) (cases : list (string * A)) (default : A) :
  ((d ∉ cases.*1) /\ switch d cases default = default)
  \/ (exists body, (d, body) ∈ cases /\ switch d cases default = body).
Proof.
  induction cases as [|[label body] rest IH]; simpl.
  - left. split; [apply not_elem_of_nil | reflexivity].
  - destruct (String.eqb_spec d label) as [-> | Hne].
    + right. exists body. split; [left | reflexivity].
    + destruct IH as [[Hnot Heq] | (b & Hin & Heq)].
      * left. split; [|exact Heq]. rewrite not_elem_of_cons. auto.
      * right. exists b. split; [right; exact Hin | exact Heq].
Qed.

Lemma switch_Forall {A} (P : A -> Prop) (d : string) (cases : list (string * A))
    (default : A) :
  P default -> Forall (fun c => P c.2) cases -> P (switch d cases default).
Proof.
  intros Hd Hall.
  destruct (switch_inv d cases default) as [[_ ->] | (b & Hin & ->)]; [exact Hd|].
  rewrite Forall_forall in Hall. apply (Hall _ Hin).
Qed.

Lemma switch_default {A} (d : string) (cases : list (string * A)) (default : A) :
  d ∉ cases.*1 -> switch d cases default = default.
Proof.
  intros Hnot. destruct (switch_inv d cases default) as [[_ ->] | (b & Hin & _)];
    [reflexivity|].
  exfalso. apply Hnot. exact (list_elem_of_fmap_2 fst _ _ Hin).
Qed.

#[local] Opaque switch.

Section PullRequestView.
Import PullRequestViewProvider.
Context `{Host}.

(** What the dispatcher of [PullRequestViewProvider] does after its base
    class left the message unhandled: one call at most. *)
Lemma PullRequestView_dispatch {W} (h : Handler Call W) (message : IRequestMessage)
    (this this' : PullRequestViewProvider) (w w' : W) tr out :
  run h (switch (command message)
      [ ("alert", call (window_showErrorMessage
                          (match args message with ArgsString s => s | _ => "" end) false));
        ("pr.close", await (enter Method.close message));
        ("pr.comment", await (enter Method.createComment message));
        ("pr.merge", await (enter Method.mergePullRequest message));
        ("pr.open-create", await (enter Method.create message));
        ("pr.deleteBranch", await (enter Method.deleteBranch message));
        ("pr.readyForReview", await (enter Method.setReadyForReview message));
        ("pr.approve", await (enter Method.approvePullRequestMessage message));
        ("pr.request-changes", await (enter Method.requestChangesMessage message));
        ("pr.submit", await (enter Method.submitReviewMessage message));
        ("pr.openOnGitHub", await openPullRequestOnGitHub);
        ("pr.checkout-default-branch", await (enter Method.checkoutDefaultBranch message));
        ("pr.update-branch", await (enter Method.updateBranch message));
        ("pr.re-request-review", await (enter Method.reRequestReview message)) ]
      (ret tt) this) w = (tr, (out, this'), w') ->
  length tr <= 1 /\ this' = this.
Proof.
  revert tr out this' w'.
  apply (switch_Forall
           (fun m : M Call PullRequestViewProvider unit =>
              forall tr out this' w', run h (m this) w = (tr, (out, this'), w') ->
                                      length tr <= 1 /\ this' = this)).
  - intros tr out this' w' Hrun. injection Hrun as <- <- <- <-. simpl. split; [lia | reflexivity].
  - repeat (apply Forall_cons; split;
              [ simpl; intros tr out this' w' Hrun;
                next_call h Hrun; try (destruct ans as [e | []]; simpl in Hrun);
                injection Hrun as <- <- <- <-; simpl; (split; [lia | reflexivity]) | ]).
    apply Forall_nil. exact I.
Qed.

End PullRequestView.

Section CreatePullRequestView.
Import CreatePullRequestViewProvider.

(** The dispatcher of [BaseCreatePullRequestViewProvider]: the handler of
    [WebviewViewBase] first, then one method at most; the sentinel is
    returned only when neither took the message. *)
Lemma Base_dispatch {W} (h : Handler Call W) (message : IRequestMessage)
    (w w' : W) (u : unit) tr out :
  run h (Base_onDidReceiveMessage message tt) w = (tr, (out, u), w') ->
  exists ans rest,
    (h _ (super_onDidReceiveMessage message) w).1 = ans
    /\ tr = Ev (super_onDidReceiveMessage message) ans :: rest
    /\ length rest <= 1
    /\ (ans <> inr MESSAGE_UNHANDLED -> rest = [])
    /\ (out = Returned MESSAGE_UNHANDLED ->
        ans = inr MESSAGE_UNHANDLED /\ rest = []
        /\ command message ∉ ["pr.requestInitialize"; "pr.cancelCreate"; "pr.create";
                               "pr.changeLabels"; "pr.changeReviewers";
                               "pr.changeAssignees"; "pr.changeMilestone";
                               "pr.changeProjects"; "pr.removeLabel"])
    /\ (ans = inr MESSAGE_UNHANDLED ->
        command message ∉ ["pr.requestInitialize"; "pr.cancelCreate"; "pr.create";
                            "pr.changeLabels"; "pr.changeReviewers";
                            "pr.changeAssignees"; "pr.changeMilestone";
                            "pr.changeProjects"; "pr.removeLabel"] ->
        out = Returned MESSAGE_UNHANDLED).
Proof.
  intros Hrun. unfold Base_onDidReceiveMessage in Hrun. simpl in Hrun.
  next_call h Hrun. destruct ans as [e | [|]]; simpl in Hrun.
  - injection Hrun as <- <- <- <-. eexists _, [].
    repeat split; first [discriminate | reflexivity | simpl; lia].
  - injection Hrun as <- <- <- <-. eexists _, [].
    repeat split; first [discriminate | reflexivity | simpl; lia].
  - destruct (run h _ w0) as [[rest [out0 u0]] w1] eqn:Hsw in Hrun.
    injection Hrun as <- <- <- <-. eexists _, rest.
    split; [reflexivity|]. split; [reflexivity|].
    match type of Hsw with
    | run h (switch ?d ?cases ?default tt) w0 = _ =>
        destruct (switch_inv d cases default) as [[Hnot Heq] | (body & Hin & Heq)];
          rewrite Heq in Hsw; clear Heq
    end.
    + injection Hsw as <- <- <- <-. repeat split; auto.
    + assert (Hbody : length rest <= 1 /\ out0 <> Returned MESSAGE_UNHANDLED).
      { repeat (apply elem_of_cons in Hin as [Hin | Hin];
                [ injection Hin as _ ->; unfold handle in Hsw; simpl in Hsw;
                  next_call h Hsw; destruct ans as [e | []]; simpl in Hsw;
                  injection Hsw as <- <- <- <-; simpl; split; (lia || discriminate) | ]).
        inversion Hin. }
      destruct Hbody as [Hlen Hout].
      assert (Hlabel : command message
                ∈ ["pr.requestInitialize"; "pr.cancelCreate"; "pr.create";
                   "pr.changeLabels"; "pr.changeReviewers"; "pr.changeAssignees";
                   "pr.changeMilestone"; "pr.changeProjects"; "pr.removeLabel"]).
      { exact (list_elem_of_fmap_2 fst _ _ Hin). }
      split; [exact Hlen|]. split; [intros Hc; contradiction|].
      split; [intros Hc; contradiction|]. intros _ Hc; contradiction.
Qed.

End CreatePullRequestView.

(** C6. In both providers the handler of the base class gets the message
    first and the dispatch on [message.command] happens only when it answered
    MESSAGE_UNHANDLED; after the base handler there is one call at most, so a
    message reaches one command handler at most.  With a command that is not
    among its cases, [PullRequestViewProvider] does nothing more and returns;
    [CreatePullRequestViewProvider] shows the error 'Unsupported webview
    message'. *)
Theorem message_routing `{PullRequestViewProvider.Host} {W1 W2}
    (h1 : Handler PullRequestViewProvider.Call W1)
    (h2 : Handler CreatePullRequestViewProvider.Call W2)
    (w1 w1' : W1) (w2 w2' : W2)
    (this this' : PullRequestViewProvider.PullRequestViewProvider) (u : unit)
    (message1 message2 : IRequestMessage)
    (tr1 : list (Event PullRequestViewProvider.Call)) (out1 : Outcome unit)
    (tr2 : list (Event CreatePullRequestViewProvider.Call)) (out2 : Outcome unit) :
  exec h1 (PullRequestViewProvider._onDidReceiveMessage message1) this w1
    = (tr1, (out1, this'), w1') ->
  exec h2 (CreatePullRequestViewProvider._onDidReceiveMessage message2) tt w2
    = (tr2, (out2, u), w2') ->
  (exists ans rest,
     (h1 _ (PullRequestViewProvider.super_onDidReceiveMessage message1) w1).1 = ans
     /\ tr1 = Ev (PullRequestViewProvider.super_onDidReceiveMessage message1) ans :: rest
     /\ (ans <> inr MESSAGE_UNHANDLED -> rest = [])
     /\ length rest <= 1
     /\ (command message1
           ∉ ["alert"; "pr.close"; "pr.comment"; "pr.merge"; "pr.open-create";
              "pr.deleteBranch"; "pr.readyForReview"; "pr.approve";
              "pr.request-changes"; "pr.submit"; "pr.openOnGitHub";
              "pr.checkout-default-branch"; "pr.update-branch"; "pr.re-request-review"] ->
         rest = [] /\ this' = this /\ (forall r, ans = inr r -> out1 = Returned tt)))
  /\ (exists ans rest,
       (h2 _ (CreatePullRequestViewProvider.super_onDidReceiveMessage message2) w2).1 = ans
       /\ tr2 = Ev (CreatePullRequestViewProvider.super_onDidReceiveMessage message2) ans :: rest
       /\ (ans <> inr MESSAGE_UNHANDLED -> rest = [])
       /\ length rest <= 1
       /\ (ans = inr MESSAGE_UNHANDLED ->
           command message2
             ∉ ["pr.requestInitialize"; "pr.cancelCreate"; "pr.create"; "pr.changeLabels";
                "pr.changeReviewers"; "pr.changeAssignees"; "pr.changeMilestone";
                "pr.changeProjects"; "pr.removeLabel";
                "pr.changeBaseRemoteAndBranch"; "pr.changeCompareRemoteAndBranch";
                "pr.generateTitleAndDescription"; "pr.cancelGenerateTitleAndDescription";
                "pr.preReview"; "pr.cancelPreReview"] ->
           rest = [Ev (CreatePullRequestViewProvider.window_showErrorMessage
                         "Unsupported webview message") tt]
           /\ out2 = Returned tt)).
Proof.
  intros Hrun1 Hrun2. split.
  - (* PullRequestViewProvider *)
    unfold exec, PullRequestViewProvider._onDidReceiveMessage in Hrun1. simpl in Hrun1.
    next_call h1 Hrun1. destruct ans as [e | [|]]; simpl in Hrun1.
    + injection Hrun1 as <- <- <- <-. eexists _, [].
      repeat split; first [discriminate | reflexivity | simpl; lia].
    + injection Hrun1 as <- <- <- <-. eexists _, [].
      repeat split; first [discriminate | reflexivity | simpl; lia].
    + destruct (run h1 _ w) as [[rest [out0 this0]] w0] eqn:Hsw in Hrun1.
      injection Hrun1 as <- <- <- <-. eexists _, rest.
      split; [reflexivity|]. split; [reflexivity|].
      split; [intros Hc; contradiction|].
      split; [apply (PullRequestView_dispatch _ _ _ _ _ _ _ _ Hsw)|].
      intros Hnot. rewrite switch_default in Hsw by exact Hnot.
      injection Hsw as <- <- <- <-. repeat split.
  - (* CreatePullRequestViewProvider *)
    unfold exec, CreatePullRequestViewProvider._onDidReceiveMessage in Hrun2.
    unfold bind in Hrun2. rewrite run_pbind in Hrun2.
    destruct (run h2 (CreatePullRequestViewProvider.Base_onDidReceiveMessage message2 tt) w2)
      as [[trb [outb []]] wb] eqn:Hbase.
    destruct (Base_dispatch _ _ _ _ _ _ _ Hbase)
      as (ans & rest & Hbase_ans & -> & Hlen & Hhandled & Hun & Hnone).
    assert (Hbase_labels : forall labels,
      command message2
        ∉ ["pr.requestInitialize"; "pr.cancelCreate"; "pr.create"; "pr.changeLabels";
           "pr.changeReviewers"; "pr.changeAssignees"; "pr.changeMilestone";
           "pr.changeProjects"; "pr.removeLabel"] ++ labels ->
      (command message2
         ∉ ["pr.requestInitialize"; "pr.cancelCreate"; "pr.create"; "pr.changeLabels";
            "pr.changeReviewers"; "pr.changeAssignees"; "pr.changeMilestone";
            "pr.changeProjects"; "pr.removeLabel"]) /\ (command message2 ∉ labels)).
    { intros labels Hnot. rewrite elem_of_app in Hnot. tauto. }
    destruct outb as [[|] | e]; simpl in Hrun2.
    + injection Hrun2 as <- <- <- <-. exists ans, rest. rewrite app_nil_r.
      split; [exact Hbase_ans|].
      split; [reflexivity | split; [exact Hhandled | split; [exact Hlen|]]].
      intros Hans Hnot. apply Hbase_labels in Hnot as [Hnot _].
      discriminate (Hnone Hans Hnot).
    + destruct (Hun eq_refl) as (-> & -> & Hnotb).
      destruct (run h2 _ wb) as [[rest [out0 u0]] w0] eqn:Hsw in Hrun2.
      injection Hrun2 as <- <- <- <-. exists (inr MESSAGE_UNHANDLED), rest.
      split; [exact Hbase_ans|].
      split; [reflexivity | split; [intros Hc; contradiction|]].
      match type of Hsw with
      | run h2 (switch ?d ?cases ?default _) wb = _ =>
          destruct (switch_inv d cases default) as [[Hnot Heq] | (body & Hin & Heq)];
            rewrite Heq in Hsw; clear Heq
      end.
      * unfold exec in Hsw; simpl in Hsw. next_call h2 Hsw. finish_run Hsw.
        split; [simpl; lia|]. intros _ _. split; reflexivity.
      * assert (Hbody : length rest <= 1).
        { repeat (apply elem_of_cons in Hin as [Hin | Hin];
                  [ injection Hin as _ ->; simpl in Hsw;
                    next_call h2 Hsw; destruct ans as [e | []]; simpl in Hsw;
                    injection Hsw as <- <- <- <-; simpl; lia | ]).
          inversion Hin. }
        split; [exact Hbody|]. intros _ Hnot. exfalso.
        apply Hbase_labels in Hnot as [_ Hnot]. apply Hnot.
        exact (list_elem_of_fmap_2 fst _ _ Hin).
    + injection Hrun2 as <- <- <- <-. exists ans, rest. rewrite app_nil_r.
      split; [exact Hbase_ans|].
      split; [reflexivity | split; [exact Hhandled | split; [exact Hlen|]]].
      intros Hans Hnot. apply Hbase_labels in Hnot as [Hnot _].
      discriminate (Hnone Hans Hnot).
Qed.

(** A command that neither view knows. *)
Lemma message_routing_witness :
  (exec (Examples.cooperative false)
     (PullRequestViewProvider._onDidReceiveMessage Examples.unknownMessage)
     Examples.view 0).1.1
  = [Ev (PullRequestViewProvider.super_onDidReceiveMessage Examples.unknownMessage)
        (inr MESSAGE_UNHANDLED)]
  /\ (exec Examples.createEnv
        (CreatePullRequestViewProvider._onDidReceiveMessage Examples.unknownMessage)
        tt tt).1.1
     = [Ev (CreatePullRequestViewProvider.super_onDidReceiveMessage Examples.unknownMessage)
           (inr MESSAGE_UNHANDLED);
        Ev (CreatePullRequestViewProvider.window_showErrorMessage
              "Unsupported webview message") tt].
Proof.
  destruct (message_routing (H:=Examples.viewHost) (Examples.cooperative false)
              Examples.createEnv 0 _ tt _ Examples.view _ _
              Examples.unknownMessage Examples.unknownMessage _ _ _ _ eq_refl eq_refl)
    as [(ans1 & rest1 & Hans1 & Htr1 & _ & _ & Hignored)
          (ans2 & rest2 & Hans2 & Htr2 & _ & _ & Hunsupported)].
  simpl in Hans1, Hans2. subst ans1 ans2.
  assert (Hnot : forall labels : list string,
             Forall (fun l => String.eqb "pr.unheard-of" l = false) labels ->
             command Examples.unknownMessage ∉ labels).
  { intros labels Hall Hin. rewrite Forall_forall in Hall.
    specialize (Hall _ Hin). vm_compute in Hall. discriminate. }
  split.
  - rewrite Htr1.
    destruct Hignored as (-> & _); [apply Hnot; repeat constructor | reflexivity].
  - rewrite Htr2.
    destruct Hunsupported as (-> & _); [reflexivity | apply Hnot; repeat constructor | reflexivity].
Defined.

End RoutingFacts.

(** ** More on running programs *)

Section ControlFacts.
Context {E : Type -> Type}.

Lemma exec_call {W S X} (h : Handler E W) (c : E X) (s : S) w :
  exec h (call c) s w = let '(x, w1) := h _ c w in ([Ev c x], (Returned x, s), w1).
Proof. unfold exec, call. simpl. destruct (h X c w) as [x w1]. reflexivity. Qed.

Lemma exec_await {W S X} (h : Handler E W) (c : E (Error + X)) (s : S) w :
  exec h (await c) s w =
    let '(r, w1) := h _ c w in
    ([Ev c r], (match r with inr x => Returned x | inl e => Thrown e end, s), w1).
Proof.
  unfold exec, await. simpl. destruct (h _ c w) as [[e | x] w1]; reflexivity.
Qed.

Lemma exec_try_finally {W S A} (h : Handler E W) (m : M E S A) (f : M E S unit) s w :
  exec h (try_finally m f) s w =
    let '(tr1, (out, s1), w1) := exec h m s w in
    let '(tr2, (out2, s2), w2) := exec h f s1 w1 in
    (tr1 ++ tr2,
     (match out2 with Returned _ => out | Thrown e => Thrown e end, s2), w2).
Proof.
  unfold exec, try_finally. rewrite run_pbind.
  destruct (run h (m s) w) as [[tr1 [out s1]] w1]. simpl. rewrite run_pbind.
  destruct (run h (f s1) w1) as [[tr2 [[[] | e] s2]] w2]; simpl;
    rewrite app_nil_r; reflexivity.
Qed.

Lemma exec_detached {W S A} (h : Handler E W) (m : M E S A) s w :
  exec h (detached m) s w =
    let '(tr, (_, s1), w1) := exec h m s w in (tr, (Returned tt, s1), w1).
Proof.
  unfold detached. rewrite exec_try_catch, exec_bind.
  destruct (exec h m s w) as [[tr [[a | e] s1]] w1].
  - rewrite exec_ret, app_nil_r. reflexivity.
  - rewrite exec_ret, app_nil_r. reflexivity.
Qed.

End ControlFacts.

(* ===================================================================== *)
(** * Further properties of the code                                     *)
(* ===================================================================== *)

(** ** [CredentialStore]: scopes *)

Module ScopeFacts.
Import Credentials.

(** X1. [allScopesIncluded(actual, required)] is inclusion of [required] in
    [actual] as sets of strings: order and repetitions do not count. *)
Theorem allScopesIncluded_inclusion (actualScopes requiredScopes : list string) :
  allScopesIncluded actualScopes requiredScopes = true
  <-> forall scope, scope ∈ requiredScopes -> scope ∈ actualScopes.
Proof.
  unfold allScopesIncluded. rewrite forallb_forall. split.
  - intros Hall scope Hin. apply list_elem_of_In in Hin.
    apply Hall, existsb_exists in Hin as (x & Hx & Heq).
    apply String.eqb_eq in Heq as ->. apply list_elem_of_In. exact Hx.
  - intros Hsub scope Hin. apply existsb_exists. exists scope.
    split; [|apply String.eqb_refl].
    apply list_elem_of_In, Hsub, list_elem_of_In. exact Hin.
Qed.

Section Store.
Context `{Host}.

(** X2. Scopes that include the additional ones are not old, and with them
    [isAuthenticatedWithAdditionalScopes] is [isAuthenticated]: a hub of the
    provider is stored, and [getHub] gives it. *)
Theorem areScopesExtra_not_old (authProviderId : AuthProvider) (this : CredentialStore) :
  areScopesExtra authProviderId this = true ->
  areScopesOld authProviderId this = false
  /\ isAuthenticatedWithAdditionalScopes authProviderId this
     = isAuthenticated authProviderId this
  /\ isAuthenticatedWithAdditionalScopes authProviderId this
     = defined (getHub authProviderId this).
Proof.
  assert (Hsub : forall actual, allScopesIncluded actual SCOPES_WITH_ADDITIONAL = true ->
                                allScopesIncluded actual SCOPES_OLD = true).
  { intros actual Hextra. apply allScopesIncluded_inclusion. intros scope Hin.
    apply (proj1 (allScopesIncluded_inclusion _ _) Hextra).
    unfold SCOPES_OLD in Hin. unfold SCOPES_WITH_ADDITIONAL.
    repeat (apply elem_of_cons in Hin as [-> | Hin]; [set_solver|]). inversion Hin. }
  unfold areScopesExtra, areScopesOld, isAuthenticatedWithAdditionalScopes,
    isAuthenticated, getHub.
  destruct (isEnterprise authProviderId); cbn [negb]; intros Hextra;
    rewrite (Hsub _ Hextra), Hextra, andb_true_r; auto.
Qed.

(** X3. [initialize] for the enterprise provider when no enterprise URI is
    configured does nothing: no call is made, the fields are untouched, and
    the result is [{ canceled: false }]. *)
Theorem initialize_enterprise_without_uri {W} (h : Handler Call W) (w : W)
    (this : CredentialStore) (fuel : nat) (authProviderId : AuthProvider)
    (getAuthSessionOptions : GetSessionOptions) (scopesArg : option (list string))
    (requireScopes : option bool) :
  isEnterprise authProviderId = true ->
  hasEnterpriseUri = false ->
  exec h (initialize_fuel (S fuel) authProviderId getAuthSessionOptions scopesArg
            requireScopes) this w
  = ([], (Returned (Some (mkAuthResult false)), this), w).
Proof.
  intros Hp Huri. cbn [initialize_fuel].
  rewrite exec_bind, exec_get, Hp, Huri. reflexivity.
Qed.

End Store.

(** Signed in to github.com with all six scopes. *)
Lemma areScopesExtra_not_old_witness :
  areScopesOld (H:=Examples.credentialsHost) AuthProvider.github MoreExamples.signedIn = false
  /\ isAuthenticatedWithAdditionalScopes (H:=Examples.credentialsHost)
       AuthProvider.github MoreExamples.signedIn
     = isAuthenticated (H:=Examples.credentialsHost) AuthProvider.github MoreExamples.signedIn
  /\ isAuthenticatedWithAdditionalScopes (H:=Examples.credentialsHost)
       AuthProvider.github MoreExamples.signedIn
     = defined (getHub (H:=Examples.credentialsHost) AuthProvider.github
                  MoreExamples.signedIn).
Proof.
  apply (areScopesExtra_not_old (H:=Examples.credentialsHost)). reflexivity.
Defined.

(** Without an enterprise URI, a forced enterprise sign-in asks nothing. *)
Lemma initialize_enterprise_without_uri_witness :
  exec Examples.consentRefused
    (initialize (H:=MoreExamples.githubOnlyHost) AuthProvider.githubEnterprise
       (mkOptions None (Some (ForceBool true)) None) None None)
    Examples.store tt
  = ([], (Returned (Some (mkAuthResult false)), Examples.store), tt).
Proof.
  apply (initialize_enterprise_without_uri (H:=MoreExamples.githubOnlyHost)
           Examples.consentRefused tt Examples.store 1); reflexivity.
Defined.

End ScopeFacts.

(** ** [PullRequestViewProvider]: reviewers, and how a message is answered *)

Module ReviewerFacts.
Import Webview PullRequestViewProvider.

Section Provider.
Context `{Host}.

(** X4. When the reviewer id of an account is its login, then after
    [updateReviewers(review)] for a review with a state, the review state of
    the review's user, as [getCurrentUserReviewState] reads it, is the state of
    the review; and the same review once more changes nothing. *)
Theorem updateReviewers_current_state (this : PullRequestViewProvider)
    (review : ReviewEvent.t) (state : string) :
  (forall a, reviewerId (Account a) = login a) ->
  ReviewEvent.state review = Some state ->
  truthy state = true ->
  let this' := updateReviewers (Some review) this in
  getCurrentUserReviewState (_existingReviewers this') (ReviewEvent.user review) = Some state
  /\ updateReviewers (Some review) this' = this'.
Proof.
  intros Hid Hstate Htruthy. cbv zeta.
  assert (Hstep : forall that,
    updateReviewers (Some review) that
    = match list_find (fun reviewer => login (ReviewEvent.user review)
                                       = reviewerId (ReviewState.reviewer reviewer))
                      (_existingReviewers that) with
      | Some (i, existingReviewer) =>
          mkProvider (<[i := ReviewState.mk (ReviewState.reviewer existingReviewer) state]>
                        (_existingReviewers that))
      | None =>
          mkProvider (_existingReviewers that
                      ++ [ReviewState.mk (Account (ReviewEvent.user review)) state])
      end).
  { intros that. unfold updateReviewers. rewrite Hstate, Htruthy. reflexivity. }
  rewrite (Hstep this).
  destruct (list_find _ (_existingReviewers this)) as [[i r]|] eqn:Hfind.
  - apply list_find_Some in Hfind as (Hi & Hm & Hfirst).
    pose proof (lookup_lt_Some _ _ _ Hi) as Hlt.
    assert (Hfound : forall (P : ReviewState.t -> Prop) `{!forall x, Decision (P x)},
               (forall x, P x <-> login (ReviewEvent.user review)
                                  = reviewerId (ReviewState.reviewer x)) ->
               list_find P (<[i := ReviewState.mk (ReviewState.reviewer r) state]>
                              (_existingReviewers this))
               = Some (i, ReviewState.mk (ReviewState.reviewer r) state)).
    { intros P HP HPiff. apply list_find_Some. split; [|split].
      - apply list_lookup_insert_eq. exact Hlt.
      - apply HPiff. exact Hm.
      - intros j y Hj Hji HPy. rewrite list_lookup_insert_ne in Hj by lia.
        apply (Hfirst j y Hj Hji). apply HPiff. exact HPy. }
    split.
    + unfold getCurrentUserReviewState. cbn [_existingReviewers].
      rewrite Hfound; [reflexivity|].
      intros x. split; intros Hx; symmetry; exact Hx.
    + rewrite Hstep. cbn [_existingReviewers].
      rewrite Hfound by (intros x; reflexivity). cbn [ReviewState.reviewer].
      rewrite list_insert_insert_eq. reflexivity.
  - apply list_find_None in Hfind.
    set (entry := ReviewState.mk (Account (ReviewEvent.user review)) state).
    assert (Hfound : forall (P : ReviewState.t -> Prop) `{!forall x, Decision (P x)},
               (forall x, P x <-> login (ReviewEvent.user review)
                                  = reviewerId (ReviewState.reviewer x)) ->
               list_find P (_existingReviewers this ++ [entry])
               = Some (length (_existingReviewers this), entry)).
    { intros P HP HPiff. apply list_find_Some. split; [|split].
      - rewrite lookup_app_r by lia. rewrite Nat.sub_diag. reflexivity.
      - apply HPiff. simpl. symmetry. apply Hid.
      - intros j y Hj Hjl HPy. rewrite lookup_app_l in Hj by exact Hjl.
        rewrite Forall_forall in Hfind. apply (Hfind y).
        + eapply list_elem_of_lookup_2; eauto.
        + apply HPiff. exact HPy. }
    split.
    + unfold getCurrentUserReviewState. cbn [_existingReviewers].
      rewrite Hfound; [reflexivity|].
      intros x. split; intros Hx; symmetry; exact Hx.
    + rewrite Hstep. cbn [_existingReviewers].
      rewrite Hfound by (intros x; reflexivity). cbn [ReviewState.reviewer].
      rewrite list_insert_id; [reflexivity|].
      rewrite lookup_app_r by lia. rewrite Nat.sub_diag. reflexivity.
Qed.

(** X5. A run of [mergePullRequest] leaves the fields alone and answers the
    message at most once.  A run that returns has answered it exactly once,
    with a reply or with an error.  A run throws in two cases only: when the
    message has no arguments to destructure, before any call, and when the
    preferred email could not be had, before anything was asked or sent.
    When the merge rejects, the answer is the error [{}] and the formatted
    error is shown. *)
Theorem mergePullRequest_answered_once {W} (h : Handler Call W) (w w' : W)
    (this this' : PullRequestViewProvider) (message : IRequestMessage)
    (tr : list (Event Call)) (out : Outcome unit) :
  exec h (mergePullRequest message) this w = (tr, (out, this'), w') ->
  this' = this
  /\ (out = Returned tt ->
        length (omap reply_of tr) + length (omap throwError_of tr) = 1)
  /\ (forall e, out = Thrown e ->
        match destructure_MergeArguments (args message) with
        | inl e' => e = e' /\ tr = []
        | inr _ => tr = [Ev getPreferredEmail (inl e)]
        end)
  /\ (forall e, destructure_MergeArguments (args message) = inl e ->
        tr = [] /\ out = Thrown e)
  /\ (forall e, inl e ∈ omap merge_of tr ->
        omap reply_of tr = []
        /\ omap throwError_of tr = [(Some message, ErrorEmpty)]
        /\ omap showError_of tr
           = [l10n_t "Unable to merge pull request. {0}" [formatError e]]).
Proof.
  intros Hrun. unfold exec, mergePullRequest in Hrun.
  destruct (destructure_MergeArguments (args message))
    as [e0 | [[title description] method]]; simpl in Hrun.
  { finish_run Hrun. simpl.
    split; [reflexivity | split; [discriminate | split; [|split]]].
    - intros e' [= <-]. split; reflexivity.
    - intros e' [= <-]. split; reflexivity.
    - intros e' Hin. inversion Hin. }
  next_call h Hrun. destruct ans as [e | email]; simpl in Hrun.
  { finish_run Hrun. simpl.
    split; [reflexivity | split; [discriminate | split; [|split]]].
    - intros e' [= <-]. reflexivity.
    - discriminate.
    - intros e' Hin. inversion Hin. }
  next_call h Hrun.
  destruct (bool_decide (ans = Some (l10n_t "Yes" []))); simpl in Hrun.
  2: { next_call h Hrun. finish_run Hrun. simpl.
       split; [reflexivity | split; [reflexivity | split; [discriminate|split]]];
         [discriminate|].
       intros e' Hin. inversion Hin. }
  next_call h Hrun. destruct ans0 as [e | result]; simpl in Hrun.
  { do 2 next_call h Hrun. finish_run Hrun. simpl.
    split; [reflexivity | split; [reflexivity | split; [discriminate|split]]];
      [discriminate|].
    intros e' Hin. apply list_elem_of_singleton in Hin. injection Hin as ->.
    repeat split. }
  next_call h Hrun. destruct (merged result); simpl in Hrun.
  - next_call h Hrun. finish_run Hrun. simpl.
    split; [reflexivity | split; [reflexivity | split; [discriminate|split]]];
      [discriminate|].
    intros e' Hin. apply list_elem_of_singleton in Hin. discriminate.
  - do 2 next_call h Hrun. finish_run Hrun. simpl.
    split; [reflexivity | split; [reflexivity | split; [discriminate|split]]];
      [discriminate|].
    intros e' Hin. apply list_elem_of_singleton in Hin. discriminate.
Qed.


#[local] Opaque pollMergeability.


End Provider.

#[local] Transparent pollMergeability.

(** Bob approves: the view then reads his state as approved. *)
Lemma updateReviewers_current_state_witness :
  getCurrentUserReviewState (H:=Examples.viewHost)
    (_existingReviewers
       (updateReviewers (H:=Examples.viewHost) (Some Examples.approval) Examples.view))
    Examples.bob = Some "APPROVED"
  /\ updateReviewers (H:=Examples.viewHost) (Some Examples.approval)
       (updateReviewers (H:=Examples.viewHost) (Some Examples.approval) Examples.view)
     = updateReviewers (H:=Examples.viewHost) (Some Examples.approval) Examples.view.
Proof.
  exact (updateReviewers_current_state (H:=Examples.viewHost) Examples.view
           Examples.approval "APPROVED" (fun a => eq_refl) eq_refl eq_refl).
Defined.

(** The user confirms and the merge succeeds: one answer. *)
Lemma mergePullRequest_answered_once_witness :
  let '(tr, (out, this'), _) :=
    exec (Examples.cooperative false)
      (mergePullRequest (H:=Examples.viewHost) Examples.mergeMessage) Examples.view 0 in
  this' = Examples.view
  /\ length (omap reply_of tr) + length (omap throwError_of tr) = 1.
Proof.
  destruct (mergePullRequest_answered_once (H:=Examples.viewHost)
              (Examples.cooperative false) 0 _ Examples.view _ Examples.mergeMessage
              _ _ eq_refl)
    as (Hthis & Hone & _).
  split; [exact Hthis | exact (Hone eq_refl)].
Defined.


End ReviewerFacts.

(** ** [CredentialStore.initialize]: what a run can be *)

Module InitializeFacts.
Import Credentials.

(** Reading one field of a store that was built with the setters. *)
Ltac fields :=
  repeat match goal with
         | |- context [if ?b then _ else _] => destruct b
         end;
  repeat (split || intros); simpl in *; try congruence; auto.

Section Store.
Context `{Host}.

(** [getSession]: only session requests, all for the provider; a session
    that is returned is the answer to the last request, and no other request
    was answered with a session. *)
Lemma getSession_sessions {W} (h : Handler Call W) (w w' : W) (this this' : CredentialStore)
    (p : AuthProvider) (opts : GetSessionOptions) (scopes : list string) (req : bool)
    (tr : list (Event Call)) (out : Outcome SessionResult) :
  exec h (getSession p opts scopes req) this w = (tr, (out, this'), w') ->
  this' = this
  /\ existsb fired tr = false /\ omap showError_of tr = [] /\ omap octokit_of tr = []
  /\ omap telemetry_of tr = [] /\ omap update_of tr = []
  /\ omap session_of tr
     = match out with
       | Returned result => option_list (session result)
       | Thrown _ => []
       end
  /\ (forall p' sc o ans, (p', sc, o, ans) ∈ omap auth_of tr ->
        p' = p /\ (o = opts \/ (o = mkOptions None None (Some true)
                                /\ forced opts || req = false))).
Proof.
  intros Hrun. unfold exec, getSession, findExistingScopes in Hrun.
  destruct (forced opts || req) eqn:Hf; simpl in Hrun.
  - next_call h Hrun. destruct ans as [e | [session|]]; simpl in Hrun;
      injection Hrun as <- <- <- <-;
      do 7 (split; [reflexivity|]);
      intros p' sc o ans Hin; apply list_elem_of_singleton in Hin;
      injection Hin as -> -> -> ->; auto.
  - assert (Hin1 : forall p' sc o ans
                (l : list (AuthProvider * list string * GetSessionOptions
                           * (Error + option AuthenticationSession))),
              (p', sc, o, ans) ∈ l ->
              Forall (fun x => x.1.1.1 = p /\ (x.1.2 = opts \/ x.1.2 = mkOptions None None (Some true))) l ->
              p' = p /\ (o = opts \/ (o = mkOptions None None (Some true) /\ false = false))).
    { intros p' sc o ans l Hin Hall. rewrite Forall_forall in Hall.
      destruct (Hall _ Hin) as [Hp Ho]. simpl in *. split; [exact Hp|].
      destruct Ho; auto. }
    next_call h Hrun. destruct ans as [e | [session|]]; simpl in Hrun;
      [injection Hrun as <- <- <- <-; do 7 (split; [reflexivity|]);
       intros p' sc o ans Hin; apply (Hin1 _ _ _ _ _ Hin); simpl;
       repeat (apply Forall_cons; split; [split; [reflexivity | auto] |]); constructor ..|].
    next_call h Hrun. destruct ans as [e | [session|]]; simpl in Hrun;
      [injection Hrun as <- <- <- <-; do 7 (split; [reflexivity|]);
       intros p' sc o ans Hin; apply (Hin1 _ _ _ _ _ Hin); simpl;
       repeat (apply Forall_cons; split; [split; [reflexivity | auto] |]); constructor ..|].
    next_call h Hrun. destruct ans as [e | [session|]]; simpl in Hrun;
      [injection Hrun as <- <- <- <-; do 7 (split; [reflexivity|]);
       intros p' sc o ans Hin; apply (Hin1 _ _ _ _ _ Hin); simpl;
       repeat (apply Forall_cons; split; [split; [reflexivity | auto] |]); constructor ..|].
    next_call h Hrun. destruct ans as [e | [session|]]; simpl in Hrun;
      injection Hrun as <- <- <- <-; do 7 (split; [reflexivity|]);
       intros p' sc o ans Hin; apply (Hin1 _ _ _ _ _ Hin); simpl;
       repeat (apply Forall_cons; split; [split; [reflexivity | auto] |]); constructor.
Qed.

(** [getSession] makes at least one request, and ends as its last request
    does: with its error, or with the session it gave, if any. *)
Lemma getSession_last {W} (h : Handler Call W) (w w' : W) (this this' : CredentialStore)
    (p : AuthProvider) (opts : GetSessionOptions) (scopes : list string) (req : bool)
    (tr : list (Event Call)) (out : Outcome SessionResult) :
  exec h (getSession p opts scopes req) this w = (tr, (out, this'), w') ->
  exists p' sc o,
    last (omap auth_of tr)
    = Some (p', sc, o,
            match out with
            | Returned result => inr (session result)
            | Thrown e => inl e
            end).
Proof.
  intros Hrun. unfold exec, getSession, findExistingScopes in Hrun.
  destruct (forced opts || req) eqn:Hf; simpl in Hrun.
  - next_call h Hrun. destruct ans as [e | [session|]]; simpl in Hrun;
      injection Hrun as <- <- <- <-; eexists _, _, _; reflexivity.
  - next_call h Hrun. destruct ans as [e | [session|]]; simpl in Hrun;
      [injection Hrun as <- <- <- <-; eexists _, _, _; reflexivity ..|].
    next_call h Hrun. destruct ans as [e | [session|]]; simpl in Hrun;
      [injection Hrun as <- <- <- <-; eexists _, _, _; reflexivity ..|].
    next_call h Hrun. destruct ans as [e | [session|]]; simpl in Hrun;
      [injection Hrun as <- <- <- <-; eexists _, _, _; reflexivity ..|].
    next_call h Hrun. destruct ans as [e | [session|]]; simpl in Hrun;
      injection Hrun as <- <- <- <-; eexists _, _, _; reflexivity.
Qed.

Lemma truthy_or_empty (token : string) : (if truthy token then token else "") = token.
Proof. destruct token; reflexivity. Qed.

(** [createHub]: the fields are not touched, the first call builds the REST
    client, nothing is asked of the authentication API or shown, and a hub
    that is returned authenticates with the token given. *)
Lemma createHub_runs {W} (h : Handler Call W) (w w' : W) (this this' : CredentialStore)
    (token : string) (p : AuthProvider) (tr : list (Event Call)) (out : Outcome GitHub) :
  exec h (createHub token p) this w = (tr, (out, this'), w') ->
  this' = this
  /\ omap session_of tr = [] /\ omap auth_of tr = [] /\ existsb fired tr = false
  /\ omap showError_of tr = [] /\ omap telemetry_of tr = [] /\ omap update_of tr = []
  /\ (exists o, omap octokit_of tr = [o] /\ auth o = token)
  /\ (forall github, out = Returned github ->
        omap octokit_of tr = [octokit github]
        /\ auth (octokit github) = token
        /\ authorization (graphql github)
           = if truthy token then "Bearer " +:+ token else "").
Proof.
  intros Hrun. unfold exec, createHub, setCurrentUser in Hrun. simpl in Hrun.
  rewrite !truthy_or_empty in Hrun.
  next_call h Hrun. destruct ans as [e | []]; simpl in Hrun.
  { injection Hrun as <- <- <- <-. repeat split; try discriminate.
    eexists; split; reflexivity. }
  next_call h Hrun. destruct ans as [e | []]; simpl in Hrun.
  { injection Hrun as <- <- <- <-. repeat split; try discriminate.
    eexists; split; reflexivity. }
  next_call h Hrun. injection Hrun as <- <- <- <-.
  repeat split; try discriminate; try (eexists; split; reflexivity);
    injection H0 as <-; reflexivity.
Qed.

(** [saveScopesInState]: two updates of the global state, at most. *)
Lemma saveScopesInState_runs {W} (h : Handler Call W) (w w' : W)
    (this this' : CredentialStore) (tr : list (Event Call)) (out : Outcome unit) :
  exec h saveScopesInState this w = (tr, (out, this'), w') ->
  this' = this
  /\ omap session_of tr = [] /\ omap auth_of tr = [] /\ existsb fired tr = false
  /\ omap showError_of tr = [] /\ omap telemetry_of tr = [] /\ omap octokit_of tr = []
  /\ (out = Returned tt ->
        omap update_of tr = [(LAST_USED_SCOPES_GITHUB_KEY, _scopes this);
                             (LAST_USED_SCOPES_ENTERPRISE_KEY, _scopesEnterprise this)]).
Proof.
  intros Hrun. unfold exec, saveScopesInState in Hrun. simpl in Hrun.
  next_call h Hrun. destruct ans as [e | []]; simpl in Hrun.
  { injection Hrun as <- <- <- <-. repeat split; discriminate. }
  next_call h Hrun. destruct ans as [e | []]; simpl in Hrun;
    injection Hrun as <- <- <- <-; repeat split; discriminate.
Qed.

(** The runs of [initialize], path by path: the early return; the session
    request that throws; no session; a session and a hub; a session and no
    hub; a session, 'Bad credentials', and the second call. *)
Lemma initialize_runs {W} (h : Handler Call W) (fuel : nat) (w w' : W)
    (this this' : CredentialStore) (p : AuthProvider) (o : GetSessionOptions)
    (scopesArg : option (list string)) (rs : option bool)
    (tr : list (Event Call)) (out : Outcome (option AuthResult)) :
  exec h (initialize_fuel (S fuel) p o scopesArg rs) this w = (tr, (out, this'), w') ->
  let scopes := default (if negb (isEnterprise p) then _scopes this
                         else _scopesEnterprise this) scopesArg in
  let o1 := defaultCreateIfNone o in
  let this1 := (if negb (isEnterprise p) then set_scopes scopes
                else set_scopesEnterprise scopes) this in
  (isEnterprise p && negb hasEnterpriseUri = true
   /\ tr = [] /\ this' = this /\ out = Returned (Some (mkAuthResult false)))
  \/ (isEnterprise p && negb hasEnterpriseUri = false
      /\ exists trS outS wS,
          exec h (getSession p o1 scopes (truthyb rs)) this1 w = (trS, (outS, this1), wS)
          /\ match outS with
             | Thrown e =>
                 tr = trS /\ this' = this
                 /\ out = (if forced o
                              && String.eqb (message e) "User did not consent to login."
                           then Returned (Some (mkAuthResult true)) else Thrown e)
             | Returned (mkSessionResult None _ _) =>
                 tr = trS /\ this' = this1 /\ out = Returned (Some (mkAuthResult false))
             | Returned (mkSessionResult (Some session) isNew usedScopes) =>
                 let this2 :=
                   (if negb (isEnterprise p) then set_sessionId (Some (session_id session))
                    else set_enterpriseSessionId (Some (session_id session))) this1 in
                 let finish (github : option GitHub) (trT : list (Event Call)) :=
                   let this3 :=
                     if negb (isEnterprise p)
                     then set_scopes usedScopes (set_githubAPI github this2)
                     else set_scopesEnterprise usedScopes
                            (set_githubEnterpriseAPI github this2) in
                   exists w0 trU outU wU,
                     exec h saveScopesInState this3 w0 = (trU, (outU, this3), wU)
                     /\ match outU with
                        | Thrown e => trT = trU /\ this' = this3 /\ out = Thrown e
                        | Returned _ =>
                            let fire := negb (_isInitialized this3)
                                        || (isNew && negb (_isSamling this3)) in
                            trT = trU
                                  ++ (if fire then [Ev onDidInitialize_fire tt] else [])
                                  ++ (if isNew
                                      then [Ev (telemetry_sendTelemetryEvent "auth.session") tt]
                                      else [])
                            /\ this' = (if fire then set_isInitialized true this3 else this3)
                            /\ out = Returned (Some (mkAuthResult false))
                        end in
                 exists trH outH wH,
                   exec h (createHub (accessToken session) p) this2 wS
                     = (trH, (outH, this2), wH)
                   /\ match outH with
                      | Returned github =>
                          exists trT, tr = trS ++ trH ++ trT /\ finish (Some github) trT
                      | Thrown e =>
                          if String.eqb (message e) "Bad credentials" && negb (forced o)
                          then
                            exists trN,
                              tr = trS ++ trH ++ trN
                              /\ exec h (initialize_fuel fuel p
                                           (mkOptions (createIfNone o1) (Some (ForceBool true))
                                              (Some false))
                                           (Some scopes) rs) this2 wH
                                 = (trN, (out, this'), w')
                          else
                            exists trT,
                              tr = trS ++ trH
                                   ++ Ev (window_showErrorMessage
                                            (l10n_t "Unable to sign in with the provided credentials"))
                                         tt :: trT
                              /\ finish None trT
                      end
             end).
Proof.
  intros Hrun scopes o1 this1.
  cbn [initialize_fuel] in Hrun.
  rewrite exec_bind, exec_get in Hrun.
  destruct (isEnterprise p && negb hasEnterpriseUri) eqn:Hearly.
  { left. rewrite exec_ret in Hrun. injection Hrun as <- <- <- <-. auto. }
  right. split; [reflexivity|].
  rewrite exec_bind, exec_try_catch, exec_bind, exec_modify, exec_bind in Hrun.
  fold scopes in Hrun. fold o1 in Hrun. fold this1 in Hrun.
  destruct (exec h (getSession p o1 scopes (truthyb rs)) this1 w)
    as [[trS [outS thisS]] wS] eqn:HS.
  pose proof (getSession_sessions _ _ _ _ _ _ _ _ _ _ _ HS) as (-> & _).
  exists trS, outS, wS. split; [reflexivity|].
  destruct outS as [[[session|] isNew usedScopes] | e].
  - (* a session *)
    rewrite exec_ret in Hrun. cbv beta iota zeta in Hrun.
    rewrite exec_bind, exec_modify, exec_bind, exec_try_catch, exec_bind in Hrun.
    cbv beta iota zeta in Hrun.
    set (this2 := (if negb (isEnterprise p) then set_sessionId (Some (session_id session))
                   else set_enterpriseSessionId (Some (session_id session))) this1) in *.
    destruct (exec h (createHub (accessToken session) p) this2 wS)
      as [[trH [outH thisH]] wH] eqn:HH.
    pose proof (createHub_runs _ _ _ _ _ _ _ _ _ HH) as (-> & _).
    exists trH, outH, wH. split; [exact HH|].
    assert (Htail : forall github trP wP,
      (let '(tr2, r2, w2) :=
         exec h
           (modify (if negb (isEnterprise p)
                    then fun s => set_scopes usedScopes (set_githubAPI github s)
                    else fun s => set_scopesEnterprise usedScopes
                                    (set_githubEnterpriseAPI github s)) >>
            saveScopesInState >>
            let* this := get in
            when (negb (_isInitialized this) || (isNew && negb (_isSamling this)))
                 (modify (set_isInitialized true) >> call onDidInitialize_fire) >>
            when isNew (call (telemetry_sendTelemetryEvent "auth.session")) >>
            ret (Some (mkAuthResult false))) this2 wP in
       (trP ++ tr2, r2, w2)) = (tr, (out, this'), w') ->
      exists trT,
        tr = trP ++ trT
        /\ let this3 :=
             if negb (isEnterprise p)
             then set_scopes usedScopes (set_githubAPI github this2)
             else set_scopesEnterprise usedScopes (set_githubEnterpriseAPI github this2) in
           exists w0 trU outU wU,
             exec h saveScopesInState this3 w0 = (trU, (outU, this3), wU)
             /\ match outU with
                | Thrown e => trT = trU /\ this' = this3 /\ out = Thrown e
                | Returned _ =>
                    let fire := negb (_isInitialized this3)
                                || (isNew && negb (_isSamling this3)) in
                    trT = trU
                          ++ (if fire then [Ev onDidInitialize_fire tt] else [])
                          ++ (if isNew
                              then [Ev (telemetry_sendTelemetryEvent "auth.session") tt]
                              else [])
                    /\ this' = (if fire then set_isInitialized true this3 else this3)
                    /\ out = Returned (Some (mkAuthResult false))
                end).
    { intros github trP wP Ht.
      rewrite exec_bind, exec_modify in Ht. cbv beta iota zeta in Ht.
      rewrite exec_bind in Ht.
      assert (Hthis3 : (if negb (isEnterprise p)
                        then fun s => set_scopes usedScopes (set_githubAPI github s)
                        else fun s => set_scopesEnterprise usedScopes
                                        (set_githubEnterpriseAPI github s)) this2
                       = if negb (isEnterprise p)
                         then set_scopes usedScopes (set_githubAPI github this2)
                         else set_scopesEnterprise usedScopes
                                (set_githubEnterpriseAPI github this2)).
      { destruct (isEnterprise p); reflexivity. }
      rewrite Hthis3 in Ht. clear Hthis3.
      cbv zeta.
      set (this3 := if negb (isEnterprise p)
                    then set_scopes usedScopes (set_githubAPI github this2)
                    else set_scopesEnterprise usedScopes
                           (set_githubEnterpriseAPI github this2)) in *.
      destruct (exec h saveScopesInState this3 wP) as [[trU [outU thisU]] wU] eqn:HU.
      pose proof (saveScopesInState_runs _ _ _ _ _ _ _ HU) as (-> & _).
      clearbody this3.
      destruct outU as [[] | e].
      - cbv beta iota zeta in Ht.
        rewrite exec_bind, exec_get in Ht. cbv beta iota zeta in Ht.
        destruct (negb (_isInitialized this3) || isNew && negb (_isSamling this3)) eqn:Hfire;
          destruct isNew; unfold exec, when in Ht; simpl in Ht;
          repeat next_call h Ht; finish_run Ht;
          (eexists; split; [reflexivity|]);
          exists wP, trU, (Returned tt), wU; (split; [exact HU|]);
          cbv zeta; rewrite ?app_nil_r; auto.
      - cbv beta iota zeta in Ht. injection Ht as <- <- <- <-.
        eexists. split; [reflexivity|].
        exists wP, trU, (Thrown e), wU. split; [exact HU | auto]. }
    destruct outH as [github | e].
    + rewrite exec_ret in Hrun. cbv beta iota zeta in Hrun.
      rewrite !app_nil_r, !app_nil_l in Hrun.
      match type of Hrun with
      | context [exec h ?m this2 wH] =>
          destruct (exec h m this2 wH) as [[trT0 rT] wT] eqn:HT
      end.
      destruct (Htail (Some github) (trS ++ trH) wH) as (trT & Htr & Hfin);
        [rewrite HT, <- Hrun; cbn [app]; rewrite <- !app_assoc; reflexivity|].
      exists trT. split; [rewrite Htr, <- !app_assoc; reflexivity | exact Hfin].
    + cbv beta iota zeta in Hrun. unfold o1 in Hrun at 1.
      rewrite CredentialsFacts.forced_defaultCreateIfNone in Hrun.
      destruct (String.eqb (message e) "Bad credentials" && negb (forced o)) eqn:Hretry.
      * rewrite exec_bind in Hrun.
        destruct (exec h (initialize_fuel fuel p
                            (mkOptions (createIfNone o1) (Some (ForceBool true)) (Some false))
                            (Some scopes) rs) this2 wH)
          as [[trN [outN thisN]] wN] eqn:HN.
        exists trN. destruct outN as [r | e'].
        -- rewrite exec_ret in Hrun. cbv beta iota zeta in Hrun.
           rewrite exec_ret in Hrun. cbv beta iota zeta in Hrun.
           rewrite !app_nil_r, !app_nil_l in Hrun.
           injection Hrun as <- <- <- <-. split; reflexivity.
        -- cbv beta iota zeta in Hrun.
           rewrite !app_nil_r, !app_nil_l in Hrun.
           injection Hrun as <- <- <- <-. split; reflexivity.
      * rewrite exec_bind, exec_call in Hrun.
        destruct (h _ (window_showErrorMessage
                         (l10n_t "Unable to sign in with the provided credentials")) wH)
          as [[] wE] eqn:HE.
        rewrite exec_ret in Hrun. cbv beta iota zeta in Hrun.
        rewrite !app_nil_r, !app_nil_l in Hrun.
        match type of Hrun with
        | context [exec h ?m this2 wE] =>
            destruct (exec h m this2 wE) as [[trT0 rT] wT] eqn:HT
        end.
        destruct (Htail None
                    (trS ++ trH
                     ++ [Ev (window_showErrorMessage
                               (l10n_t "Unable to sign in with the provided credentials")) tt])
                    wE) as (trT & Htr & Hfin);
          [rewrite HT, <- Hrun; cbn [app]; rewrite <- !app_assoc; reflexivity|].
        exists trT. split; [rewrite Htr, <- !app_assoc; reflexivity | exact Hfin].
  - rewrite exec_ret in Hrun. cbv beta iota zeta in Hrun.
    rewrite exec_ret in Hrun. cbv beta iota zeta in Hrun.
    rewrite !app_nil_r in Hrun. cbn [app] in Hrun.
    injection Hrun as <- <- <- <-. auto.
  - cbv beta iota zeta in Hrun.
    rewrite exec_bind, exec_modify, exec_bind, exec_modify in Hrun.
    cbv beta iota zeta in Hrun.
    unfold o1 in Hrun at 1. rewrite CredentialsFacts.forced_defaultCreateIfNone in Hrun.
    assert (Hback : set_scopesEnterprise (_scopesEnterprise this)
                      (set_scopes (_scopes this) this1) = this).
    { unfold this1. destruct this; destruct (isEnterprise p); reflexivity. }
    rewrite Hback in Hrun.
    destruct (forced o && String.eqb (message e) "User did not consent to login.") eqn:Hc.
    + apply andb_true_iff in Hc as [_ Hmsg]. rewrite Hmsg in Hrun.
      rewrite exec_ret in Hrun. cbv beta iota zeta in Hrun.
      rewrite exec_ret in Hrun. cbv beta iota zeta in Hrun.
      rewrite !app_nil_r in Hrun. cbn [app] in Hrun.
      injection Hrun as <- <- <- <-. auto.
    + rewrite exec_throw in Hrun. cbv beta iota zeta in Hrun.
      rewrite !app_nil_r in Hrun. cbn [app] in Hrun.
      injection Hrun as <- <- <- <-. auto.
Qed.

(** X7. [initialize] for a provider leaves the other provider's hub, session
    id and scopes as they were, never assigns [_isSamling], and never resets
    [_isInitialized]. *)
Theorem initialize_frame (fuel : nat) :
  forall {W} (h : Handler Call W) (w w' : W) (this this' : CredentialStore)
         (authProviderId : AuthProvider) (getAuthSessionOptions : GetSessionOptions)
         (scopesArg : option (list string)) (requireScopes : option bool)
         (tr : list (Event Call)) (out : Outcome (option AuthResult)),
    exec h (initialize_fuel fuel authProviderId getAuthSessionOptions scopesArg
              requireScopes) this w = (tr, (out, this'), w') ->
    _isSamling this' = _isSamling this
    /\ (_isInitialized this = true -> _isInitialized this' = true)
    /\ (isEnterprise authProviderId = false ->
          _githubEnterpriseAPI this' = _githubEnterpriseAPI this
          /\ _enterpriseSessionId this' = _enterpriseSessionId this
          /\ _scopesEnterprise this' = _scopesEnterprise this)
    /\ (isEnterprise authProviderId = true ->
          _githubAPI this' = _githubAPI this
          /\ _sessionId this' = _sessionId this
          /\ _scopes this' = _scopes this).
Proof.
  induction fuel as [|fuel IH]; intros W h w w' this this' p o scopesArg rs tr out Hrun.
  { injection Hrun as <- <- <- <-. fields. }
  apply initialize_runs in Hrun. cbv zeta in Hrun.
  destruct Hrun as [(_ & _ & -> & _) | (_ & trS & outS & wS & _ & Hrun)];
    [fields|].
  destruct (isEnterprise p) eqn:Hp; cbn [negb] in Hrun;
    (destruct outS as [[[session|] isNew usedScopes] | e];
     [ destruct Hrun as (trH & outH & wH & _ & Hrun);
       destruct outH as [github | e];
       [ destruct Hrun as (trT & _ & w0 & trU & outU & wU & _ & Hrun);
         destruct outU as [[] | e]; destruct Hrun as (_ & -> & _);
         destruct this; unfold set_isInitialized; simpl; fields
       | destruct (String.eqb (message e) "Bad credentials" && negb (forced o));
         [ destruct Hrun as (trN & _ & HN); apply IH in HN; rewrite Hp in HN;
           destruct HN as (Hsaml & Hinit & Hother & Hmine);
           try specialize (Hother eq_refl); try specialize (Hmine eq_refl);
           destruct_and?; destruct this; simpl in *; fields
         | destruct Hrun as (trT & _ & w0 & trU & outU & wU & _ & Hrun);
           destruct outU as [[] | e']; destruct Hrun as (_ & -> & _);
           destruct this; unfold set_isInitialized; simpl; fields ] ]
     | destruct Hrun as (_ & -> & _); destruct this; simpl; fields
     | destruct Hrun as (_ & -> & _); fields ]).
Qed.

(** X8. [onDidInitialize] in a run of [initialize]: when it fires, the store
    is initialized at the end; on a store that is initialized and in the
    middle of a SAML sign-in it does not fire; on a store that is initialized
    it fires only together with the telemetry event of a new session. *)
Theorem initialize_fires (fuel : nat) :
  forall {W} (h : Handler Call W) (w w' : W) (this this' : CredentialStore)
         (authProviderId : AuthProvider) (getAuthSessionOptions : GetSessionOptions)
         (scopesArg : option (list string)) (requireScopes : option bool)
         (tr : list (Event Call)) (out : Outcome (option AuthResult)),
    exec h (initialize_fuel fuel authProviderId getAuthSessionOptions scopesArg
              requireScopes) this w = (tr, (out, this'), w') ->
    (existsb fired tr = true -> _isInitialized this' = true)
    /\ (_isInitialized this = true -> _isSamling this = true ->
          existsb fired tr = false)
    /\ (_isInitialized this = true -> existsb fired tr = true ->
          "auth.session" ∈ omap telemetry_of tr).
Proof.
  induction fuel as [|fuel IH]; intros W h w w' this this' p o scopesArg rs tr out Hrun.
  { injection Hrun as <- <- <- <-. simpl. fields. }
  apply initialize_runs in Hrun. cbv zeta in Hrun.
  destruct Hrun as [(_ & -> & -> & _) | (_ & trS & outS & wS & HS & Hrun)];
    [simpl; fields|].
  apply getSession_sessions in HS as (_ & HfS & _).
  destruct outS as [[[session|] isNew usedScopes] | e].
  2, 3: destruct Hrun as (-> & -> & _); rewrite HfS; fields.
  destruct Hrun as (trH & outH & wH & HH & Hrun).
  apply createHub_runs in HH as (_ & _ & _ & HfH & _).
  assert (Hfinish : forall github pre trT,
    existsb fired pre = false ->
    (let this3 :=
       if negb (isEnterprise p)
       then set_scopes usedScopes
              (set_githubAPI github
                 ((if negb (isEnterprise p)
                   then set_sessionId (Some (session_id session))
                   else set_enterpriseSessionId (Some (session_id session)))
                    ((if negb (isEnterprise p)
                      then set_scopes
                             (default (if negb (isEnterprise p) then _scopes this
                                       else _scopesEnterprise this) scopesArg)
                      else set_scopesEnterprise
                             (default (if negb (isEnterprise p) then _scopes this
                                       else _scopesEnterprise this) scopesArg)) this)))
       else set_scopesEnterprise usedScopes
              (set_githubEnterpriseAPI github
                 ((if negb (isEnterprise p)
                   then set_sessionId (Some (session_id session))
                   else set_enterpriseSessionId (Some (session_id session)))
                    ((if negb (isEnterprise p)
                      then set_scopes
                             (default (if negb (isEnterprise p) then _scopes this
                                       else _scopesEnterprise this) scopesArg)
                      else set_scopesEnterprise
                             (default (if negb (isEnterprise p) then _scopes this
                                       else _scopesEnterprise this) scopesArg)) this))) in
     exists w0 trU outU wU,
       exec h saveScopesInState this3 w0 = (trU, (outU, this3), wU)
       /\ match outU with
          | Thrown e => trT = trU /\ this' = this3 /\ out = Thrown e
          | Returned _ =>
              let fire := negb (_isInitialized this3)
                          || (isNew && negb (_isSamling this3)) in
              trT = trU
                    ++ (if fire then [Ev onDidInitialize_fire tt] else [])
                    ++ (if isNew
                        then [Ev (telemetry_sendTelemetryEvent "auth.session") tt]
                        else [])
              /\ this' = (if fire then set_isInitialized true this3 else this3)
              /\ out = Returned (Some (mkAuthResult false))
          end) ->
    (existsb fired (pre ++ trT) = true -> _isInitialized this' = true)
    /\ (_isInitialized this = true -> _isSamling this = true ->
          existsb fired (pre ++ trT) = false)
    /\ (_isInitialized this = true -> existsb fired (pre ++ trT) = true ->
          "auth.session" ∈ omap telemetry_of (pre ++ trT))).
  { intros github pre trT Hpre (w0 & trU & outU & wU & HU & Hfin).
    apply saveScopesInState_runs in HU as (_ & _ & _ & HfU & _).
    rewrite !existsb_app, Hpre, omap_app.
    destruct outU as [[] | e]; destruct Hfin as (-> & -> & _).
    - rewrite !existsb_app, HfU, !omap_app.
      destruct this; destruct (isEnterprise p); simpl;
        destruct _isInitialized0, _isSamling0, isNew; simpl; fields;
        rewrite !elem_of_app; right; right; left.
    - rewrite HfU. fields. }
  destruct outH as [github | e].
  - destruct Hrun as (trT & -> & Hfin). rewrite app_assoc.
    apply (Hfinish (Some github)); [|exact Hfin].
    rewrite existsb_app, HfS, HfH. reflexivity.
  - destruct (String.eqb (message e) "Bad credentials" && negb (forced o)).
    + destruct Hrun as (trN & -> & HN). apply IH in HN.
      rewrite !app_assoc, existsb_app, omap_app, existsb_app, HfS, HfH.
      destruct HN as (H1 & H2 & H3).
      destruct this; destruct (isEnterprise p); simpl in *; fields;
        rewrite elem_of_app; right; auto.
    + destruct Hrun as (trT & -> & Hfin).
      change (trS ++ trH ++ ?e :: trT) with (trS ++ trH ++ [e] ++ trT).
      rewrite !app_assoc. apply (Hfinish None); [|exact Hfin].
      rewrite !existsb_app, HfS, HfH. reflexivity.
Qed.

(** X9. A run of [initialize] in which no request was answered with a
    session builds no client, fires nothing and shows nothing; it keeps the
    hubs, the session ids and [_isInitialized].  What it does to the scopes
    is decided by its last session request.  When that request was rejected,
    the store is as it was, and the result is [{ canceled: true }] for a
    forced session that the user did not consent to, and the error
    otherwise.  When that request returned without a session, the scopes of
    the provider are left at the requested ones, nothing else is changed,
    and the result is [{ canceled: false }].  When no request was made, the
    store is as it was. *)
Theorem initialize_without_session (fuel : nat) {W} (h : Handler Call W) (w w' : W)
    (this this' : CredentialStore) (authProviderId : AuthProvider)
    (getAuthSessionOptions : GetSessionOptions) (scopesArg : option (list string))
    (requireScopes : option bool) (tr : list (Event Call))
    (out : Outcome (option AuthResult)) :
  exec h (initialize_fuel fuel authProviderId getAuthSessionOptions scopesArg
            requireScopes) this w = (tr, (out, this'), w') ->
  omap session_of tr = [] ->
  let scopes := default (if negb (isEnterprise authProviderId) then _scopes this
                         else _scopesEnterprise this) scopesArg in
  omap octokit_of tr = [] /\ existsb fired tr = false /\ omap showError_of tr = []
  /\ (forall p, getHub p this' = getHub p this /\ sessionIdOf p this' = sessionIdOf p this)
  /\ _isInitialized this' = _isInitialized this
  /\ match last (omap auth_of tr) with
     | None => tr = [] /\ this' = this
     | Some (_, _, _, inl e) =>
         this' = this
         /\ out = (if forced getAuthSessionOptions
                      && String.eqb (message e) "User did not consent to login."
                   then Returned (Some (mkAuthResult true)) else Thrown e)
     | Some (_, _, _, inr None) =>
         this' = (if negb (isEnterprise authProviderId) then set_scopes scopes
                  else set_scopesEnterprise scopes) this
         /\ out = Returned (Some (mkAuthResult false))
     | Some (_, _, _, inr (Some _)) => False
     end.
Proof.
  intros Hrun Hnone. destruct fuel as [|fuel].
  { injection Hrun as <- <- <- <-. cbv zeta. simpl. repeat split. }
  apply initialize_runs in Hrun. cbv zeta in Hrun.
  destruct Hrun as [(_ & -> & -> & _) | (_ & trS & outS & wS & HS & Hrun)];
    [cbv zeta; simpl; repeat split|].
  pose proof (getSession_last _ _ _ _ _ _ _ _ _ _ _ HS) as (p' & sc & o & Hlast).
  apply getSession_sessions in HS as (_ & HfS & HeS & HoS & _ & _ & HsS & _).
  destruct outS as [[[session|] isNew usedScopes] | e].
  - exfalso. destruct Hrun as (trH & outH & wH & _ & Hrun).
    assert (Htr : exists rest, tr = trS ++ rest).
    { destruct outH as [github | e];
        [|destruct (String.eqb (message e) "Bad credentials" && negb (forced _))];
        destruct Hrun as (rest & -> & _); eexists; reflexivity. }
    destruct Htr as (rest & ->). rewrite omap_app, HsS in Hnone. discriminate.
  - destruct Hrun as (-> & -> & ->). cbv zeta. rewrite HfS, HeS, HoS, Hlast.
    cbn [session]. do 3 (split; [reflexivity|]).
    split; [|split; [|split; reflexivity]].
    + intros p0. unfold getHub, sessionIdOf.
      destruct this; destruct (isEnterprise authProviderId), (isEnterprise p0); auto.
    + destruct this; destruct (isEnterprise authProviderId); reflexivity.
  - destruct Hrun as (-> & -> & ->). cbv zeta. rewrite HfS, HeS, HoS, Hlast.
    do 3 (split; [reflexivity|]). split; [intros p0; split; reflexivity|].
    split; [reflexivity|]. split; reflexivity.
Qed.

(** X10. When a run of [initialize] shows 'Unable to sign in with the
    provided credentials', the provider has no hub at the end, whatever it
    had before: [isAuthenticated] is false for it. *)
Theorem initialize_sign_in_error (fuel : nat) :
  forall {W} (h : Handler Call W) (w w' : W) (this this' : CredentialStore)
         (authProviderId : AuthProvider) (getAuthSessionOptions : GetSessionOptions)
         (scopesArg : option (list string)) (requireScopes : option bool)
         (tr : list (Event Call)) (out : Outcome (option AuthResult)),
    exec h (initialize_fuel fuel authProviderId getAuthSessionOptions scopesArg
              requireScopes) this w = (tr, (out, this'), w') ->
    omap showError_of tr <> [] ->
    getHub authProviderId this' = None
    /\ isAuthenticated authProviderId this' = false
    /\ omap showError_of tr = [l10n_t "Unable to sign in with the provided credentials"].
Proof.
  induction fuel as [|fuel IH]; intros W h w w' this this' p o scopesArg rs tr out Hrun Hshown.
  { injection Hrun as <- <- <- <-. contradiction. }
  apply initialize_runs in Hrun. cbv zeta in Hrun.
  destruct Hrun as [(_ & -> & _) | (_ & trS & outS & wS & HS & Hrun)];
    [contradiction|].
  apply getSession_sessions in HS as (_ & _ & HeS & _).
  destruct outS as [[[session|] isNew usedScopes] | e].
  2, 3: destruct Hrun as (-> & _); contradiction.
  destruct Hrun as (trH & outH & wH & HH & Hrun).
  apply createHub_runs in HH as (_ & _ & _ & _ & HeH & _).
  assert (Htail : forall (b1 b2 : bool) (e1 e2 : Event Call) trU,
            omap showError_of trU = [] -> showError_of e1 = None -> showError_of e2 = None ->
            omap showError_of (trU ++ (if b1 then [e1] else []) ++ (if b2 then [e2] else []))
            = []).
  { intros b1 b2 e1 e2 trU HU H1 H2. rewrite !omap_app, HU.
    destruct b1, b2; simpl; rewrite ?H1, ?H2; reflexivity. }
  destruct outH as [github | e].
  - exfalso. destruct Hrun as (trT & -> & w0 & trU & outU & wU & HU & Hfin).
    apply saveScopesInState_runs in HU as (_ & _ & _ & _ & HeU & _).
    apply Hshown. rewrite !omap_app, HeS, HeH.
    destruct outU as [[] | e]; destruct Hfin as (-> & _);
      [apply Htail; auto | exact HeU].
  - destruct (String.eqb (message e) "Bad credentials" && negb (forced o)).
    + destruct Hrun as (trN & -> & HN).
      rewrite !omap_app, HeS, HeH in *. apply (IH _ _ _ _ _ _ _ _ _ _ _ _ HN Hshown).
    + clear Hshown. destruct Hrun as (trT & -> & w0 & trU & outU & wU & HU & Hfin).
      apply saveScopesInState_runs in HU as (_ & _ & _ & _ & HeU & _).
      change (trS ++ trH ++ ?e :: trT) with (trS ++ trH ++ [e] ++ trT).
      rewrite !omap_app, HeS, HeH.
      assert (HeT : omap showError_of trT = []).
      { destruct outU as [[] | e']; destruct Hfin as (-> & _);
          [apply Htail; auto | exact HeU]. }
      rewrite HeT. split; [|split; [|reflexivity]].
      * destruct outU as [[] | e']; destruct Hfin as (_ & -> & _);
          unfold getHub; destruct this; destruct (isEnterprise p); simpl; fields.
      * destruct outU as [[] | e']; destruct Hfin as (_ & -> & _);
          unfold isAuthenticated; destruct this; destruct (isEnterprise p); simpl; fields.
Qed.

(** The events after the hub is stored ask for no session and build no
    client. *)
Lemma finish_quiet (b1 b2 : bool) (trU : list (Event Call)) :
  omap session_of trU = [] -> omap octokit_of trU = [] -> omap auth_of trU = [] ->
  let trT := trU ++ (if b1 then [Ev onDidInitialize_fire tt] else [])
                 ++ (if b2 then [Ev (telemetry_sendTelemetryEvent "auth.session") tt]
                     else []) in
  omap session_of trT = [] /\ omap octokit_of trT = [] /\ omap auth_of trT = [].
Proof.
  intros Hs Ho Ha. cbv zeta. rewrite !omap_app, Hs, Ho, Ha.
  destruct b1, b2; repeat split.
Qed.

(** X11. A hub that the provider has after [initialize] is the hub it had
    before, or it was built in this run: with the access token of the session
    that was obtained last, whose id is then the stored session id, and by the
    last REST client constructed. *)
Theorem initialize_hub_from_session (fuel : nat) :
  forall {W} (h : Handler Call W) (w w' : W) (this this' : CredentialStore)
         (authProviderId : AuthProvider) (getAuthSessionOptions : GetSessionOptions)
         (scopesArg : option (list string)) (requireScopes : option bool)
         (tr : list (Event Call)) (out : Outcome (option AuthResult)) (github : GitHub),
    exec h (initialize_fuel fuel authProviderId getAuthSessionOptions scopesArg
              requireScopes) this w = (tr, (out, this'), w') ->
    getHub authProviderId this' = Some github ->
    getHub authProviderId this = Some github
    \/ (exists session,
          last (omap session_of tr) = Some session
          /\ last (omap octokit_of tr) = Some (octokit github)
          /\ auth (octokit github) = accessToken session
          /\ sessionIdOf authProviderId this' = Some (session_id session)).
Proof.
  induction fuel as [|fuel IH];
    intros W h w w' this this' p o scopesArg rs tr out g Hrun Hhub.
  { injection Hrun as <- <- <- <-. left. exact Hhub. }
  apply initialize_runs in Hrun. cbv zeta in Hrun.
  destruct Hrun as [(_ & _ & -> & _) | (_ & trS & outS & wS & HS & Hrun)];
    [left; exact Hhub|].
  apply getSession_sessions in HS as (_ & _ & _ & HoS & _ & _ & HsS & _).
  destruct outS as [[[session|] isNew usedScopes] | e].
  2: { destruct Hrun as (_ & -> & _). left. revert Hhub. unfold getHub.
       destruct this; destruct (isEnterprise p); auto. }
  2: { destruct Hrun as (_ & -> & _). left. exact Hhub. }
  destruct Hrun as (trH & outH & wH & HH & Hrun).
  apply createHub_runs in HH as (_ & HsH & _ & _ & _ & _ & _ & _ & HgH).
  simpl in HsS.
  destruct outH as [github | e].
  - right. exists session.
    destruct (HgH github eq_refl) as (HoH & Hauth & _).
    destruct Hrun as (trT & -> & w0 & trU & outU & wU & HU & Hfin).
    apply saveScopesInState_runs in HU as (_ & HsU & HaU & _ & _ & _ & HoU & _).
    assert (Hquiet : omap session_of trT = [] /\ omap octokit_of trT = []).
    { destruct outU as [[] | e]; destruct Hfin as (-> & _); [|auto].
      rewrite !omap_app, HsU, HoU.
      repeat match goal with
             | |- context [if ?b then _ else _] => destruct b
             end; auto. }
    destruct Hquiet as (HsT & HoT).
    rewrite !omap_app, HsS, HsH, HsT, HoS, HoH, HoT.
    assert (Hthis : getHub p this' = Some github
                    /\ sessionIdOf p this' = Some (session_id session)).
    { destruct outU as [[] | e]; destruct Hfin as (_ & -> & _);
        unfold getHub, sessionIdOf; destruct this; destruct (isEnterprise p); simpl; fields. }
    destruct Hthis as (Hg & Hid). rewrite Hhub in Hg. injection Hg as ->.
    repeat split; auto.
  - destruct (String.eqb (message e) "Bad credentials" && negb (forced o)).
    + destruct Hrun as (trN & -> & HN).
      destruct (IH _ _ _ _ _ _ _ _ _ _ _ _ _ HN Hhub) as [Hsame | (s' & Hs & Ho & Ha & Hi)].
      * left. revert Hsame. unfold getHub.
        destruct this; destruct (isEnterprise p); auto.
      * right. exists s'. rewrite !omap_app, !last_app, Hs, Ho. auto.
    + exfalso. destruct Hrun as (trT & _ & w0 & trU & outU & wU & _ & Hfin).
      revert Hhub.
      destruct outU as [[] | e']; destruct Hfin as (_ & -> & _);
        unfold getHub; destruct this; destruct (isEnterprise p); simpl; fields.
Qed.

(** X12. Every session request of [initialize] is for its provider, and is
    made with the caller's options (after the default for [createIfNone]),
    or is a silent probe for an existing session, or is the one retry with
    [forceNewSession: true, silent: false] after 'Bad credentials'.  With a
    forced new session there is neither probe nor retry: at most one request
    is made. *)
Theorem initialize_requests (fuel : nat) :
  forall {W} (h : Handler Call W) (w w' : W) (this this' : CredentialStore)
         (authProviderId : AuthProvider) (getAuthSessionOptions : GetSessionOptions)
         (scopesArg : option (list string)) (requireScopes : option bool)
         (tr : list (Event Call)) (out : Outcome (option AuthResult)),
    exec h (initialize_fuel fuel authProviderId getAuthSessionOptions scopesArg
              requireScopes) this w = (tr, (out, this'), w') ->
    let o1 := defaultCreateIfNone getAuthSessionOptions in
    (forall p sc o ans, (p, sc, o, ans) ∈ omap auth_of tr ->
       p = authProviderId
       /\ (o = o1
           \/ (forced getAuthSessionOptions = false
               /\ (o = mkOptions None None (Some true)
                   \/ o = mkOptions (createIfNone o1) (Some (ForceBool true)) (Some false)))))
    /\ (forced getAuthSessionOptions = true -> length (omap auth_of tr) <= 1).
Proof.
  induction fuel as [|fuel IH]; intros W h w w' this this' p o scopesArg rs tr out Hrun.
  { injection Hrun as <- <- <- <-. simpl. split; [|lia].
    intros ? ? ? ? Hin. inversion Hin. }
  apply initialize_runs in Hrun. cbv zeta in Hrun.
  destruct Hrun as [(_ & -> & _) | (_ & trS & outS & wS & HS & Hrun)].
  { simpl. split; [|lia]. intros ? ? ? ? Hin. inversion Hin. }
  pose proof (CredentialsFacts.getSession_cases _ _ _ _ _ _ _ _ _ _ _ HS) as (_ & _ & HcS).
  apply getSession_sessions in HS as (_ & _ & _ & _ & _ & _ & _ & HaS).
  cbv zeta in HcS. rewrite CredentialsFacts.forced_defaultCreateIfNone in HcS, HaS.
  assert (HS1 : forall p' sc o' ans, (p', sc, o', ans) ∈ omap auth_of trS ->
            p' = p
            /\ (o' = defaultCreateIfNone o
                \/ (forced o = false
                    /\ (o' = mkOptions None None (Some true)
                        \/ o' = mkOptions (createIfNone (defaultCreateIfNone o))
                                   (Some (ForceBool true)) (Some false))))).
  { intros p' sc o' ans Hin. destruct (HaS _ _ _ _ Hin) as (-> & [-> | (-> & Hf)]); auto.
    apply orb_false_iff in Hf as [Hf _]. auto. }
  assert (HS2 : forced o = true -> length (omap auth_of trS) <= 1).
  { intros Hf. rewrite Hf in HcS. simpl in HcS. destruct HcS as (ans & -> & _).
    simpl. lia. }
  clear HaS HcS.
  destruct outS as [[[session|] isNew usedScopes] | e].
  2, 3: destruct Hrun as (-> & _); split; assumption.
  destruct Hrun as (trH & outH & wH & HH & Hrun).
  apply createHub_runs in HH as (_ & _ & HaH & _).
  assert (Hfinish : forall trT pre,
    omap auth_of pre = [] ->
    (exists w0 trU outU wU this3,
       exec h saveScopesInState this3 w0 = (trU, (outU, this3), wU)
       /\ match outU with
          | Thrown e => trT = trU
          | Returned _ => exists b1 b2 : bool,
              trT = trU ++ (if b1 then [Ev onDidInitialize_fire tt] else [])
                        ++ (if b2 then [Ev (telemetry_sendTelemetryEvent "auth.session") tt]
                            else [])
          end) ->
    omap auth_of (trS ++ trH ++ pre ++ trT) = omap auth_of trS).
  { intros trT pre Hpre (w0 & trU & outU & wU & this3 & HU & Hfin).
    apply saveScopesInState_runs in HU as (_ & HsU & HaU & _ & _ & _ & HoU & _).
    rewrite !omap_app, HaH, Hpre.
    destruct outU as [[] | e].
    - destruct Hfin as (b1 & b2 & ->).
      destruct (finish_quiet b1 b2 trU HsU HoU HaU) as (_ & _ & ->).
      rewrite !app_nil_r. reflexivity.
    - subst trT. rewrite HaU, !app_nil_r. reflexivity. }
  destruct outH as [github | e].
  - destruct Hrun as (trT & -> & w0 & trU & outU & wU & HU & Hfin).
    change (trS ++ trH ++ trT) with (trS ++ trH ++ [] ++ trT).
    rewrite (Hfinish trT (@nil (Event Call)) eq_refl); [split; assumption|].
    exists w0, trU, outU, wU. eexists. split; [exact HU|].
    destruct outU as [[] | e]; destruct Hfin as (-> & _); eauto.
  - destruct (String.eqb (message e) "Bad credentials" && negb (forced o)) eqn:Hretry.
    + destruct Hrun as (trN & -> & HN). apply IH in HN. cbv zeta in HN.
      apply andb_true_iff in Hretry as [_ Hnf]. apply negb_true_iff in Hnf.
      destruct HN as (HN1 & HN2). rewrite !omap_app, HaH, app_nil_l.
      split; [|rewrite Hnf; discriminate].
      intros p' sc o' ans Hin. apply elem_of_app in Hin as [Hin | Hin]; [exact (HS1 _ _ _ _ Hin)|].
      destruct (HN1 _ _ _ _ Hin) as (-> & [-> | (Hcontra & _)]); [|discriminate].
      split; [reflexivity|]. right. split; [exact Hnf | right].
      unfold defaultCreateIfNone at 1. simpl.
      destruct (createIfNone (defaultCreateIfNone o)); reflexivity.
    + destruct Hrun as (trT & -> & w0 & trU & outU & wU & HU & Hfin).
      change (trS ++ trH ++ ?e :: trT) with (trS ++ trH ++ [e] ++ trT).
      match goal with
      | |- context [trS ++ trH ++ [?ev] ++ trT] => rewrite (Hfinish trT [ev] eq_refl)
      end; [split; assumption|].
      exists w0, trU, outU, wU. eexists. split; [exact HU|].
      destruct outU as [[] | e']; destruct Hfin as (-> & _); eauto.
Qed.

End Store.

(** *** The theorems at concrete inputs *)

(** Signing in to github.com leaves the enterprise fields alone. *)
Lemma initialize_frame_witness :
  let '(_, (_, this'), _) :=
    exec Examples.sessionForOld
      (initialize (H:=Examples.credentialsHost) AuthProvider.github
         (mkOptions None None None) None None)
      Examples.store tt in
  _githubEnterpriseAPI this' = _githubEnterpriseAPI Examples.store
  /\ _enterpriseSessionId this' = _enterpriseSessionId Examples.store
  /\ _scopesEnterprise this' = _scopesEnterprise Examples.store.
Proof.
  exact (proj1 (proj2 (proj2
           (initialize_frame (H:=Examples.credentialsHost) 2 Examples.sessionForOld tt tt
              Examples.store _ AuthProvider.github (mkOptions None None None) None None
              _ _ eq_refl))) eq_refl).
Defined.

(** The first sign-in fires [onDidInitialize]: the store is initialized. *)
Lemma initialize_fires_witness :
  let '(_, (_, this'), _) :=
    exec Examples.sessionForOld
      (initialize (H:=Examples.credentialsHost) AuthProvider.github
         (mkOptions None None None) None None)
      Examples.store tt in
  _isInitialized this' = true.
Proof.
  exact (proj1
           (initialize_fires (H:=Examples.credentialsHost) 2 Examples.sessionForOld tt tt
              Examples.store _ AuthProvider.github (mkOptions None None None) None None
              _ _ eq_refl) eq_refl).
Defined.

(** Nobody is signed in and the additional scopes are required: the store
    is as before, but for [_scopes], which are the requested ones. *)
Lemma initialize_without_session_witness :
  let '(tr, (out, this'), _) :=
    exec MoreExamples.noSession
      (initialize (H:=Examples.credentialsHost) AuthProvider.github
         (mkOptions None None None) (Some SCOPES_WITH_ADDITIONAL) (Some true))
      Examples.store tt in
  omap octokit_of tr = [] /\ existsb fired tr = false /\ omap showError_of tr = []
  /\ (forall p, getHub (H:=Examples.credentialsHost) p this'
                = getHub (H:=Examples.credentialsHost) p Examples.store
                /\ sessionIdOf (H:=Examples.credentialsHost) p this'
                   = sessionIdOf (H:=Examples.credentialsHost) p Examples.store)
  /\ _isInitialized this' = _isInitialized Examples.store
  /\ this' = set_scopes SCOPES_WITH_ADDITIONAL Examples.store
  /\ out = Returned (Some (mkAuthResult false)).
Proof.
  exact (initialize_without_session (H:=Examples.credentialsHost) 2 MoreExamples.noSession
           tt tt Examples.store _ AuthProvider.github (mkOptions None None None)
           (Some SCOPES_WITH_ADDITIONAL) (Some true) _ _ eq_refl eq_refl).
Defined.

(** A store that was signed in loses its hub when the client cannot be
    rebuilt. *)
Lemma initialize_sign_in_error_witness :
  let '(tr, (_, this'), _) :=
    exec MoreExamples.hubFails
      (initialize (H:=Examples.credentialsHost) AuthProvider.github
         (mkOptions None None None) None None)
      MoreExamples.signedIn tt in
  getHub (H:=Examples.credentialsHost) AuthProvider.github this' = None
  /\ isAuthenticated (H:=Examples.credentialsHost) AuthProvider.github this' = false
  /\ omap showError_of tr = ["Unable to sign in with the provided credentials"].
Proof.
  apply (initialize_sign_in_error (H:=Examples.credentialsHost) 2 MoreExamples.hubFails
           tt tt MoreExamples.signedIn _ AuthProvider.github (mkOptions None None None)
           None None _ _ eq_refl).
  discriminate.
Defined.

(** The hub after the first sign-in carries the token of the session found. *)
Lemma initialize_hub_from_session_witness :
  let '(tr, (_, this'), _) :=
    exec Examples.sessionForOld
      (initialize (H:=Examples.credentialsHost) AuthProvider.github
         (mkOptions None None None) None None)
      Examples.store tt in
  exists github session,
    getHub (H:=Examples.credentialsHost) AuthProvider.github this' = Some github
    /\ last (omap session_of tr) = Some session
    /\ last (omap octokit_of tr) = Some (octokit github)
    /\ auth (octokit github) = accessToken session
    /\ sessionIdOf (H:=Examples.credentialsHost) AuthProvider.github this'
       = Some (session_id session).
Proof.
  destruct (initialize_hub_from_session (H:=Examples.credentialsHost) 2
              Examples.sessionForOld tt tt Examples.store _ AuthProvider.github
              (mkOptions None None None) None None _ _ _ eq_refl eq_refl)
    as [Hold | (session & Hrest)].
  - discriminate Hold.
  - eexists _, session. split; [reflexivity | exact Hrest].
Defined.

(** A forced sign-in that the user dismisses: one request, no retry. *)
Lemma initialize_requests_witness :
  let '(tr, _, _) :=
    exec Examples.consentRefused
      (initialize (H:=Examples.credentialsHost) AuthProvider.github
         (mkOptions None (Some (ForceBool true)) None) None None)
      Examples.store tt in
  length (omap auth_of tr) <= 1.
Proof.
  exact (proj2
           (initialize_requests (H:=Examples.credentialsHost) 2 Examples.consentRefused
              tt tt Examples.store _ AuthProvider.github
              (mkOptions None (Some (ForceBool true)) None) None None _ _ eq_refl)
           eq_refl).
Defined.

End InitializeFacts.

(** ** [PullRequestViewProvider]: the other handlers *)

Module PullRequestViewActionsFacts.
Import Webview PullRequestViewActions.

(** The run in [Hrun] of a review command is over. *)
Ltac leaf Hrun :=
  finish_run Hrun;
  (split; [reflexivity|]); (split; [reflexivity|]);
  (split; [eexists; split; reflexivity|]);
  eexists; (split; [reflexivity|]); (split; [reflexivity|]); split.

Section Handlers.
Context `{P.Host}.


(** A reviewer that the request names: its id is not empty and is the
    argument of the message. *)
Lemma targetReviewer_from_inv (args : Args) (reviewers : list P.ReviewState.t) :
  forall (index : nat) (targetReviewer : option nat),
    let named (r : P.ReviewState.t) :=
      truthy (reviewer_id (P.ReviewState.reviewer r))
      && is_args (reviewer_id (P.ReviewState.reviewer r)) args in
    match targetReviewer_from args reviewers index targetReviewer with
    | Some i =>
        (exists k r, i = index + k /\ reviewers !! k = Some r /\ named r = true
                     /\ forall j r', k < j -> reviewers !! j = Some r' -> named r' = false)
        \/ (targetReviewer = Some i /\ forall r, r ∈ reviewers -> named r = false)
    | None => targetReviewer = None /\ forall r, r ∈ reviewers -> named r = false
    end.
Proof.
  induction reviewers as [|reviewer rest IH]; intros index target named.
  - simpl. destruct target.
    + right. split; [reflexivity|]. intros r Hr. inversion Hr.
    + split; [reflexivity|]. intros r Hr. inversion Hr.
  - cbn [targetReviewer_from].
    set (id := reviewer_id (P.ReviewState.reviewer reviewer)).
    assert (Hstep : (if truthy id
                        && (String.eqb (P.ReviewState.state reviewer) "REQUESTED"
                            || is_args id args)
                     then (if is_args id args then Some index else target)
                     else target)
                    = if named reviewer then Some index else target).
    { unfold named. fold id. destruct (truthy id), (is_args id args); simpl;
        rewrite ?orb_true_r, ?orb_false_r;
        try destruct (String.eqb (P.ReviewState.state reviewer) "REQUESTED"); reflexivity. }
    rewrite Hstep. clear Hstep.
    specialize (IH (S index) (if named reviewer then Some index else target)).
    cbv zeta in IH. fold named in IH.
    destruct (targetReviewer_from args rest (S index) _) as [i|].
    + destruct IH as [(k & r & -> & Hk & Hnamed & Hlast) | (Ht & Hnone)].
      * left. exists (S k), r. repeat split; [lia | exact Hk | exact Hnamed |].
        intros [|j] r' Hj Hr'; [lia|]. apply (Hlast j r'); [lia | exact Hr'].
      * destruct (named reviewer) eqn:Hn.
        -- injection Ht as <-. left. exists 0, reviewer.
           repeat split; [lia | exact Hn |].
           intros [|j] r' Hj Hr'; [lia|]. apply Hnone.
           eapply list_elem_of_lookup_2. exact Hr'.
        -- right. split; [exact Ht|]. intros r Hr.
           apply elem_of_cons in Hr as [-> | Hr]; auto.
    + destruct IH as (Ht & Hnone). destruct (named reviewer) eqn:Hn; [discriminate|].
      split; [exact Ht|]. intros r Hr. apply elem_of_cons in Hr as [-> | Hr]; auto.
Qed.

Lemma alter_as_insert {A} (f : A -> A) (l : list A) (i : nat) (x : A) :
  l !! i = Some x -> alter f i l = <[i := f x]> l.
Proof.
  intros Hi. apply list_eq. intros j. destruct (decide (i = j)) as [<- | Hne].
  - rewrite list_lookup_alter_eq, Hi, list_lookup_insert_eq; [reflexivity|].
    eapply lookup_lt_Some; eauto.
  - rewrite list_lookup_alter_ne, list_lookup_insert_ne by exact Hne. reflexivity.
Qed.

(** X14. [reRequestReview] always asks for one re-request of review, and
    never throws.  The request names the last reviewer of
    [_existingReviewers] whose non-empty id is the argument of the message, as
    a user or as a team; when there is none, it is made with no reviewer at
    all.  When the request resolves, that reviewer's state becomes
    'REQUESTED', nothing else changes, and the reply carries the reviewers;
    when it is rejected, nothing changes and nothing is replied. *)
Theorem reRequestReview_last_match {W} (h : Handler Call W) (w w' : W)
    (this this' : P.PullRequestViewProvider) (message : IRequestMessage)
    (tr : list (Event Call)) (out : Outcome unit) :
  exec h (reRequestReview message) this w = (tr, (out, this'), w') ->
  let named (r : P.ReviewState.t) :=
    truthy (reviewer_id (P.ReviewState.reviewer r))
    && is_args (reviewer_id (P.ReviewState.reviewer r)) (args message) in
  let before := P._existingReviewers this in
  let after := P._existingReviewers this' in
  out = Returned tt
  /\ exists users teams ans,
      omap requestReview_of tr = [(users, teams, true, ans)]
      /\ ((forall r, r ∈ before -> named r = false) ->
            users = [] /\ teams = [] /\ after = before)
      /\ (forall i r,
            before !! i = Some r -> named r = true ->
            (forall j r', i < j -> before !! j = Some r' -> named r' = false) ->
            (users, teams) = match P.ReviewState.reviewer r with
                             | P.Account a => ([a], [])
                             | P.Team t => ([], [t])
                             end
            /\ after = match ans with
                       | inr _ => <[i := P.ReviewState.mk (P.ReviewState.reviewer r)
                                                          "REQUESTED"]> before
                       | inl _ => before
                       end)
      /\ omap reply_of tr = match ans with
                            | inr _ => [(message, ReplyReviewers after)]
                            | inl _ => []
                            end.
Proof.
  intros Hrun named before after. subst after.
  unfold reRequestReview in Hrun. rewrite exec_bind, exec_get in Hrun.
  cbv beta iota zeta in Hrun. fold before in Hrun.
  pose proof (targetReviewer_from_inv (args message) before 0 None) as Hinv.
  cbv zeta in Hinv. fold named in Hinv.
  destruct (targetReviewer_from (args message) before 0 None) as [i|].
  - destruct Hinv as [(k & r & -> & Hk & Hnamed & Hlast) | ([=] & _)].
    simpl in Hrun. rewrite Hk in Hrun. simpl in Hrun.
    assert (Huniq : forall i' r',
              before !! i' = Some r' -> named r' = true ->
              (forall j r'', i' < j -> before !! j = Some r'' -> named r'' = false) ->
              i' = k /\ r' = r).
    { intros i' r' Hi' Hn' Hlast'.
      destruct (Nat.lt_trichotomy i' k) as [Hlt | [-> | Hgt]].
      - rewrite (Hlast' k r Hlt Hk) in Hnamed. discriminate.
      - rewrite Hk in Hi'. injection Hi' as ->. auto.
      - rewrite (Hlast i' r' Hgt Hi') in Hn'. discriminate. }
    destruct r as [[a | t] state]; unfold exec, detached in Hrun; simpl in Hrun;
      next_call h Hrun; destruct ans as [e | []]; simpl in Hrun;
      try next_call h Hrun; finish_run Hrun;
      (split; [reflexivity|]); eexists _, _, _; (split; [reflexivity|]);
      (split; [intros Hnone; rewrite (Hnone _ (list_elem_of_lookup_2 _ _ _ Hk)) in Hnamed;
               discriminate|]);
      (split; [|reflexivity]);
      intros i' r' Hi' Hn' Hlast'; destruct (Huniq i' r' Hi' Hn' Hlast') as (-> & ->);
      (split; [reflexivity|]); simpl; fold before;
      try reflexivity; rewrite (alter_as_insert _ _ _ _ Hk); reflexivity.
  - destruct Hinv as (_ & Hnone).
    unfold exec, detached in Hrun; simpl in Hrun;
      next_call h Hrun; destruct ans as [e | []]; simpl in Hrun;
      try next_call h Hrun; finish_run Hrun;
      (split; [reflexivity|]); eexists _, _, _; (split; [reflexivity|]);
      (split; [intros _; auto|]); (split; [|reflexivity]);
      intros i' r' Hi' Hn' _;
      rewrite (Hnone _ (list_elem_of_lookup_2 _ _ _ Hi')) in Hn'; discriminate.
Qed.

(** The three review commands are [doReviewCommand] at their review type. *)
Lemma review_commands (context_body : string) :
  approvePullRequestCommand context_body
  = doReviewCommand context_body ReviewType.Approve
      (fun body => await (submit ReviewType.Approve body))
  /\ requestChangesCommand context_body
     = doReviewCommand context_body ReviewType.RequestChanges
         (fun body => await (submit ReviewType.RequestChanges body))
  /\ submitReviewCommand context_body
     = doReviewCommand context_body ReviewType.Comment
         (fun body => await (submit ReviewType.Comment body)).
Proof. repeat split. Qed.

(** X15. A review command never throws.  It first posts
    'pr.submitting-review' with its review type, then submits, and the last
    message it posts is 'pr.append-review' in every run, so that the webview
    leaves its submitting state.  The reviewers are updated exactly when the
    submission resolved, also when posting the review to the webview failed
    afterwards.  The posts of a run and their outcomes say which run it was:
    after a resolved submission the review is posted with the reviewers, and
    nothing is shown or sent as an error when that post resolved; when that
    post was rejected its error is shown and sent (for no request:
    [undefined]) and the bare 'pr.append-review' follows; after a rejected
    submission the error of the submission is shown and sent and the bare
    'pr.append-review' is the only other post.  An error is shown and sent
    at most once. *)
Theorem doReviewCommand_brackets {W} (h : Handler Call W) (w w' : W)
    (this this' : P.PullRequestViewProvider) (context_body : string)
    (reviewType : ReviewType.t) (tr : list (Event Call)) (out : Outcome unit) :
  exec h (doReviewCommand context_body reviewType
            (fun body => await (submit reviewType body))) this w
    = (tr, (out, this'), w') ->
  let failed (e : Error) :=
    omap showError_of tr = [P.l10n_t "Submitting review failed. {0}" [P.formatError e]]
    /\ omap throwError_of tr = [(None, P.ErrorText (P.formatError e))] in
  out = Returned tt
  /\ head (omap posted_of tr) = Some (SubmittingReview reviewType)
  /\ (exists m, last (omap posted_of tr) = Some m
                /\ posted_command m = Some "pr.append-review")
  /\ exists ans,
      omap submit_of tr = [(reviewType, context_body, ans)]
      /\ this' = match ans with
                 | inr review => P.updateReviewers (Some review) this
                 | inl _ => this
                 end
      /\ (forall e, ans = inl e ->
            failed e /\ last (omap posted_of tr) = Some AppendReviewBare)
      /\ match omap post_of tr with
         | [(submitting, _); (AppendReview review reviewers, inr _)] =>
             submitting = SubmittingReview reviewType
             /\ ans = inr review /\ reviewers = P._existingReviewers this'
             /\ omap showError_of tr = [] /\ omap throwError_of tr = []
         | [(submitting, _); (AppendReview review reviewers, inl e);
            (AppendReviewBare, _)] =>
             submitting = SubmittingReview reviewType
             /\ ans = inr review /\ reviewers = P._existingReviewers this'
             /\ failed e
         | [(submitting, _); (AppendReviewBare, _)] =>
             submitting = SubmittingReview reviewType
             /\ exists e, ans = inl e /\ failed e
         | _ => False
         end.
Proof.
  intros Hrun failed. subst failed.
  unfold exec, doReviewCommand, detached in Hrun. simpl in Hrun.
  next_call h Hrun. destruct ans as [e1 | []]; simpl in Hrun;
    next_call h Hrun; destruct ans as [e | review]; simpl in Hrun.
  1, 3: do 3 next_call h Hrun;
        repeat match goal with a : (Error + unit)%type |- _ => destruct a as [? | []] end;
        simpl in Hrun;
        (leaf Hrun;
         [intros e' [= <-]; repeat split
         | cbn; (split; [reflexivity|]); eexists; repeat split]).
  all: next_call h Hrun; destruct ans as [e | []]; simpl in Hrun.
  1, 3: do 3 next_call h Hrun;
        repeat match goal with a : (Error + unit)%type |- _ => destruct a as [? | []] end;
        simpl in Hrun;
        (leaf Hrun; [intros e' [=] | cbn; repeat split]).
  all: leaf Hrun; [intros e' [=] | cbn; repeat split].
Qed.

(** X16. [setReadyForReview] never throws and leaves the fields alone.  It
    answers the message exactly once: with the result when the request
    resolved, and with the error [{}], after showing the formatted error, when
    it was rejected. *)
Theorem setReadyForReview_answers_once {W} (h : Handler Call W) (w w' : W)
    (this this' : P.PullRequestViewProvider) (message : IRequestMessage)
    (tr : list (Event Call)) (out : Outcome unit) :
  exec h (setReadyForReview message) this w = (tr, (out, this'), w') ->
  out = Returned tt /\ this' = this
  /\ length (omap reply_of tr) + length (omap throwError_of tr) = 1
  /\ let ans := (h _ item_setReadyForReview w).1 in
     head tr = Some (Ev item_setReadyForReview ans)
     /\ match ans with
        | inr result =>
            omap reply_of tr = [(message, ReplyReady result)]
            /\ omap showError_of tr = []
        | inl e =>
            omap throwError_of tr = [(Some message, P.ErrorEmpty)]
            /\ omap showError_of tr
               = [P.l10n_t "Unable to set PR ready for review. {0}" [P.formatError e]]
        end.
Proof.
  intros Hrun. unfold exec, setReadyForReview, detached in Hrun. simpl in Hrun.
  next_call h Hrun. cbv zeta. cbn [fst]. destruct ans as [e | result]; simpl in Hrun.
  - do 2 next_call h Hrun. finish_run Hrun. repeat split.
  - next_call h Hrun. finish_run Hrun. repeat split.
Qed.

(** X17. [close] and [createComment] never throw, leave the fields alone,
    and never report a failure: when their request is rejected, nothing is
    replied, no error is sent to the webview and none is shown.  [close]
    replies only when the command resolved to a comment, [createComment]
    whenever the comment was created; the reply carries the comment. *)
Theorem close_and_createComment_drop_failures {W} (h : Handler Call W) (w w' : W)
    (this this' : P.PullRequestViewProvider) (message : IRequestMessage)
    (tr : list (Event Call)) (out : Outcome unit) (closing : bool) :
  exec h (if closing then close message else createComment message) this w
    = (tr, (out, this'), w') ->
  out = Returned tt /\ this' = this
  /\ omap throwError_of tr = [] /\ omap showError_of tr = []
  /\ (if closing
      then let ans := (h _ (commands_executeCommand_pr_close (args message)) w).1 in
           head tr = Some (Ev (commands_executeCommand_pr_close (args message)) ans)
           /\ omap reply_of tr = match ans with
                                 | inr (Some comment) => [(message, ReplyValue comment)]
                                 | _ => []
                                 end
      else let ans := (h _ (item_createIssueComment (args message)) w).1 in
           head tr = Some (Ev (item_createIssueComment (args message)) ans)
           /\ omap reply_of tr = match ans with
                                 | inr comment => [(message, ReplyValue comment)]
                                 | inl _ => []
                                 end).
Proof.
  intros Hrun. destruct closing; unfold exec, close, createComment, detached in Hrun;
    simpl in Hrun; next_call h Hrun; cbv zeta; cbn [fst].
  - destruct ans as [e | [comment|]]; simpl in Hrun; try next_call h Hrun;
      finish_run Hrun; repeat split.
  - destruct ans as [e | comment]; simpl in Hrun; try next_call h Hrun;
      finish_run Hrun; repeat split.
Qed.

(** X18. [deleteBranch] throws exactly when the deletion was rejected, and
    then sends nothing.  Otherwise it passes the message of the result on
    exactly once: as the reply to the request when the result says so, and as
    a posted message when not. *)
Theorem deleteBranch_answers {W} (h : Handler Call W) (w w' : W)
    (this this' : P.PullRequestViewProvider) (message : IRequestMessage)
    (tr : list (Event Call)) (out : Outcome unit) :
  exec h (deleteBranch message) this w = (tr, (out, this'), w') ->
  this' = this
  /\ let ans := (h _ PullRequestView_deleteBranch w).1 in
     head tr = Some (Ev PullRequestView_deleteBranch ans)
     /\ match ans with
        | inl e => out = Thrown e /\ length tr = 1
        | inr result =>
            out = Returned tt
            /\ omap reply_of tr
               = (if isReply result then [(message, ReplyMessage (result_message result))]
                  else [])
            /\ omap posted_of tr
               = (if isReply result then []
                  else [PostedMessage (result_message result)])
        end.
Proof.
  intros Hrun. unfold exec, deleteBranch, detached in Hrun. simpl in Hrun.
  next_call h Hrun. cbv zeta. cbn [fst]. destruct ans as [e | result]; simpl in Hrun.
  - finish_run Hrun. repeat split.
  - destruct (isReply result) eqn:Hreply; simpl in Hrun; next_call h Hrun;
      try destruct ans; simpl in Hrun; finish_run Hrun;
      cbv beta iota; rewrite ?Hreply; repeat split.
Qed.

End Handlers.

(** *** The theorems at concrete inputs *)


(** Bob is asked again: his entry, the second, is 'REQUESTED'. *)
Lemma reRequestReview_last_match_witness :
  let '(tr, (_, this'), _) :=
    exec (MoreExamples.obliging false)
      (reRequestReview MoreExamples.reRequestBob) MoreExamples.reviewed tt in
  omap requestReview_of tr = [([Examples.bob], [], true, inr tt)]
  /\ P._existingReviewers this'
     = <[1 := P.ReviewState.mk (P.Account Examples.bob) "REQUESTED"]>
         (P._existingReviewers MoreExamples.reviewed).
Proof.
  destruct (reRequestReview_last_match (MoreExamples.obliging false) tt _
              MoreExamples.reviewed _ MoreExamples.reRequestBob _ _ eq_refl)
    as (_ & users & teams & ans & Hreq & _ & Hnamed & _).
  injection Hreq as <- <- <-.
  split; [reflexivity|].
  refine (proj2 (Hnamed 1 (P.ReviewState.mk (P.Account Examples.bob) "COMMENTED")
                   eq_refl eq_refl _)).
  intros [|[|[|j]]] r' Hj Hr'; try lia; [|discriminate Hr'].
  injection Hr' as <-. reflexivity.
Defined.

(** An approval from the command palette that is submitted, but cannot be
    shown in the webview: the reviewers are updated, and the error of the
    post is shown and sent for no request. *)
Lemma doReviewCommand_brackets_witness :
  let '(tr, (out, this'), _) :=
    exec MoreExamples.disposed
      (approvePullRequestCommand (H:=Examples.viewHost) "LGTM") MoreExamples.reviewed tt in
  out = Returned tt
  /\ this' = P.updateReviewers (H:=Examples.viewHost) (Some Examples.approval)
               MoreExamples.reviewed
  /\ omap showError_of tr = ["Submitting review failed. {0}"]
  /\ omap throwError_of tr = [(None, P.ErrorText "Webview is disposed")]
  /\ last (omap posted_of tr) = Some AppendReviewBare.
Proof.
  destruct (doReviewCommand_brackets (H:=Examples.viewHost) MoreExamples.disposed
              tt _ MoreExamples.reviewed _ "LGTM" ReviewType.Approve _ _ eq_refl)
    as (Hout & _ & _ & ans & Hsubmit & Hthis & _ & Hposts).
  injection Hsubmit as <-. destruct Hposts as (_ & _ & _ & Hshown & Hsent).
  split; [exact Hout|]. split; [exact Hthis|]. split; [exact Hshown|].
  split; [exact Hsent | reflexivity].
Defined.

(** The pull request cannot be set ready: one error, no reply. *)
Lemma setReadyForReview_answers_once_witness :
  let '(tr, (out, _), _) :=
    exec (MoreExamples.obliging true)
      (setReadyForReview (H:=Examples.viewHost) MoreExamples.checkoutMessage)
      MoreExamples.reviewed tt in
  out = Returned tt
  /\ length (omap reply_of tr) + length (omap throwError_of tr) = 1.
Proof.
  destruct (setReadyForReview_answers_once (H:=Examples.viewHost)
              (MoreExamples.obliging true) tt _ MoreExamples.reviewed _
              MoreExamples.checkoutMessage _ _ eq_refl)
    as (Hout & _ & Hone & _).
  split; assumption.
Defined.

(** Closing resolves without a comment: nothing is replied. *)
Lemma close_and_createComment_drop_failures_witness :
  let '(tr, (out, _), _) :=
    exec (MoreExamples.obliging false)
      (close MoreExamples.checkoutMessage) MoreExamples.reviewed tt in
  out = Returned tt /\ omap throwError_of tr = [] /\ omap showError_of tr = []
  /\ omap reply_of tr = [].
Proof.
  destruct (close_and_createComment_drop_failures (MoreExamples.obliging false) tt _
              MoreExamples.reviewed _ MoreExamples.checkoutMessage _ _ true eq_refl)
    as (Hout & _ & Hthrow & Hshow & _ & Hreply).
  repeat split; assumption.
Defined.

(** The branch is deleted and the result is a reply. *)
Lemma deleteBranch_answers_witness :
  let '(tr, (out, _), _) :=
    exec (MoreExamples.obliging false)
      (deleteBranch MoreExamples.checkoutMessage) MoreExamples.reviewed tt in
  out = Returned tt
  /\ omap reply_of tr = [(MoreExamples.checkoutMessage, ReplyMessage "deleted")]
  /\ omap posted_of tr = [].
Proof.
  destruct (deleteBranch_answers (MoreExamples.obliging false) tt _
              MoreExamples.reviewed _ MoreExamples.checkoutMessage _ _ eq_refl)
    as (_ & _ & Hans).
  exact Hans.
Defined.

End PullRequestViewActionsFacts.

(** ** The create view: labels, assignees, reviewers, defaults *)

Module CreateViewFacts.
Import CreateView.

Lemma filter_length_forallb {A} (f : A -> bool) (l : list A) :
  length (List.filter f l) = length l <-> forallb f l = true.
Proof.
  induction l as [|a l IH]; simpl; [tauto|].
  pose proof (List.filter_length_le f l) as Hle.
  destruct (f a); simpl.
  - rewrite <- IH. lia.
  - split; [lia | discriminate].
Qed.

(** [removeLabel], as one step. *)
Lemma removeLabel_run {W} (h : Handler Call W) (w : W) (this : Fields) (label : ILabel) :
  exec h (removeLabel (Some label)) this w =
    let kept := List.filter (fun l => negb (String.eqb (name l) (name label)))
                            (labels this) in
    if (length (labels this) =? length kept)%nat
    then ([], (Returned tt, set_labels kept this), w)
    else let '(r, w1) := h _ (_postMessage (SetLabels kept)) w in
         ([Ev (_postMessage (SetLabels kept)) r], (Returned tt, set_labels kept this), w1).
Proof.
  unfold removeLabel. rewrite exec_bind, exec_get. cbv beta iota zeta.
  rewrite exec_bind, exec_modify. cbv beta iota zeta.
  rewrite exec_bind, exec_get. cbv beta iota zeta. cbn [labels set_labels].
  destruct (length (labels this) =? length _)%nat.
  - rewrite exec_ret. reflexivity.
  - rewrite exec_detached, exec_await.
    destruct (h _ _ w) as [[e | []] w1]; reflexivity.
Qed.

(** X19. [removeLabel] never throws and touches only the labels.  After it
    no label has the name of the one removed, and the other labels are kept,
    in their order.  The new labels are posted ('set-labels') exactly when a
    label had that name; removing the same label once more changes nothing
    and posts nothing. *)
Theorem removeLabel_by_name {W} (h : Handler Call W) (w w' : W) (this this' : Fields)
    (label : ILabel) (tr : list (Event Call)) (out : Outcome unit) :
  exec h (removeLabel (Some label)) this w = (tr, (out, this'), w') ->
  let named (l : ILabel) := String.eqb (name l) (name label) in
  out = Returned tt
  /\ assignees this' = assignees this
  /\ labels this' = List.filter (fun l => negb (named l)) (labels this)
  /\ (forall l, l ∈ labels this' <-> l ∈ labels this /\ name l <> name label)
  /\ omap posted_of tr
     = (if existsb named (labels this) then [SetLabels (labels this')] else [])
  /\ (forall W2 (h2 : Handler Call W2) (w2 : W2),
        exec h2 (removeLabel (Some label)) this' w2 = ([], (Returned tt, this'), w2)).
Proof.
  intros Hrun named. rewrite removeLabel_run in Hrun. cbv zeta in Hrun.
  subst named. cbv beta.
  set (kept := List.filter (fun l => negb (String.eqb (name l) (name label)))
                           (labels this)) in *.
  assert (Hkept : forall l, l ∈ kept <-> l ∈ labels this /\ name l <> name label).
  { intros l. unfold kept. rewrite !list_elem_of_In, filter_In.
    rewrite negb_true_iff, String.eqb_neq. reflexivity. }
  assert (Hidem : List.filter (fun l => negb (String.eqb (name l) (name label))) kept
                  = kept).
  { apply forallb_filter_id, forallb_forall. intros l Hl. apply filter_In in Hl. tauto. }
  assert (Hagain : forall W2 (h2 : Handler Call W2) (w2 : W2),
            exec h2 (removeLabel (Some label)) (set_labels kept this) w2
            = ([], (Returned tt, set_labels kept this), w2)).
  { intros W2 h2 w2. rewrite removeLabel_run. cbv zeta. cbn [labels set_labels].
    rewrite Hidem, Nat.eqb_refl. reflexivity. }
  assert (Hex : existsb (fun l => String.eqb (name l) (name label)) (labels this)
                = negb (length (labels this) =? length kept)%nat).
  { destruct (length (labels this) =? length kept)%nat eqn:Hlen; simpl.
    - apply Nat.eqb_eq in Hlen. symmetry in Hlen.
      apply filter_length_forallb in Hlen.
      apply not_true_is_false. intros Hx. apply existsb_exists in Hx as (l & Hl & Hn).
      rewrite forallb_forall in Hlen. specialize (Hlen l Hl). simpl in Hlen.
      rewrite Hn in Hlen. discriminate.
    - apply Nat.eqb_neq in Hlen.
      apply not_false_is_true. intros Hx. apply Hlen. symmetry.
      apply filter_length_forallb, forallb_forall. intros l Hl.
      apply negb_true_iff. apply not_true_is_false. intros Hn.
      assert (existsb (fun l => String.eqb (name l) (name label)) (labels this) = true)
        as Ht by (apply existsb_exists; eauto).
      congruence. }
  rewrite Hex.
  destruct (length (labels this) =? length kept)%nat; simpl.
  - injection Hrun as <- <- <- <-.
    do 3 (split; [reflexivity|]). split; [exact Hkept|]. split; [reflexivity | exact Hagain].
  - destruct (h _ _ w) as [r w1]. injection Hrun as <- <- <- <-.
    do 3 (split; [reflexivity|]). split; [exact Hkept|]. split; [reflexivity | exact Hagain].
Qed.

(** The filter of [addAssignees]: the logins kept are distinct and were not
    seen before; every login that was not seen before is kept, at its first
    item; the order is that of the items. *)
Lemma addedAssignees_from_spec (assigneesToAdd : list (option P.IAccount)) :
  forall seenNewAssignees : gset string,
    let result := addedAssignees_from seenNewAssignees assigneesToAdd in
    NoDup (P.login <$> result)
    /\ (forall a, a ∈ result ->
          (P.login a ∉ seenNewAssignees)
          /\ exists i, assigneesToAdd !! i = Some (Some a)
                       /\ forall j b, j < i -> assigneesToAdd !! j = Some (Some b) ->
                                       P.login b <> P.login a)
    /\ (forall a, Some a ∈ assigneesToAdd -> P.login a ∉ seenNewAssignees ->
          P.login a ∈ (P.login <$> result))
    /\ sublist result (omap id assigneesToAdd).
Proof.
  induction assigneesToAdd as [|[a|] rest IH]; intros seen; cbn [addedAssignees_from].
  - repeat split.
    + constructor.
    + inversion H.
    + inversion H.
    + intros a Ha. inversion Ha.
    + constructor.
  - destruct (decide (P.login a ∈ seen)) as [Hseen | Hnew].
    + destruct (IH seen) as (Hnodup & Hin & Hall & Hsub). cbv zeta.
      split; [exact Hnodup|]. split; [|split].
      * intros r Hr. destruct (Hin r Hr) as (Hr1 & i & Hi & Hfirst).
        split; [exact Hr1|]. exists (S i). split; [exact Hi|].
        intros [|j] b Hj Hb; simpl in Hb.
        -- injection Hb as <-. intros Heq. rewrite Heq in Hseen. contradiction.
        -- apply (Hfirst j b); [lia | exact Hb].
      * intros a' Ha' Hnew'. apply elem_of_cons in Ha' as [[= ->] | Ha'];
          [contradiction | apply Hall; assumption].
      * simpl. apply sublist_cons. exact Hsub.
    + destruct (IH ({[P.login a]} ∪ seen)) as (Hnodup & Hin & Hall & Hsub). cbv zeta.
      split; [|split; [|split]].
      * rewrite fmap_cons. apply NoDup_cons. split; [|exact Hnodup].
        intros Hdup. apply list_elem_of_fmap in Hdup as (r & Heq & Hr).
        destruct (Hin r Hr) as (Hr1 & _). apply Hr1. rewrite <- Heq.
        apply elem_of_union_l, elem_of_singleton. reflexivity.
      * intros r Hr. apply elem_of_cons in Hr as [-> | Hr].
        -- split; [exact Hnew|]. exists 0. split; [reflexivity|]. intros j b Hj. lia.
        -- destruct (Hin r Hr) as (Hr1 & i & Hi & Hfirst).
           split; [intros Hseen; apply Hr1, elem_of_union_r, Hseen|]. exists (S i). split; [exact Hi|].
           intros [|j] b Hj Hb; simpl in Hb.
           ++ injection Hb as <-. intros Heq. apply Hr1. rewrite Heq.
              apply elem_of_union_l, elem_of_singleton. reflexivity.
           ++ apply (Hfirst j b); [lia | exact Hb].
      * intros a' Ha' Hnew'. rewrite fmap_cons.
        destruct (decide (P.login a' = P.login a)) as [-> | Hne]; [left|].
        apply elem_of_cons in Ha' as [[= ->] | Ha']; [left|].
        right. apply Hall; [exact Ha'|].
        intros [Hsame%elem_of_singleton | Hseen]%elem_of_union; contradiction.
      * simpl. apply sublist_skip. exact Hsub.
  - destruct (IH seen) as (Hnodup & Hin & Hall & Hsub). cbv zeta.
    split; [exact Hnodup|]. split; [|split].
    + intros r Hr. destruct (Hin r Hr) as (Hr1 & i & Hi & Hfirst).
      split; [exact Hr1|]. exists (S i). split; [exact Hi|].
      intros [|j] b Hj Hb; simpl in Hb; [discriminate|].
      apply (Hfirst j b); [lia | exact Hb].
    + intros a' Ha' Hnew'. apply elem_of_cons in Ha' as [[=] | Ha'].
      apply Hall; assumption.
    + simpl. exact Hsub.
Qed.

(** X20. [addAssignees] replaces the assignees by the users of the items
    picked, with one account for every login: the first item that has it; the
    order of the items is kept, items without a user are left out, and the
    new assignees are posted ('set-assignees').  When the quick pick is
    dismissed or fails, nothing changes and nothing is posted. *)
Theorem addAssignees_distinct {W} (h : Handler Call W) (w w' : W) (this this' : Fields)
    (tr : list (Event Call)) (out : Outcome unit) :
  exec h addAssignees this w = (tr, (out, this'), w') ->
  labels this' = labels this
  /\ match (h _ (showQuickPick_assignees (assignees this)) w).1 with
     | inl e => out = Thrown e /\ this' = this /\ omap posted_of tr = []
     | inr None => out = Returned tt /\ this' = this /\ omap posted_of tr = []
     | inr (Some assigneesToAdd) =>
         out = Returned tt
         /\ omap posted_of tr = [SetAssignees (assignees this')]
         /\ NoDup (P.login <$> assignees this')
         /\ sublist (assignees this') (omap id assigneesToAdd)
         /\ (forall a, Some a ∈ assigneesToAdd ->
               P.login a ∈ (P.login <$> assignees this'))
         /\ (forall a, a ∈ assignees this' ->
               exists i, assigneesToAdd !! i = Some (Some a)
                         /\ forall j b, j < i -> assigneesToAdd !! j = Some (Some b) ->
                                         P.login b <> P.login a)
     end.
Proof.
  intros Hrun. unfold addAssignees in Hrun.
  rewrite exec_bind, exec_get in Hrun. cbv beta iota zeta in Hrun.
  rewrite exec_bind, exec_await in Hrun.
  destruct (h _ (showQuickPick_assignees (assignees this)) w) as [picked w1].
  cbn [fst]. destruct picked as [e | [items|]]; cbv beta iota zeta in Hrun.
  - injection Hrun as <- <- <- <-. repeat split.
  - rewrite exec_bind, exec_modify in Hrun. cbv beta iota zeta in Hrun.
    rewrite exec_bind, exec_get in Hrun. cbv beta iota zeta in Hrun.
    rewrite exec_detached, exec_await in Hrun. cbn [assignees set_assignees] in Hrun.
    destruct (h _ _ w1) as [r w2]. injection Hrun as <- <- <- <-.
    destruct (addedAssignees_from_spec items ∅) as (Hnodup & Hin & Hall & Hsub).
    cbn [labels assignees set_assignees]. split; [reflexivity|].
    split; [reflexivity|]. split; [reflexivity|]. split; [exact Hnodup|].
    split; [exact Hsub|]. split.
    + intros a Ha. apply Hall; [exact Ha | apply not_elem_of_empty].
    + intros a Ha. apply (Hin a Ha).
  - rewrite exec_ret in Hrun. injection Hrun as <- <- <- <-. repeat split.
Qed.

(** The loop of [setReviewers] appends the accounts to [users] and the teams
    to [teams], in their order. *)
Lemma partitionReviewers_spec (reviewers : list P.Reviewer) :
  forall users teams,
    partitionReviewers reviewers users teams
    = (users ++ omap (fun r => match r with P.Account a => Some a | P.Team _ => None end)
                     reviewers,
       teams ++ omap (fun r => match r with P.Team t => Some t | P.Account _ => None end)
                     reviewers).
Proof.
  induction reviewers as [|[a | t] rest IH]; intros users teams; simpl.
  - rewrite !app_nil_r. reflexivity.
  - rewrite IH, <- app_assoc. reflexivity.
  - rewrite IH, <- app_assoc. reflexivity.
Qed.

(** X21. [setReviewers] asks for nothing when there is no reviewer, and
    otherwise makes one request: for the users and the teams among the
    reviewers, each in their order, every reviewer in exactly one of the two
    lists, with the re-request flag set. *)
Theorem setReviewers_partition {W} (h : Handler Call W) (w w' : W) (this this' : Fields)
    (reviewers : list P.Reviewer) (tr : list (Event Call)) (out : Outcome unit) :
  exec h (setReviewers reviewers) this w = (tr, (out, this'), w') ->
  let users := omap (fun r => match r with P.Account a => Some a | P.Team _ => None end)
                    reviewers in
  let teams := omap (fun r => match r with P.Team t => Some t | P.Account _ => None end)
                    reviewers in
  this' = this
  /\ omap requestReview_of tr
     = match reviewers with [] => [] | _ => [(users, teams, true)] end
  /\ length tr = length (omap requestReview_of tr)
  /\ length users + length teams = length reviewers
  /\ (forall r, r ∈ reviewers <->
         (exists a, r = P.Account a /\ a ∈ users) \/ (exists t, r = P.Team t /\ t ∈ teams)).
Proof.
  intros Hrun users teams.
  assert (Hlen : length users + length teams = length reviewers).
  { subst users teams. clear Hrun.
    induction reviewers as [|[a | t] rest IH]; simpl;
      [reflexivity | f_equal; exact IH | rewrite Nat.add_succ_r; f_equal; exact IH]. }
  assert (Hmem : forall r, r ∈ reviewers <->
            (exists a, r = P.Account a /\ a ∈ users)
            \/ (exists t, r = P.Team t /\ t ∈ teams)).
  { intros r. subst users teams. split.
    - intros Hr. destruct r as [a | t]; [left; exists a | right; exists t];
        (split; [reflexivity|]); apply list_elem_of_omap; eexists; split; eauto.
    - intros [(a & -> & Ha) | (t & -> & Ht)].
      + apply list_elem_of_omap in Ha as ([a' | t'] & Hr & Heq); simplify_eq. exact Hr.
      + apply list_elem_of_omap in Ht as ([a' | t'] & Hr & Heq); simplify_eq. exact Hr. }
  unfold setReviewers in Hrun. destruct reviewers as [|r0 rest].
  - change (0 <? length (@nil P.Reviewer))%nat with false in Hrun. cbv iota in Hrun.
    rewrite exec_ret in Hrun. injection Hrun as <- <- <- <-. repeat split; auto;
      apply Hmem.
  - change (0 <? length (r0 :: rest))%nat with true in Hrun. cbv iota in Hrun.
    rewrite partitionReviewers_spec in Hrun.
    cbn [app] in Hrun. fold users teams in Hrun. rewrite exec_await in Hrun.
    destruct (h _ _ w) as [[e | []] w1]; injection Hrun as <- <- <- <-;
      repeat split; auto; apply Hmem.
Qed.

(** X22. [setLabels], [setMilestone], [setProjects] and [enableAutoMerge]
    make one request on the pull request when there is something to set, and
    none when there is not: no label, no milestone, no project, auto-merge
    not asked for or without a merge method. *)
Theorem setters_guarded {W} (h : Handler Call W) (w : W) (this : Fields) :
  (forall labels,
     (exec h (setLabels labels) this w).1.1
     = match labels with
       | [] => []
       | _ => [Ev (pr_setLabels (name <$> labels)) (h _ (pr_setLabels (name <$> labels)) w).1]
       end)
  /\ (forall milestone,
        (exec h (setMilestone milestone) this w).1.1
        = match milestone with
          | None => []
          | Some m => [Ev (pr_updateMilestone (milestone_id m))
                          (h _ (pr_updateMilestone (milestone_id m)) w).1]
          end)
  /\ (forall projects,
        (exec h (setProjects projects) this w).1.1
        = match projects with
          | [] => []
          | _ => [Ev (pr_updateProjects projects) (h _ (pr_updateProjects projects) w).1]
          end)
  /\ (forall autoMerge automergeMethod,
        (exec h (enableAutoMerge autoMerge automergeMethod) this w).1.1
        = match automergeMethod with
          | Some method =>
              if autoMerge && truthy method
              then [Ev (pr_enableAutoMerge method) (h _ (pr_enableAutoMerge method) w).1]
              else []
          | None => []
          end).
Proof.
  split; [|split; [|split]].
  - intros [|l rest]; [reflexivity|]. unfold setLabels. cbn [length Nat.ltb Nat.leb].
    rewrite exec_await. destruct (h _ _ w) as [[e | []] w1]; reflexivity.
  - intros [m|]; [|reflexivity]. unfold setMilestone.
    rewrite exec_await. destruct (h _ _ w) as [[e | []] w1]; reflexivity.
  - intros [|p rest]; [reflexivity|]. unfold setProjects. cbn [length Nat.ltb Nat.leb].
    rewrite exec_await. destruct (h _ _ w) as [[e | []] w1]; reflexivity.
  - intros autoMerge [method|]; [|reflexivity]. unfold enableAutoMerge.
    destruct (autoMerge && truthy method); [|reflexivity].
    rewrite exec_await. destruct (h _ _ w) as [[e | []] w1]; reflexivity.
Qed.

Lemma List_filter_sublist {A} (f : A -> bool) (l : list A) :
  sublist (List.filter f l) l.
Proof.
  induction l as [|x l IH]; simpl; [constructor|].
  destruct (f x); [apply sublist_skip | apply sublist_cons]; exact IH.
Qed.

(** X23. [getPullRequestDefaultLabels] fetches the labels of the repository
    only when the workspace or the user settings name a label.  What it
    returns are the fetched labels whose name is among those settings, in the
    order in which they were fetched: never a label that the repository does
    not have. *)
Theorem getPullRequestDefaultLabels_from_repository {W} (h : Handler Call W) (w w' : W)
    (this this' : Fields) (defaultBaseRemote : RemoteInfo)
    (tr : list (Event Call)) (out : Outcome (list ILabel)) :
  exec h (getPullRequestDefaultLabels defaultBaseRemote) this w = (tr, (out, this'), w') ->
  let settings := (h _ inspect_PULL_REQUEST_LABELS w).1 in
  let values :=
    match settings with
    | Some s => default [] (workspaceValue s) ++ default [] (globalValue s)
    | None => []
    end in
  this' = this
  /\ (values = [] -> out = Returned [] /\ omap getLabels_of tr = [])
  /\ (values <> [] ->
        omap getLabels_of tr
        = [(info_owner defaultBaseRemote, info_repositoryName defaultBaseRemote)]
        /\ match (h _ (getLabels (info_owner defaultBaseRemote)
                         (info_repositoryName defaultBaseRemote))
                    (h _ inspect_PULL_REQUEST_LABELS w).2).1 with
           | inl e => out = Thrown e
           | inr fetched =>
               exists result,
                 out = Returned result
                 /\ sublist result fetched
                 /\ (forall label, label ∈ result <->
                                    label ∈ fetched /\ name label ∈ values)
           end).
Proof.
  intros Hrun. unfold getPullRequestDefaultLabels in Hrun.
  rewrite exec_bind, exec_call in Hrun.
  destruct (h _ inspect_PULL_REQUEST_LABELS w) as [settings w1]. cbn [fst snd].
  cbv beta iota zeta in Hrun. destruct settings as [s|].
  2: { rewrite exec_ret in Hrun. injection Hrun as <- <- <- <-.
       split; [reflexivity|]. split; [auto | intros Hne; contradiction]. }
  cbv beta iota zeta.
  set (values := default [] (workspaceValue s) ++ default [] (globalValue s)) in *.
  destruct (length values =? 0)%nat eqn:Hlen.
  { apply Nat.eqb_eq, nil_length_inv in Hlen. rewrite exec_ret in Hrun.
    injection Hrun as <- <- <- <-.
    split; [reflexivity|]. split; [auto | intros Hne; contradiction]. }
  assert (Hne : values <> []) by (intros Heq; rewrite Heq in Hlen; discriminate).
  rewrite exec_bind, exec_await in Hrun.
  destruct (h _ _ w1) as [[e | fetched] w2]; cbv beta iota zeta in Hrun.
  - injection Hrun as <- <- <- <-.
    split; [reflexivity|]. split; [intros Heq; contradiction|]. intros _.
    split; reflexivity.
  - rewrite exec_ret in Hrun. injection Hrun as <- <- <- <-.
    split; [reflexivity|]. split; [intros Heq; contradiction|]. intros _.
    split; [reflexivity|].
    eexists. split; [reflexivity|]. split.
    + apply List_filter_sublist.
    + intros label. rewrite !list_elem_of_In, filter_In, existsb_exists.
      split.
      * intros (Hin & x & Hx & Heq). apply String.eqb_eq in Heq. subst x.
        split; [exact Hin | exact Hx].
      * intros (Hin & Hname). split; [exact Hin|]. exists (name label).
        split; [exact Hname | apply String.eqb_refl].
Qed.

(** X24. The default of the auto-merge box is computed in [getCreateParams]
    and, for a new base, in [processRemoteAndBranchResult]: the two agree.  It
    is set only when the viewer can auto-merge, and then when the setting is
    'createAutoMerge', or is 'lastUsed' and the last pull request was created
    with auto-merge.  The draft default is set by 'createDraft', or by
    'lastUsed' after a draft; the merge method is that of the repository
    unless the setting is 'lastUsed' and a method is remembered. *)
Theorem autoMergeDefault_agrees (defaultCreateOption : DefaultCreateOption.t)
    (lastCreateMethod : option CreateMethod) (repoMergeMethod : string)
    (viewerCanAutoMerge : bool) :
  let '(defaultMergeMethod, isDraftDefault, autoMergeDefault) :=
    getCreateParams_defaults defaultCreateOption lastCreateMethod repoMergeMethod
      viewerCanAutoMerge in
  let last (f : CreateMethod -> bool) := default false (f <$> lastCreateMethod) in
  autoMergeDefault
  = processRemoteAndBranchResult_autoMergeDefault defaultCreateOption lastCreateMethod
      viewerCanAutoMerge
  /\ autoMergeDefault
     = viewerCanAutoMerge
       && match defaultCreateOption with
          | DefaultCreateOption.createAutoMerge => true
          | DefaultCreateOption.lastUsed => last last_autoMerge
          | _ => false
          end
  /\ isDraftDefault
     = match defaultCreateOption with
       | DefaultCreateOption.createDraft => true
       | DefaultCreateOption.lastUsed => last last_isDraft
       | _ => false
       end
  /\ defaultMergeMethod
     = match defaultCreateOption with
       | DefaultCreateOption.lastUsed =>
           default repoMergeMethod (lastCreateMethod ≫= last_mergeMethod)
       | _ => repoMergeMethod
       end.
Proof.
  unfold getCreateParams_defaults, processRemoteAndBranchResult_autoMergeDefault.
  destruct defaultCreateOption, viewerCanAutoMerge, lastCreateMethod as [[a m d]|];
    simpl; repeat split; try destruct a; try reflexivity.
Qed.

(** *** Witnesses *)

Lemma removeLabel_by_name_witness :
  let '(tr, (out, this'), _) :=
    exec (MoreExamples.studio MoreExamples.smooth) (removeLabel (Some MoreExamples.bug))
      MoreExamples.drafted 0 in
  out = Returned tt
  /\ labels this' = [MoreExamples.docs]
  /\ omap posted_of tr = [SetLabels [MoreExamples.docs]].
Proof.
  pose proof (removeLabel_by_name (MoreExamples.studio MoreExamples.smooth) 0 _
                MoreExamples.drafted _ MoreExamples.bug _ _ eq_refl)
    as (Hout & _ & Hlabels & _ & Hposted & _).
  split; [exact Hout|]. split; [exact Hlabels | exact Hposted].
Defined.

Lemma addAssignees_distinct_witness :
  let '(tr, (out, this'), _) :=
    exec (MoreExamples.studio MoreExamples.smooth) addAssignees MoreExamples.drafted 0 in
  out = Returned tt
  /\ assignees this' = [Examples.bob; Examples.alice]
  /\ NoDup (P.login <$> assignees this').
Proof.
  pose proof (addAssignees_distinct (MoreExamples.studio MoreExamples.smooth) 0 _
                MoreExamples.drafted _ _ _ eq_refl) as (_ & Hout & _ & Hnodup & _).
  split; [exact Hout|]. split; [reflexivity | exact Hnodup].
Defined.

Lemma setReviewers_partition_witness :
  let '(tr, _, _) :=
    exec (MoreExamples.studio MoreExamples.smooth)
      (setReviewers (arg_reviewers MoreExamples.createArgs)) MoreExamples.drafted 0 in
  omap requestReview_of tr
  = [([Examples.bob; Examples.alice], [MoreExamples.carol], true)].
Proof.
  pose proof (setReviewers_partition (MoreExamples.studio MoreExamples.smooth) 0 _
                MoreExamples.drafted _ (arg_reviewers MoreExamples.createArgs) _ _ eq_refl)
    as (_ & Hrequest & _).
  exact Hrequest.
Defined.

Lemma getPullRequestDefaultLabels_from_repository_witness :
  let '(tr, (out, _), _) :=
    exec (MoreExamples.studio MoreExamples.smooth)
      (getPullRequestDefaultLabels (mkRemoteInfo "octo" "widgets")) MoreExamples.drafted 0 in
  omap getLabels_of tr = [("octo", "widgets")]
  /\ exists result, out = Returned result
                    /\ sublist result [MoreExamples.docs; MoreExamples.bug;
                                       MoreExamples.bug_blue].
Proof.
  pose proof (getPullRequestDefaultLabels_from_repository
                (MoreExamples.studio MoreExamples.smooth) 0 _ MoreExamples.drafted _
                (mkRemoteInfo "octo" "widgets") _ _ eq_refl) as (_ & _ & Hfetch).
  destruct (Hfetch ltac:(discriminate)) as (Hcalls & result & Hout & Hsub & _).
  split; [exact Hcalls|]. exists result. split; [exact Hout | exact Hsub].
Defined.

End CreateViewFacts.
(** ** [CreatePullRequestViewProvider]: [checkForChanges] and [create] *)

Module CreateRuns.
Import CreateView.

(** One step of a run: the answer to the next request, or the test that
    the run is waiting for. *)
Ltac crunch Hrun :=
  unfold when in Hrun; cbn -[Z.add Z.sub bool_decide String.eqb String.append] in Hrun.

Ltac step Hrun :=
  match type of Hrun with
  | context [match ?x with _ => _ end] =>
      lazymatch x with
      | context [match _ with _ => _ end] => fail
      | context [bool_decide ?P] => destruct (bool_decide P) eqn:?; crunch Hrun
      | context [String.eqb ?a ?b] => destruct (String.eqb a b) eqn:?; crunch Hrun
      | _ => destruct x eqn:?; crunch Hrun
      end
  end.

(** The run in [Hrun] is over: what is left are facts on its trace. *)
Ltac settle Hrun :=
  finish_run Hrun; cbn -[Z.add Z.sub];
  repeat match goal with
         | |- _ /\ _ => split
         | |- Forall _ _ => constructor
         | |- exists _, _ => eexists
         end;
  try reflexivity; try congruence; try lia.

Section Create.
Context `{Host}.

Lemma create_try_runs {W} (h : Handler Call W) (w w' : W) (l l' : Locals)
    (message : CreateMessage) (tr : list (Event Call)) (out : Outcome unit) :
  exec h (create_try message) l w = (tr, (out, l'), w') ->
  (omap creating_of tr = [] /\ omap done_of tr = [] /\ omap reply_of tr = []
   /\ omap showError_of tr = [])
  /\ Forall (fun e => e.1 = message) (omap throwError_of tr)
  /\ match omap createPullRequest_of tr with
     | [] =>
         createdPR l' = createdPR l /\ omap postCreate_of tr = []
         /\ (out = Returned tt -> omap throwError_of tr <> [])
     | [(head, inl e)] =>
         createdPR l' = createdPR l /\ omap postCreate_of tr = [] /\ out = Thrown e
     | [(head, inr None)] =>
         createdPR l' = None /\ omap postCreate_of tr = [] /\ out = Returned tt
         /\ last (omap throwError_of tr)
            = Some (message,
                    l10n_t "There must be a difference in commits to create a pull request."
                      [])
     | [(head, inr (Some pr))] =>
         createdPR l' = Some pr
         /\ exists r, omap postCreate_of tr = [(pr, r)]
                      /\ out = match r with inl e => Thrown e | inr _ => Returned tt end
     | _ => False
     end
  /\ match omap createPullRequest_of tr, out with
     | [], Returned _ =>
         foldr Z.add 0%Z (omap increment_of tr)
         = (totalIncrement l' - totalIncrement l + (100 - totalIncrement l'))%Z
         /\ (totalIncrement l' = totalIncrement l
             \/ totalIncrement l' = (totalIncrement l + 10)%Z)
         /\ last (omap throwError_of tr)
            = Some (message,
                    l10n_t "No remote branch on {0}/{1} for the merge branch."
                      [compareOwner (args message); compareRepo (args message)])
     | _, _ =>
         foldr Z.add 0%Z (omap increment_of tr)
         = (totalIncrement l' - totalIncrement l)%Z
     end.
Proof.
  intros Hrun. unfold exec, create_try in Hrun. crunch Hrun.
  repeat step Hrun.
  all: settle Hrun.
Qed.

(** The runs of [checkForChanges] say nothing to the webview and do not
    touch the local variables. *)
Lemma checkForChanges_quiet {W} (h : Handler Call W) (w w' : W) (l l' : Locals)
    (tr : list (Event Call)) (out : Outcome bool) :
  exec h checkForChanges l w = (tr, (out, l'), w') ->
  l' = l /\ omap reply_of tr = [] /\ omap creating_of tr = []
  /\ omap done_of tr = [] /\ omap createPullRequest_of tr = []
  /\ omap throwError_of tr = [] /\ omap increment_of tr = [].
Proof.
  intros Hrun. unfold exec, checkForChanges in Hrun. crunch Hrun.
  repeat step Hrun.
  all: settle Hrun.
Qed.

End Create.

End CreateRuns.

(** ** [create]: what every run does *)

Module CreateFacts.
Import CreateView CreateRuns.

Section Create.
Context `{Host}.

(** The runs of the task of [create]: the two reports that open it, the run
    of the [try] block, what the [catch] block does with its error, and the
    three events of the [finally] block. *)
Lemma create_task_runs {W} (h : Handler Call W) (w w' : W) (l l' : Locals)
    (message : CreateMessage) (tr : list (Event Call)) (out : Outcome unit) :
  exec h (create_task message) l w = (tr, (out, l'), w') ->
  exists trT outT wT trC,
    exec h (create_try message) (mkLocals 0 None)
      (h _ (progress_report (l10n_t "Checking for upstream branch" []) 0)
         (h _ (setContext_CREATING true) w).2).2
    = (trT, (outT, l'), wT)
    /\ tr = [Ev (setContext_CREATING true) tt;
             Ev (progress_report (l10n_t "Checking for upstream branch" []) 0) tt]
            ++ trT ++ trC
            ++ [Ev (setContext_CREATING false) tt;
                match createdPR l' with
                | Some pr => Ev (_onDone_fire (Some pr)) tt
                | None => Ev (_replyMessage message) tt
                end;
                Ev (progress_report
                      (match createdPR l' with
                       | Some _ => l10n_t "Pull request created" []
                       | None => l10n_t "Unable to create pull request" []
                       end)
                      (100 - totalIncrement l')) tt]
    /\ match outT, createdPR l' with
       | Returned _, _ => trC = [] /\ out = Returned tt
       | Thrown e, None =>
           trC = [Ev (_throwError message (stripPrefix "GraphQL error: " (e_message e))) tt]
           /\ out = Returned tt
       | Thrown e, Some pr =>
           let shown :=
             Ev (window_showErrorMessage
                   (l10n_t "There was an error creating the pull request: {0}"
                      [e_message e])) tt in
           if String.eqb (e_message e) UNSTABLE_STATUS then
             exists r : Error + unit,
               match r with
               | inr _ => trC = [Ev (postCreate message pr) r; shown] /\ out = Returned tt
               | inl e2 => trC = [Ev (postCreate message pr) r] /\ out = Thrown e2
               end
           else trC = [shown] /\ out = Returned tt
       end.
Proof.
  intros Hrun. unfold create_task in Hrun.
  rewrite exec_bind, exec_call in Hrun.
  destruct (h _ (setContext_CREATING true) w) as [[] w1]. cbv beta iota zeta in Hrun.
  rewrite exec_bind, exec_modify in Hrun. cbv beta iota zeta in Hrun.
  rewrite exec_bind, exec_get in Hrun. cbv beta iota zeta in Hrun.
  rewrite exec_bind, exec_call in Hrun. cbn [totalIncrement set_totalIncrement] in Hrun.
  cbn [snd].
  destruct (h _ (progress_report _ 0) w1) as [[] w2]. cbv beta iota zeta in Hrun.
  rewrite exec_bind, exec_modify in Hrun. cbv beta iota zeta in Hrun.
  cbn [set_createdPR totalIncrement set_totalIncrement] in Hrun.
  rewrite exec_try_finally, exec_try_catch in Hrun. cbn [snd].
  change (set_createdPR None (set_totalIncrement 0 l)) with (mkLocals 0 None) in Hrun.
  destruct (exec h (create_try message) (mkLocals 0 None) w2)
    as [[trT [outT lT]] wT] eqn:Htry.
  exists trT, outT, wT.
  assert (Hfinally : forall w3,
            exec h (create_finally message) lT w3
            = ([Ev (setContext_CREATING false) tt;
                match createdPR lT with
                | Some pr => Ev (_onDone_fire (Some pr)) tt
                | None => Ev (_replyMessage message) tt
                end;
                Ev (progress_report
                      (match createdPR lT with
                       | Some _ => l10n_t "Pull request created" []
                       | None => l10n_t "Unable to create pull request" []
                       end)
                      (100 - totalIncrement lT)) tt],
               (Returned tt, lT),
               (h _ (progress_report
                       (match createdPR lT with
                        | Some _ => l10n_t "Pull request created" []
                        | None => l10n_t "Unable to create pull request" []
                        end)
                       (100 - totalIncrement lT))
                  (match createdPR lT with
                   | Some pr => (h _ (_onDone_fire (Some pr))
                                   (h _ (setContext_CREATING false) w3).2).2
                   | None => (h _ (_replyMessage message)
                                (h _ (setContext_CREATING false) w3).2).2
                   end)).2)).
  { intros w3. unfold exec, create_finally. cbn.
    destruct (h _ (setContext_CREATING false) w3) as [[] w4]. cbn.
    destruct (createdPR lT) as [pr|]; cbn.
    - destruct (h _ (_onDone_fire (Some pr)) w4) as [[] w5]. cbn.
      destruct (h _ (progress_report _ _) w5) as [[] w6]. reflexivity.
    - destruct (h _ (_replyMessage message) w4) as [[] w5]. cbn.
      destruct (h _ (progress_report _ _) w5) as [[] w6]. reflexivity. }
  destruct outT as [[] | e]; cbv beta iota zeta in Hrun.
  { rewrite Hfinally in Hrun. injection Hrun as <- <- <- <-.
    exists []. split; [reflexivity|]. split; [reflexivity|]. split; reflexivity. }
  unfold create_catch in Hrun. rewrite exec_bind, exec_get in Hrun.
  cbv beta iota zeta in Hrun. destruct (createdPR lT) as [pr|] eqn:Hcreated.
  - unfold when in Hrun. destruct (String.eqb (e_message e) UNSTABLE_STATUS).
    + rewrite exec_bind, exec_await in Hrun.
      destruct (h _ (postCreate message pr) wT) as [[e2 | []] w3];
        cbv beta iota zeta in Hrun.
      * rewrite Hfinally in Hrun. injection Hrun as <- <- <- <-.
        exists [Ev (postCreate message pr) (inl e2)]. split; [reflexivity|]. rewrite Hcreated.
        split; [cbn [app]; rewrite <- !app_assoc; reflexivity|].
        exists (inl e2). split; reflexivity.
      * rewrite exec_call in Hrun. destruct (h _ (window_showErrorMessage _) w3) as [[] w4].
        cbv beta iota zeta in Hrun. rewrite Hfinally in Hrun.
        injection Hrun as <- <- <- <-.
        exists [Ev (postCreate message pr) (inr tt);
                Ev (window_showErrorMessage
                      (l10n_t "There was an error creating the pull request: {0}"
                         [e_message e])) tt]. split; [reflexivity|]. rewrite Hcreated.
        split; [cbn [app]; rewrite <- !app_assoc; reflexivity|].
        exists (inr tt). split; reflexivity.
    + rewrite exec_bind, exec_ret in Hrun. cbv beta iota zeta in Hrun.
      rewrite exec_call in Hrun. destruct (h _ (window_showErrorMessage _) wT) as [[] w4].
      cbv beta iota zeta in Hrun. rewrite Hfinally in Hrun.
      injection Hrun as <- <- <- <-.
      exists [Ev (window_showErrorMessage
                      (l10n_t "There was an error creating the pull request: {0}"
                         [e_message e])) tt]. split; [reflexivity|]. rewrite Hcreated.
        split; [cbn [app]; rewrite <- !app_assoc; reflexivity|].
      split; reflexivity.
  - rewrite exec_call in Hrun. destruct (h _ (_throwError message _) wT) as [[] w3].
    cbv beta iota zeta in Hrun. rewrite Hfinally in Hrun.
    injection Hrun as <- <- <- <-.
    exists [Ev (_throwError message (stripPrefix "GraphQL error: " (e_message e))) tt]. split; [reflexivity|]. rewrite Hcreated.
        split; [cbn [app]; rewrite <- !app_assoc; reflexivity|].
    split; reflexivity.
Qed.

(** X25. [checkForChanges] commits at most once, and only a message that is
    not empty, typed after 'Commit' was chosen; what the commit resolves to is
    then the answer.  Without a commit the answer is [false] exactly when the
    warning was shown and was answered by neither of its two buttons; when
    'Commit' was chosen and no message was typed, the answer is [true]: the
    pull request is created without the changes.  The local variables of the
    caller are not touched. *)
Theorem checkForChanges_outcomes {W} (h : Handler Call W) (w w' : W) (l l' : Locals)
    (tr : list (Event Call)) (out : Outcome bool) :
  exec h checkForChanges l w = (tr, (out, l'), w') ->
  let apply := l10n_t "Commit" [] in
  let deleteChanges := l10n_t "Delete my changes" [] in
  l' = l
  /\ match omap applyChanges_of tr with
     | [] =>
         (out = Returned false <->
            exists result, omap warning_of tr = [result]
                           /\ result <> Some apply /\ result <> Some deleteChanges)
         /\ (omap inputBox_of tr <> [] ->
               out = Returned true /\ omap warning_of tr = [Some apply])
     | [(commitMessage, r)] =>
         truthy commitMessage = true
         /\ omap warning_of tr = [Some apply]
         /\ omap inputBox_of tr = [Some commitMessage]
         /\ out = match r with inl e => Thrown e | inr go => Returned go end
     | _ => False
     end.
Proof.
  intros Hrun apply deleteChanges. unfold exec, checkForChanges in Hrun. crunch Hrun.
  fold apply deleteChanges in Hrun.
  repeat step Hrun.
  all: finish_run Hrun; cbn; (split; [reflexivity|]).
  all: repeat match goal with
              | Hd : bool_decide _ = true |- _ => apply bool_decide_eq_true in Hd
              | Hd : bool_decide _ = false |- _ => apply bool_decide_eq_false in Hd
              end.
  all: repeat match goal with
              | |- _ /\ _ => split
              | |- _ <-> _ => split
              | |- _ -> _ => let Hx := fresh in intro Hx; try congruence
              | |- exists _, _ => eexists
              | Hx : exists _, _ |- _ => destruct Hx as (? & ? & ? & ?)
              end;
         try reflexivity; simplify_eq; try congruence; try contradiction;
         try assumption.
Qed.

(** X26. The task of [create] sets the CREATING context first and resets it
    in every run, whatever failed in between, and nowhere else.  After the
    reset it answers exactly once, by firing [onDone] with the pull request
    when one was created and by replying [{}] to the message when none was,
    and it ends with a last progress report.  When no pull request was
    created, the webview has also been sent an error for this message. *)
Theorem create_task_brackets {W} (h : Handler Call W) (w w' : W) (l l' : Locals)
    (message : CreateMessage) (tr : list (Event Call)) (out : Outcome unit) :
  exec h (create_task message) l w = (tr, (out, l'), w') ->
  exists mid complete,
    tr = Ev (setContext_CREATING true) tt
         :: Ev (progress_report (l10n_t "Checking for upstream branch" []) 0) tt
         :: mid
         ++ [Ev (setContext_CREATING false) tt;
             match createdPR l' with
             | Some pr => Ev (_onDone_fire (Some pr)) tt
             | None => Ev (_replyMessage message) tt
             end;
             Ev (progress_report complete (100 - totalIncrement l')) tt]
    /\ omap creating_of mid = [] /\ omap done_of mid = [] /\ omap reply_of mid = []
    /\ Forall (fun e => e.1 = message) (omap throwError_of mid)
    /\ (createdPR l' = None -> omap throwError_of mid <> []).
Proof.
  intros Hrun.
  destruct (create_task_runs h w w' l l' message tr out Hrun)
    as (trT & outT & wT & trC & Htry & -> & Hcatch).
  destruct (create_try_runs h _ _ _ _ _ _ _ Htry)
    as ((Hcreating & Hdone & Hreply & _) & Hthrown & Hpr & _).
  exists (trT ++ trC). eexists. split; [cbn [app]; rewrite <- app_assoc; reflexivity|].
  rewrite !omap_app, Hcreating, Hdone, Hreply. cbn [app].
  assert (Hquiet : omap creating_of trC = [] /\ omap done_of trC = []
                   /\ omap reply_of trC = []
                   /\ Forall (fun e => e.1 = message) (omap throwError_of trC)
                   /\ (createdPR l' = None -> outT <> Returned tt ->
                       omap throwError_of trC <> [])).
  { destruct outT as [[] | e].
    - destruct Hcatch as [-> _]. repeat split; try constructor. congruence.
    - destruct (createdPR l') as [pr|].
      + destruct (String.eqb (e_message e) UNSTABLE_STATUS).
        * destruct Hcatch as ([e2 | []] & -> & _); repeat split; try constructor;
            congruence.
        * destruct Hcatch as [-> _]. repeat split; try constructor; congruence.
      + destruct Hcatch as [-> _]. cbn. repeat split; try constructor; try reflexivity.
        * constructor.
        * intros _ _. discriminate. }
  destruct Hquiet as (-> & -> & -> & HthrownC & Hsome).
  do 3 (split; [reflexivity|]). split; [apply Forall_app; split; assumption|].
  intros Hnone Happ. apply app_eq_nil in Happ as [HnilT HnilC].
  destruct outT as [[] | e]; [|apply Hsome; [exact Hnone | discriminate | exact HnilC]].
  rewrite Hnone in Hpr. cbn [createdPR] in Hpr.
  destruct (omap createPullRequest_of trT) as [|[head [e | [pr|]]] [|]];
    try contradiction.
  - destruct Hpr as (_ & _ & Hsent). exact (Hsent eq_refl HnilT).
  - destruct Hpr as (_ & _ & [=]).
  - destruct Hpr as ([=] & _).
  - destruct Hpr as (? & ? & ? & Hlast). rewrite HnilT in Hlast. discriminate Hlast.
Qed.

(** X27. The task of [create] asks for the pull request at most once.  When
    that request fails, or gives no pull request, none is recorded and the
    webview is sent the error, without its 'GraphQL error: ' prefix, or the
    message that the commits do not differ.  When it gives a pull request,
    [postCreate] runs for it; it runs a second time exactly when it failed
    with the 'unstable status' error.  A failure of the first run is shown to
    the user, also when the second run succeeds, unless the second run fails
    too: then that error escapes the task. *)
Theorem create_task_pull_request {W} (h : Handler Call W) (w w' : W) (l l' : Locals)
    (message : CreateMessage) (tr : list (Event Call)) (out : Outcome unit) :
  exec h (create_task message) l w = (tr, (out, l'), w') ->
  let shown (e : Error) :=
    [l10n_t "There was an error creating the pull request: {0}" [e_message e]] in
  match omap createPullRequest_of tr with
  | [] => createdPR l' = None /\ omap postCreate_of tr = [] /\ omap showError_of tr = []
  | [(head, inl e)] =>
      createdPR l' = None /\ omap postCreate_of tr = [] /\ omap showError_of tr = []
      /\ out = Returned tt
      /\ last (omap throwError_of tr)
         = Some (message, stripPrefix "GraphQL error: " (e_message e))
  | [(head, inr None)] =>
      createdPR l' = None /\ omap postCreate_of tr = [] /\ omap showError_of tr = []
      /\ out = Returned tt
      /\ last (omap throwError_of tr)
         = Some (message,
                 l10n_t "There must be a difference in commits to create a pull request."
                   [])
  | [(head, inr (Some pr))] =>
      createdPR l' = Some pr
      /\ match omap postCreate_of tr with
         | [(pr1, inr _)] => pr1 = pr /\ omap showError_of tr = [] /\ out = Returned tt
         | [(pr1, inl e)] =>
             pr1 = pr /\ e_message e <> UNSTABLE_STATUS
             /\ omap showError_of tr = shown e /\ out = Returned tt
         | [(pr1, inl e); (pr2, r2)] =>
             pr1 = pr /\ pr2 = pr /\ e_message e = UNSTABLE_STATUS
             /\ match r2 with
                | inr _ => omap showError_of tr = shown e /\ out = Returned tt
                | inl e2 => omap showError_of tr = [] /\ out = Thrown e2
                end
         | _ => False
         end
  | _ => False
  end.
Proof.
  intros Hrun shown.
  destruct (create_task_runs h w w' l l' message tr out Hrun)
    as (trT & outT & wT & trC & Htry & -> & Hcatch).
  destruct (create_try_runs h _ _ _ _ _ _ _ Htry)
    as ((_ & _ & _ & Hshow) & _ & Hpr & _).
  assert (HcreateC : omap createPullRequest_of trC = []).
  { destruct outT as [[] | e]; [destruct Hcatch as [-> _]; reflexivity|].
    destruct (createdPR l') as [pr|]; [|destruct Hcatch as [-> _]; reflexivity].
    destruct (String.eqb (e_message e) UNSTABLE_STATUS);
      [destruct Hcatch as ([e2 | []] & -> & _) | destruct Hcatch as [-> _]];
      reflexivity. }
  assert (Hfinal : forall (A : Type) (f : Event Call -> option A) complete,
            f (Ev (setContext_CREATING true) tt) = None ->
            f (Ev (progress_report (l10n_t "Checking for upstream branch" []) 0) tt) = None ->
            f (Ev (setContext_CREATING false) tt) = None ->
            f (match createdPR l' with
               | Some pr => Ev (_onDone_fire (Some pr)) tt
               | None => Ev (_replyMessage message) tt
               end) = None ->
            f (Ev (progress_report complete (100 - totalIncrement l')) tt) = None ->
            omap f ([Ev (setContext_CREATING true) tt;
                     Ev (progress_report (l10n_t "Checking for upstream branch" []) 0) tt]
                    ++ trT ++ trC
                    ++ [Ev (setContext_CREATING false) tt;
                        match createdPR l' with
                        | Some pr => Ev (_onDone_fire (Some pr)) tt
                        | None => Ev (_replyMessage message) tt
                        end;
                        Ev (progress_report complete (100 - totalIncrement l')) tt])
            = omap f trT ++ omap f trC).
  { intros A f complete H1 H2 H3 H4 H5. rewrite !omap_app. cbn [omap list_omap].
    rewrite H1, H2, H3, H4, H5, app_nil_r. reflexivity. }
  assert (Hanswer : forall (A : Type) (f : Event Call -> option A),
            (forall pr, f (Ev (_onDone_fire (Some pr)) tt) = None) ->
            f (Ev (_replyMessage message) tt) = None ->
            f (match createdPR l' with
               | Some pr => Ev (_onDone_fire (Some pr)) tt
               | None => Ev (_replyMessage message) tt
               end) = None).
  { intros A f Hf Hg. destruct (createdPR l'); [apply Hf | exact Hg]. }
  rewrite !Hfinal by (try reflexivity; apply Hanswer; reflexivity).
  rewrite HcreateC, app_nil_r, Hshow. cbn [app].
  destruct (omap createPullRequest_of trT) as [|[head [e | [pr|]]] [|]];
    try contradiction; cbn [createdPR] in Hpr.
  - destruct Hpr as (Hnone & -> & _). rewrite Hnone in *. cbn [app].
    split; [reflexivity|].
    destruct outT as [[] | e]; destruct Hcatch as [-> _]; split; reflexivity.
  - destruct Hpr as (Hnone & -> & ->). rewrite Hnone in *. cbn [app].
    destruct Hcatch as [-> ->]. do 4 (split; [reflexivity|]).
    cbn. rewrite last_snoc. reflexivity.
  - destruct Hpr as (Hsome & r & -> & ->). rewrite Hsome in *.
    split; [reflexivity|]. destruct r as [e | []].
    + destruct (String.eqb (e_message e) UNSTABLE_STATUS) eqn:Hunstable.
      * apply String.eqb_eq in Hunstable.
        destruct Hcatch as ([e2 | []] & -> & ->); cbn;
          repeat split; try reflexivity; exact Hunstable.
      * apply String.eqb_neq in Hunstable. destruct Hcatch as [-> ->]. cbn.
        repeat split; try reflexivity. exact Hunstable.
    + destruct Hcatch as [-> ->]. cbn. repeat split.
  - destruct Hpr as (Hnone & -> & -> & Hlast). rewrite Hnone in *.
    destruct Hcatch as [-> ->]. cbn [app]. do 4 (split; [reflexivity|]).
    rewrite app_nil_r. exact Hlast.
Qed.

Lemma foldr_add_app (a b : list Z) :
  foldr Z.add 0%Z (a ++ b) = (foldr Z.add 0 a + foldr Z.add 0 b)%Z.
Proof. induction a as [|x a IH]; cbn [app foldr]; [reflexivity | rewrite IH; lia]. Qed.

(** X28. The increments that the task of [create] reports add up to 100 in
    every run in which the pull request was asked for.  A run in which they
    do not is one that ends, without a failure, at the missing remote branch
    of the compare branch: the [try] block reports what was left of the 100
    and returns, and the [finally] block reports the same amount again, so
    that the total is 200, or 190 after a push was tried. *)
Theorem create_task_progress {W} (h : Handler Call W) (w w' : W) (l l' : Locals)
    (message : CreateMessage) (tr : list (Event Call)) (out : Outcome unit) :
  exec h (create_task message) l w = (tr, (out, l'), w') ->
  let total := foldr Z.add 0%Z (omap increment_of tr) in
  (omap createPullRequest_of tr <> [] -> total = 100%Z)
  /\ (total = 100%Z
      \/ (total = (200 - totalIncrement l')%Z
          /\ (totalIncrement l' = 0%Z \/ totalIncrement l' = 10%Z)
          /\ omap createPullRequest_of tr = []
          /\ createdPR l' = None
          /\ out = Returned tt
          /\ last (omap throwError_of tr)
             = Some (message,
                     l10n_t "No remote branch on {0}/{1} for the merge branch."
                       [compareOwner (args message); compareRepo (args message)]))).
Proof.
  intros Hrun total.
  destruct (create_task_runs h w w' l l' message tr out Hrun)
    as (trT & outT & wT & trC & Htry & Htr & Hcatch).
  destruct (create_try_runs h _ _ _ _ _ _ _ Htry) as (_ & _ & Hpr & Hsum).
  cbn [totalIncrement createdPR] in Hpr, Hsum.
  assert (HtrC : omap increment_of trC = [] /\ omap createPullRequest_of trC = []
                 /\ (outT = Returned tt -> trC = [] /\ out = Returned tt)).
  { destruct outT as [[] | e]; [destruct Hcatch as [-> ->]; repeat split|].
    destruct (createdPR l') as [pr|];
      [|destruct Hcatch as [-> _]; repeat split; discriminate].
    destruct (String.eqb (e_message e) UNSTABLE_STATUS);
      [destruct Hcatch as ([e2 | []] & -> & _) | destruct Hcatch as [-> _]];
      repeat split; discriminate. }
  destruct HtrC as (HincC & HcreateC & HtrC).
  assert (Hanswer : forall (A : Type) (f : Event Call -> option A),
            (forall pr, f (Ev (_onDone_fire (Some pr)) tt) = None) ->
            f (Ev (_replyMessage message) tt) = None ->
            f (match createdPR l' with
               | Some pr => Ev (_onDone_fire (Some pr)) tt
               | None => Ev (_replyMessage message) tt
               end) = None).
  { intros A f Hf Hg. destruct (createdPR l'); [apply Hf | exact Hg]. }
  assert (Htotal : total = (foldr Z.add 0 (omap increment_of trT)
                            + (100 - totalIncrement l'))%Z).
  { subst total tr. rewrite !omap_app, HincC. cbn [omap list_omap app].
    rewrite Hanswer by reflexivity. cbn. rewrite foldr_add_app. cbn. lia. }
  assert (Hcreate : omap createPullRequest_of tr = omap createPullRequest_of trT).
  { subst tr. rewrite !omap_app, HcreateC. cbn [omap list_omap app].
    rewrite Hanswer by reflexivity. cbn. rewrite app_nil_r. reflexivity. }
  assert (Hthrow : trC = [] -> omap throwError_of tr = omap throwError_of trT).
  { intros ->. subst tr. rewrite !omap_app. cbn [omap list_omap app].
    rewrite Hanswer by reflexivity. cbn. rewrite app_nil_r. reflexivity. }
  rewrite Hcreate, Htotal.
  destruct (omap createPullRequest_of trT) as [|created rest].
  - split; [congruence|]. destruct outT as [[] | e].
    + right. destruct Hsum as (-> & Hpushed & Hlast). destruct Hpr as (Hnone & _).
      destruct (HtrC eq_refl) as [HnilC ->]. rewrite (Hthrow HnilC).
      split; [lia|]. split; [lia|]. split; [reflexivity|]. split; [exact Hnone|].
      split; [reflexivity | exact Hlast].
    + left. rewrite Hsum. lia.
  - assert (Hsum' : foldr Z.add 0%Z (omap increment_of trT) = (totalIncrement l' - 0)%Z)
      by (destruct outT; exact Hsum).
    split; [intros _ | left]; rewrite Hsum'; lia.
Qed.

(** X29. [create] fails only when [checkForChanges] fails, and then nothing
    is answered to the message.  When the check says no, the message is
    answered and nothing else is done.  Otherwise the create method is saved
    and the task is run, in this order, and [create] returns whether or not
    the saving or the task failed. *)
Theorem create_after_check {W} (h : Handler Call W) (w w' : W) (l l' : Locals)
    (message : CreateMessage) (tr : list (Event Call)) (out : Outcome unit) :
  exec h (create message) l w = (tr, (out, l'), w') ->
  let save :=
    workspaceState_update_PREVIOUS_CREATE_METHOD (autoMerge (args message))
      (autoMergeMethod (args message)) (draft (args message)) in
  exists tr0 go w0,
    exec h checkForChanges l w = (tr0, (go, l), w0)
    /\ omap reply_of tr0 = [] /\ omap creating_of tr0 = []
    /\ omap createPullRequest_of tr0 = []
    /\ match go with
       | Thrown e => out = Thrown e /\ tr = tr0 /\ l' = l
       | Returned false =>
           out = Returned tt /\ tr = tr0 ++ [Ev (_replyMessage message) tt] /\ l' = l
       | Returned true =>
           out = Returned tt
           /\ exists tr1 out1,
                exec h (create_task message) l (h _ save w0).2 = (tr1, (out1, l'), w')
                /\ tr = tr0 ++ Ev save (h _ save w0).1 :: tr1
       end.
Proof.
  intros Hrun save. unfold create in Hrun. rewrite exec_bind in Hrun.
  destruct (exec h checkForChanges l w) as [[tr0 [go l0]] w0] eqn:Hcheck.
  destruct (checkForChanges_quiet h _ _ _ _ _ _ Hcheck)
    as (-> & Hreply & Hcreating & _ & Hcreate & _).
  exists tr0, go, w0. do 4 (split; [assumption || reflexivity|]).
  destruct go as [[|] | e]; cbv beta iota zeta in Hrun; cbn [negb] in Hrun.
  - rewrite exec_bind, exec_detached, exec_await in Hrun. fold save in Hrun.
    destruct (h _ save w0) as [saved w1]. cbv beta iota zeta in Hrun.
    rewrite exec_detached in Hrun. cbn [fst snd].
    destruct (exec h (create_task message) l w1) as [[tr1 [out1 l1]] w2].
    injection Hrun as <- <- <- <-. split; [reflexivity|].
    exists tr1, out1. split; reflexivity.
  - rewrite exec_call in Hrun. destruct (h _ (_replyMessage message) w0) as [[] w1].
    injection Hrun as <- <- <- <-. repeat split.
  - injection Hrun as <- <- <- <-. repeat split.
Qed.

End Create.

(** *** Witnesses *)

Lemma checkForChanges_outcomes_witness :
  let '(tr, (out, _), _) :=
    exec (MoreExamples.studio MoreExamples.edited)
      (checkForChanges (H:=MoreExamples.english)) (mkLocals 0 None) 0 in
  out = Returned true /\ omap applyChanges_of tr = []
  /\ omap warning_of tr = [Some "Commit"].
Proof.
  pose proof (checkForChanges_outcomes (H:=MoreExamples.english)
                (MoreExamples.studio MoreExamples.edited) 0 _ (mkLocals 0 None) _ _ _
                eq_refl) as (_ & _ & Htyped).
  destruct (Htyped ltac:(discriminate)) as [Hout Hwarned].
  split; [exact Hout|]. split; [reflexivity | exact Hwarned].
Defined.

Lemma create_task_brackets_witness :
  let '(tr, (_, l'), _) :=
    exec (MoreExamples.studio MoreExamples.smooth)
      (create_task (H:=MoreExamples.english) MoreExamples.createMessage)
      (mkLocals 0 None) 0 in
  createdPR l' = Some MoreExamples.pr42
  /\ exists mid complete,
       tr = Ev (setContext_CREATING true) tt
            :: Ev (progress_report "Checking for upstream branch" 0) tt
            :: mid
            ++ [Ev (setContext_CREATING false) tt;
                Ev (_onDone_fire (Some MoreExamples.pr42)) tt;
                Ev (progress_report complete (100 - totalIncrement l')) tt].
Proof.
  split; [reflexivity|].
  destruct (create_task_brackets (H:=MoreExamples.english)
              (MoreExamples.studio MoreExamples.smooth) 0 _ (mkLocals 0 None) _
              MoreExamples.createMessage _ _ eq_refl)
    as (mid & complete & Htr & _).
  exists mid, complete. exact Htr.
Defined.

Lemma create_task_pull_request_witness :
  let '(tr, (out, l'), _) :=
    exec (MoreExamples.studio MoreExamples.unstable)
      (create_task (H:=MoreExamples.english) MoreExamples.createMessage)
      (mkLocals 0 None) 0 in
  createdPR l' = Some MoreExamples.pr42
  /\ omap showError_of tr
     = ["There was an error creating the pull request: {0}"]
  /\ out = Returned tt.
Proof.
  pose proof (create_task_pull_request (H:=MoreExamples.english)
                (MoreExamples.studio MoreExamples.unstable) 0 _ (mkLocals 0 None) _
                MoreExamples.createMessage _ _ eq_refl)
    as (Hcreated & _ & _ & _ & Hshown & Hout).
  split; [exact Hcreated|]. split; [exact Hshown | exact Hout].
Defined.

Lemma create_task_progress_witness :
  let '(tr, _, _) :=
    exec (MoreExamples.studio MoreExamples.unpublished)
      (create_task (H:=MoreExamples.english) MoreExamples.createMessage)
      (mkLocals 0 None) 0 in
  foldr Z.add 0%Z (omap increment_of tr) = 200%Z
  /\ (omap createPullRequest_of tr <> [] ->
      foldr Z.add 0%Z (omap increment_of tr) = 100%Z).
Proof.
  split; [reflexivity|].
  exact (proj1 (create_task_progress (H:=MoreExamples.english)
                  (MoreExamples.studio MoreExamples.unpublished) 0 _ (mkLocals 0 None) _
                  MoreExamples.createMessage _ _ eq_refl)).
Defined.

Lemma create_after_check_witness :
  let '(tr, (out, _), _) :=
    exec (MoreExamples.studio MoreExamples.smooth)
      (create (H:=MoreExamples.english) MoreExamples.createMessage)
      (mkLocals 0 None) 0 in
  out = Returned tt
  /\ exists tr1, tr = Ev (model_filesHaveChanges) (inr false)
                      :: Ev (workspaceState_update_PREVIOUS_CREATE_METHOD true
                               (Some "squash") false) (inr tt)
                      :: tr1.
Proof.
  destruct (create_after_check (H:=MoreExamples.english)
              (MoreExamples.studio MoreExamples.smooth) 0 _ (mkLocals 0 None) _
              MoreExamples.createMessage _ _ eq_refl)
    as (tr0 & go & w0 & Hcheck & _ & _ & _ & Hgo).
  injection Hcheck as <- <- <-. destruct Hgo as (Hout & tr1 & out1 & _ & Htr).
  split; [exact Hout|]. exists tr1. exact Htr.
Defined.

End CreateFacts.
(** ** [getHubEnsureAdditionalScopes] *)

Section TranslateFacts.
Context {E F : Type -> Type}.

Lemma run_translate {W A} (inj : forall X, E X -> F X) (h : Handler F W) (p : Prog E A) :
  forall w,
    run h (translate inj p) w
    = let '(tr, a, w') := run (fun X c => h X (inj X c)) p w in (relabel inj <$> tr, a, w').
Proof.
  induction p as [a | X c k IH]; intros w; simpl; [reflexivity|].
  destruct (h X (inj X c) w) as [x w1]. rewrite IH.
  destruct (run _ (k x) w1) as [[tr a] w2]. reflexivity.
Qed.

Lemma exec_lift {W S A} (inj : forall X, E X -> F X) (h : Handler F W) (m : M E S A) s w :
  exec h (lift inj m) s w
  = let '(tr, r, w') := exec (fun X c => h X (inj X c)) m s w in (relabel inj <$> tr, r, w').
Proof. unfold exec, lift. apply run_translate. Qed.

End TranslateFacts.

Module CredentialStoreUpgradeFacts.
Import Credentials CredentialStoreUpgrade.

Section Store.
Context `{Host}.

(** X30. [getHubEnsureAdditionalScopes] runs [initialize] for the additional
    scopes, which it requires, and lets it create a session exactly when the
    provider was not yet authenticated with these scopes.  In that case it
    fires [onDidUpgradeSession] once, as its last call, whenever [initialize]
    did not throw: also when the sign-in was cancelled or gave no session.
    It returns the hub that the provider has then, and throws only what
    [initialize] throws. *)
Theorem getHubEnsureAdditionalScopes_upgrades {W} (h : Handler Call W) (w w' : W)
    (this this' : CredentialStore) (authProviderId : AuthProvider)
    (tr : list (Event Call)) (out : Outcome (option GitHub)) :
  exec h (getHubEnsureAdditionalScopes authProviderId) this w = (tr, (out, this'), w') ->
  let hasScopesAlready := isAuthenticatedWithAdditionalScopes authProviderId this in
  exists tr0 out0 w0,
    exec (fun X c => h X (store c))
      (initialize authProviderId (mkOptions (Some (negb hasScopesAlready)) None None)
         (Some SCOPES_WITH_ADDITIONAL) (Some true)) this w
    = (tr0, (out0, this'), w0)
    /\ match out0 with
       | Thrown e =>
           out = Thrown e /\ tr = relabel (@store) <$> tr0 /\ List.filter upgraded tr = []
       | Returned _ =>
           out = Returned (getHub authProviderId this')
           /\ tr = (relabel (@store) <$> tr0)
                   ++ (if hasScopesAlready then [] else [Ev _onDidUpgradeSession_fire tt])
           /\ List.filter upgraded tr
              = (if hasScopesAlready then [] else [Ev _onDidUpgradeSession_fire tt])
       end.
Proof.
  intros Hrun hasScopesAlready. unfold getHubEnsureAdditionalScopes in Hrun.
  rewrite exec_bind, exec_get in Hrun. cbv beta iota zeta in Hrun.
  fold hasScopesAlready in Hrun. rewrite exec_bind, exec_lift in Hrun.
  destruct (exec _ (initialize _ _ _ _) this w) as [[tr0 [out0 this0]] w0].
  assert (Hquiet : List.filter upgraded (relabel (@store) <$> tr0) = []).
  { clear Hrun. induction tr0 as [|e tr0 IH]; [reflexivity | exact IH]. }
  exists tr0, out0, w0. destruct out0 as [r | e]; cbv beta iota zeta in Hrun.
  - rewrite exec_bind in Hrun. unfold when in Hrun.
    destruct hasScopesAlready; cbn [negb] in Hrun.
    + rewrite exec_ret in Hrun. cbv beta iota zeta in Hrun.
      rewrite exec_bind, exec_get in Hrun. cbv beta iota zeta in Hrun.
      rewrite exec_ret in Hrun. injection Hrun as <- <- <- <-.
      rewrite ?app_nil_r. split; [reflexivity|]. split; [reflexivity|].
      split; [reflexivity | exact Hquiet].
    + rewrite exec_call in Hrun. destruct (h _ _onDidUpgradeSession_fire w0) as [[] w1].
      cbv beta iota zeta in Hrun.
      rewrite exec_bind, exec_get in Hrun. cbv beta iota zeta in Hrun.
      rewrite exec_ret in Hrun. injection Hrun as <- <- <- <-.
      rewrite ?app_nil_r. split; [reflexivity|]. split; [reflexivity|].
      split; [reflexivity|]. rewrite List.filter_app, Hquiet. reflexivity.
  - injection Hrun as <- <- <- <-. split; [reflexivity|].
    split; [reflexivity|]. split; [reflexivity | exact Hquiet].
Qed.

End Store.

(** Nobody is signed in and no session is given: the event is fired and
    there is no hub. *)
Lemma getHubEnsureAdditionalScopes_upgrades_witness :
  let '(tr, (out, _), _) :=
    exec (MoreExamples.upgrading MoreExamples.noSession)
      (getHubEnsureAdditionalScopes (H:=Examples.credentialsHost) AuthProvider.github)
      Examples.store tt in
  out = Returned None
  /\ List.filter upgraded tr = [Ev _onDidUpgradeSession_fire tt].
Proof.
  destruct (getHubEnsureAdditionalScopes_upgrades (H:=Examples.credentialsHost)
              (MoreExamples.upgrading MoreExamples.noSession) tt _ Examples.store _
              AuthProvider.github _ _ eq_refl)
    as (tr0 & out0 & w0 & Hinit & Hout).
  injection Hinit as <- <- <-. destruct Hout as (Hout & _ & Hfired).
  split; [exact Hout | exact Hfired].
Defined.

End CredentialStoreUpgradeFacts.
